(** * vscode-sync-settings: the settings store and the repository factory

    A shallow embedding of [src/settings.ts] and [src/repository-factory.ts].
    The two module-level singletons ([$instance] of each file), the settings
    file on disk and the calls made to the logger and to the backends are the
    fields of one [World] (the terminal of [Settings.getTerminal] lives in a
    state of its own, [Terminals.Window]); every function of the source is a
    state-passing computation over it that either fulfils with a value or
    rejects with an error, keeping whatever it already changed (a JavaScript
    exception rolls nothing back).  Each operation runs to completion:
    interleavings of two pending promises are not modelled.

    A file holds bytes; what the code reads from it and writes to it are
    JavaScript strings, decoded from and encoded to UTF-8 ([Utf8] below). *)

From Stdlib Require Import ZArith Ascii.
From stdpp Require Import base strings gmap list.

(** ** SHA-1, the digest of [createHash('SHA1')]

    [$hasher.copy().update(data).digest('hex')] is the SHA-1 digest of the
    UTF-8 bytes of [data], printed as forty lower-case hexadecimal digits;
    [digest_hex] takes those bytes.  Words are 32-bit values held in [Z],
    truncated after each addition and rotation. *)
Module Sha1.
Local Open Scope Z_scope.

Definition mask32 (x : Z) : Z := Z.land x 0xFFFFFFFF.
Definition add32 (x y : Z) : Z := mask32 (x + y).
Definition not32 (x : Z) : Z := Z.lxor x 0xFFFFFFFF.
Definition rotl (n x : Z) : Z :=
  mask32 (Z.lor (Z.shiftl x n) (Z.shiftr x (32 - n))).

Definition bytes_of_string (s : string) : list Z :=
  (fun a => Z.of_N (Ascii.N_of_ascii a)) <$> String.list_ascii_of_string s.

(** The [n] low bytes of [x], most significant first. *)
Fixpoint be_bytes (n : nat) (x : Z) : list Z :=
  match n with
  | O => []
  | S n' => Z.land (Z.shiftr x (8 * Z.of_nat n')) 0xFF :: be_bytes n' x
  end.

(** One [0x80] byte, zeros up to 56 modulo 64, then the bit length. *)
Definition pad (msg : list Z) : list Z :=
  let l := Z.of_nat (length msg) in
  msg ++ [0x80] ++ replicate (Z.to_nat ((55 - l) mod 64)) 0
      ++ be_bytes 8 (8 * l).

Fixpoint words (bs : list Z) : list Z :=
  match bs with
  | a :: b :: c :: d :: rest =>
      Z.lor (Z.shiftl a 24) (Z.lor (Z.shiftl b 16) (Z.lor (Z.shiftl c 8) d))
        :: words rest
  | _ => []
  end.

(** Message schedule: [n] more words after the ones of the block. *)
Fixpoint schedule (n : nat) (w : list Z) : list Z :=
  match n with
  | O => w
  | S n' =>
      let t := length w in
      let back (i : nat) := default 0 (w !! (t - i)%nat) in
      schedule n'
        (w ++ [rotl 1 (Z.lxor (Z.lxor (back 3%nat) (back 8%nat))
                              (Z.lxor (back 14%nat) (back 16%nat)))])
  end.

Definition state : Type := Z * Z * Z * Z * Z.

Definition round (t : nat) (wt : Z) (s : state) : state :=
  let '(a, b, c, d, e) := s in
  let '(f, k) :=
    if (t <? 20)%nat then
      (Z.lor (Z.land b c) (Z.land (not32 b) d), 0x5A827999)
    else if (t <? 40)%nat then
      (Z.lxor (Z.lxor b c) d, 0x6ED9EBA1)
    else if (t <? 60)%nat then
      (Z.lor (Z.lor (Z.land b c) (Z.land b d)) (Z.land c d), 0x8F1BBCDC)
    else
      (Z.lxor (Z.lxor b c) d, 0xCA62C1D6) in
  (add32 (add32 (add32 (add32 (rotl 5 a) f) e) k) wt, a, rotl 30 b, c, d).

Fixpoint rounds (t : nat) (w : list Z) (s : state) : state :=
  match w with
  | [] => s
  | wt :: w' => rounds (S t) w' (round t wt s)
  end.

Definition compress (h : state) (block : list Z) : state :=
  let '(h0, h1, h2, h3, h4) := h in
  let '(a, b, c, d, e) := rounds 0 (schedule 64 block) h in
  (add32 h0 a, add32 h1 b, add32 h2 c, add32 h3 d, add32 h4 e).

Fixpoint blocks (n : nat) (ws : list Z) (h : state) : state :=
  match n with
  | O => h
  | S n' =>
      match ws with
      | [] => h
      | _ => blocks n' (drop 16 ws) (compress h (take 16 ws))
      end
  end.

Definition initial : state :=
  (0x67452301, 0xEFCDAB89, 0x98BADCFE, 0x10325476, 0xC3D2E1F0).

Definition hex_digit (x : Z) : Ascii.ascii :=
  Ascii.ascii_of_N (Z.to_N (if x <? 10 then 48 + x else 87 + x)).

Fixpoint hex (n : nat) (x : Z) : string :=
  match n with
  | O => EmptyString
  | S n' =>
      String (hex_digit (Z.land (Z.shiftr x (4 * Z.of_nat n')) 0xF)) (hex n' x)
  end.

Definition digest_hex (bytes : string) : string :=
  let ws := words (pad (bytes_of_string bytes)) in
  let '(h0, h1, h2, h3, h4) := blocks (length ws) ws initial in
  hex 8 h0 +:+ hex 8 h1 +:+ hex 8 h2 +:+ hex 8 h3 +:+ hex 8 h4.
End Sha1.

(** ** UTF-8, the encoding of [fse.readFile(path, 'utf-8')],
    [fse.writeFile(path, data, {encoding: 'utf-8'})] and [update(data)]

    Reading decodes the bytes of the file to a string, and the decoder
    does not fail on bytes that are not UTF-8: every maximal ill-formed
    sequence becomes U+FFFD, the replacement character.  Writing and
    hashing encode the string again.  So the bytes hashed after a read
    are those of the file only when the file is well-formed UTF-8. *)
Module Utf8.
Local Open Scope N_scope.

Definition code (b : ascii) : N := N_of_ascii b.

Definition between (lo hi : N) (b : ascii) : bool :=
  (lo <=? code b) && (code b <=? hi).

(** The number of bytes of the sequence a byte starts; [0] for a byte that
    starts none (a continuation byte, [C0], [C1], [F5] and above). *)
Definition width (lead : ascii) : nat :=
  if between 0x00 0x7F lead then 1
  else if between 0xC2 0xDF lead then 2
  else if between 0xE0 0xEF lead then 3
  else if between 0xF0 0xF4 lead then 4
  else 0.

Definition continuation : ascii → bool := between 0x80 0xBF.

(** The second byte of a sequence of three or four: narrower than a
    continuation byte after [E0] and [F0] (no overlong form), after [ED]
    (no surrogate) and after [F4] (nothing above U+10FFFF). *)
Definition second (lead : ascii) : ascii → bool :=
  if code lead =? 0xE0 then between 0xA0 0xBF
  else if code lead =? 0xED then between 0x80 0x9F
  else if code lead =? 0xF0 then between 0x90 0xBF
  else if code lead =? 0xF4 then between 0x80 0x8F
  else continuation.

(** U+FFFD, encoded: [EF BF BD]. *)
Definition replacement (rest : string) : string :=
  String "239"%char (String "191"%char (String "189"%char rest)).

(** The encoding of the string that the bytes decode to: a well-formed
    sequence is kept; where none starts, or one breaks off, the bytes taken
    so far give one U+FFFD and decoding resumes at the byte that did not
    fit. *)
Fixpoint scrub (bytes : string) : string :=
  match bytes with
  | EmptyString => EmptyString
  | String b1 r1 =>
      match width b1 with
      | 1%nat => String b1 (scrub r1)
      | 2%nat =>
          match r1 with
          | String b2 r2 =>
              if continuation b2 then String b1 (String b2 (scrub r2))
              else replacement (scrub r1)
          | EmptyString => replacement EmptyString
          end
      | 3%nat =>
          match r1 with
          | String b2 r2 =>
              if second b1 b2 then
                match r2 with
                | String b3 r3 =>
                    if continuation b3
                    then String b1 (String b2 (String b3 (scrub r3)))
                    else replacement (scrub r2)
                | EmptyString => replacement EmptyString
                end
              else replacement (scrub r1)
          | EmptyString => replacement EmptyString
          end
      | 4%nat =>
          match r1 with
          | String b2 r2 =>
              if second b1 b2 then
                match r2 with
                | String b3 r3 =>
                    if continuation b3 then
                      match r3 with
                      | String b4 r4 =>
                          if continuation b4
                          then String b1 (String b2 (String b3
                                 (String b4 (scrub r4))))
                          else replacement (scrub r3)
                      | EmptyString => replacement EmptyString
                      end
                    else replacement (scrub r2)
                | EmptyString => replacement EmptyString
                end
              else replacement (scrub r1)
          | EmptyString => replacement EmptyString
          end
      | _ => replacement (scrub r1)
      end
  end.

(** A JavaScript string, given by its UTF-8 encoding: bytes that decoding
    leaves as they are.  (A string with a lone surrogate has no such
    encoding; the decoder never gives one.) *)
Record Text : Type := {
  encode : string;
  wellformed : scrub encode = encode;
}.

(** [''] *)
Definition empty : Text := {| encode := ""; wellformed := eq_refl |}.

(** The string with the given encoding, if the bytes are one. *)
Definition text (bytes : string) : option Text :=
  match decide (scrub bytes = bytes) with
  | left ok => Some {| encode := bytes; wellformed := ok |}
  | right _ => None
  end.

(** [buffer.toString('utf-8')].  What [scrub] gives is well formed
    ([scrub_idempotent] below), so there always is such a string. *)
Definition decode (bytes : string) : Text :=
  default empty (text (scrub bytes)).
End Utf8.

(** ** Data model *)

(** Modelled from the spec: [repository-type.ts], which declares the enum
    [RepositoryType], is not among the sources.  The spec gives the closed
    enumeration none, file, git, rsync; the code names its members [DUMMY],
    [FILE], [GIT] and [RSYNC].  The field is read from a YAML document, so at
    run time it can hold a value that is none of the four members: [OTHER]
    stands for any such value (its argument is what the error message
    prints). *)
Inductive RepositoryType : Type :=
| DUMMY
| FILE
| GIT
| RSYNC
| OTHER (tag : string).

(** [string | string[]], the value of one hook. *)
Inductive HookCommand : Type :=
| Command (cmd : string)
| Commands (cmds : list string).

(** [interface Hooks]: a JavaScript object from hook name to command. *)
Abbreviation Hooks := (gmap string HookCommand).

(** [interface RepositorySettings]; an optional field that is absent is
    [None]. *)
Record RepositorySettings : Type := {
  branch : option string;
  messages : option (gmap string string);
  path : option string;
  shell : option string;
  type : RepositoryType;
  url : option string;
}.

(** [interface SettingsData], the parsed document. *)
Record SettingsData : Type := {
  extensionKind : option string;
  hooks : option Hooks;
  hostname : option string;
  profile : option string;
  repository : option RepositorySettings;
}.

(** The private fields of [class Settings].  [globalStorageUri] and
    [settingsUri] only name the two files of [File] below. *)
Record Settings : Type := {
  extensionId : string;
  _hash : string;
  _hooks : Hooks;
  _hostname : option string;
  _profile : string;
  _remote : bool;
  _repository : RepositorySettings;
}.

(** The five classes that extend [Repository]. *)
Inductive Variant : Type :=
| DummyRepository
| FileRepository
| LocalGitRepository
| RemoteGitRepository
| RsyncRepository.

(** A backend object: which class it is, and a reference that tells two
    objects of one class apart (each [new] yields a fresh one). *)
Record Repository : Type := {
  variant : Variant;
  ref : nat;
}.

(** The two files [Settings] touches: [settings.yml] in the global storage
    and the bundled [src/resources/default-settings.yml]. *)
Inductive File : Type :=
| SettingsYml
| DefaultSettingsYml.

(** What the code does to its collaborators, in the order it does it. *)
Inductive Event : Type :=
| FsRead (f : File) (bytes : string)
| FsWrite (f : File) (bytes : string)
| LogInfo (label value : string)
| LogRepository (value : option RepositorySettings)
| LogError (message : string)
| New (r : Repository)
| SetProfile (r : Repository) (p : string) (ok : bool)
| Terminate (r : Repository) (ok : bool).

Inductive Error : Type :=
| NotInitialized
| MysteriousType (t : RepositoryType)
| BackendError (r : Repository)
| YamlParseError
| NoSuchFile (f : File).

Record World : Type := {
  settings_yml : option string;
  default_settings_yml : option string;
  Settings_instance : option Settings;
  Repository_instance : option Repository;
  next_ref : nat;
  trace : list Event;
}.

(** [ExtensionContext], as far as [Settings.load] reads it. *)
Record ExtensionContext : Type := {
  extension_id : string;
  extensionKind_is_Workspace : bool;
}.

(** ** The collaborators *)

(** What [yaml.parse] gives: it throws on a syntax error, gives [null] for an
    empty document, a value otherwise.  Both functions of the library work
    on strings, not on bytes; [yaml.stringify] is taken to return a string
    without lone surrogate. *)
Inductive Parsed : Type :=
| ParseThrows
| ParseNull
| ParseValue (data : SettingsData).

Class Yaml : Type := {
  yaml_parse : Utf8.Text -> Parsed;
  yaml_stringify : SettingsData -> Utf8.Text;
}.

(** The [Repository] contract: whether [setProfile] and [terminate] of a
    backend resolve ([true]) or reject, which may depend on all that happened
    before. *)
Class Backends : Type := {
  backend_setProfile : list Event -> Repository -> string -> bool;
  backend_terminate : list Event -> Repository -> bool;
}.

(** ** Promises over the world *)

Inductive Settled (A : Type) : Type :=
| Fulfilled (a : A)
| Rejected (e : Error).
Arguments Fulfilled {A} a.
Arguments Rejected {A} e.

Definition Promise (A : Type) : Type := World -> Settled A * World.

Definition ret {A : Type} (a : A) : Promise A := fun w => (Fulfilled a, w).

Definition throw {A : Type} (e : Error) : Promise A := fun w => (Rejected e, w).

Definition bind {A B : Type} (m : Promise A) (k : A -> Promise B) : Promise B :=
  fun w =>
    match m w with
    | (Fulfilled a, w') => k a w'
    | (Rejected e, w') => (Rejected e, w')
    end.

Notation "'let*' x ':=' m 'in' k" := (bind m (fun x => k))
  (at level 10, x name, m at level 100, k at level 200).
Notation "m '>>' k" := (bind m (fun _ => k))
  (at level 100, k at level 200, right associativity).

Definition emit (e : Event) : Promise unit :=
  fun w =>
    (Fulfilled tt,
     {| settings_yml := settings_yml w;
        default_settings_yml := default_settings_yml w;
        Settings_instance := Settings_instance w;
        Repository_instance := Repository_instance w;
        next_ref := next_ref w;
        trace := trace w ++ [e] |}).

Definition file (f : File) (w : World) : option string :=
  match f with
  | SettingsYml => settings_yml w
  | DefaultSettingsYml => default_settings_yml w
  end.

(** [exists(path)] of [utils/exists]. *)
Definition file_exists (f : File) : Promise bool :=
  fun w =>
    (Fulfilled match file f w with Some _ => true | None => false end, w).

(** [fse.readFile(path, 'utf-8')]: the bytes of the file, decoded.  Reading
    a file that exists is taken to succeed, and so is writing below. *)
Definition readFile (f : File) : Promise Utf8.Text :=
  fun w =>
    match file f w with
    | Some bytes =>
        (Fulfilled (Utf8.decode bytes), snd (emit (FsRead f bytes) w))
    | None => (Rejected (NoSuchFile f), w)
    end.

(** [fse.ensureDir] then [fse.writeFile(settingsUri.fsPath, data,
    {encoding: 'utf-8', ...})]: the file holds the encoded string.  The only
    file ever written is [settings.yml]. *)
Definition writeFile (data : Utf8.Text) : Promise unit :=
  fun w =>
    emit (FsWrite SettingsYml (Utf8.encode data))
      {| settings_yml := Some (Utf8.encode data);
         default_settings_yml := default_settings_yml w;
         Settings_instance := Settings_instance w;
         Repository_instance := Repository_instance w;
         next_ref := next_ref w;
         trace := trace w |}.

(** JavaScript truthiness of a [string | undefined | null]. *)
Definition truthy (v : option string) : bool :=
  match v with
  | Some (String _ _) => true
  | Some EmptyString => false
  | None => false
  end.

Arguments Sha1.digest_hex : simpl never.

(** ** settings.ts *)
Module Settings.
Section WithYaml.
Context {codec : Yaml}.

(** [function defaults()]. *)
Definition defaults : SettingsData :=
  {| extensionKind := None;
     hooks := None;
     hostname := Some "";
     profile := Some "main";
     repository :=
       Some {| branch := None; messages := None; path := Some "";
               shell := None; type := DUMMY; url := None |} |}.

(** [{}], what [yaml.parse(data) ?? {}] falls back to. *)
Definition empty_document : SettingsData :=
  {| extensionKind := None; hooks := None; hostname := None;
     profile := None; repository := None |}.

(** [{ type: RepositoryType.DUMMY }], the initial value of [_repository]. *)
Definition dummy_repository : RepositorySettings :=
  {| branch := None; messages := None; path := None; shell := None;
     type := DUMMY; url := None |}.

(** [new Settings(id, globalStorageUri, settingsUri, remote)] with the
    field initialisers of the class. *)
Definition new (id : string) (remote : bool) : Settings :=
  {| extensionId := id; _hash := ""; _hooks := ∅; _hostname := None;
     _profile := ""; _remote := remote; _repository := dummy_repository |}.

(** [Settings.get()]. *)
Definition get : Promise Settings :=
  fun w =>
    match Settings_instance w with
    | Some this => (Fulfilled this, w)
    | None => (Rejected NotInitialized, w)
    end.

(** [$instance = ...]. *)
Definition put (this : option Settings) : Promise unit :=
  fun w =>
    (Fulfilled tt,
     {| settings_yml := settings_yml w;
        default_settings_yml := default_settings_yml w;
        Settings_instance := this;
        Repository_instance := Repository_instance w;
        next_ref := next_ref w;
        trace := trace w |}).

(** Assignments to fields of [this].  The object is the singleton: every
    caller holds the reference [Settings.get()] or [$instance] gave it, so a
    method changes the one object the world holds. *)
Definition assign (f : Settings -> Settings) : Promise unit :=
  let* this := get in put (Some (f this)).

Definition with_hash (hash : string) (this : Settings) : Settings :=
  {| extensionId := extensionId this; _hash := hash; _hooks := _hooks this;
     _hostname := _hostname this; _profile := _profile this;
     _remote := _remote this; _repository := _repository this |}.

Definition with_profile (p : string) (this : Settings) : Settings :=
  {| extensionId := extensionId this; _hash := _hash this;
     _hooks := _hooks this; _hostname := _hostname this; _profile := p;
     _remote := _remote this; _repository := _repository this |}.

Definition with_remote (remote : bool) (this : Settings) : Settings :=
  {| extensionId := extensionId this; _hash := _hash this;
     _hooks := _hooks this; _hostname := _hostname this;
     _profile := _profile this; _remote := remote;
     _repository := _repository this |}.

Definition with_document (h : Hooks) (host : option string) (p : string)
    (r : RepositorySettings) (this : Settings) : Settings :=
  {| extensionId := extensionId this; _hash := _hash this; _hooks := h;
     _hostname := host; _profile := p; _remote := _remote this;
     _repository := r |}.

(** [private set(data: SettingsData)]. *)
Definition set (data : SettingsData) : Promise unit :=
  emit (LogRepository (repository data)) >>
  (if truthy (profile data)
   then emit (LogInfo "profile:" (default "" (profile data)))
   else emit (LogError "The `profile` property is required")) >>
  (if truthy (hostname data)
   then emit (LogInfo "hostname:" (default "" (hostname data)))
   else ret tt) >>
  (if truthy (extensionKind data)
      && negb (String.eqb (default "" (extensionKind data)) "auto")
   then assign (with_remote
                  (String.eqb (default "" (extensionKind data)) "workspace"))
   else ret tt) >>
  match repository data with
  | Some r =>
      assign (with_document (default ∅ (hooks data)) (hostname data)
                (default "" (profile data)) r)
  | None =>
      assign (with_document (default ∅ (hooks data)) (Some "") ""
                dummy_repository) >>
      emit (LogError "No `repository` property has been defined in the settings")
  end.

(** [if(data)] on what was read: a string that is not empty. *)
Definition present (data : option Utf8.Text) : bool :=
  truthy (Utf8.encode <$> data).

(** [$hasher.copy().update(data ?? '').digest('hex')]. *)
Definition digest (data : option Utf8.Text) : string :=
  Sha1.digest_hex (Utf8.encode (default Utf8.empty data)).

(** [yaml.parse(data) ?? {}]. *)
Definition parse (data : Utf8.Text) : Promise SettingsData :=
  match yaml_parse data with
  | ParseThrows => throw YamlParseError
  | ParseNull => ret empty_document
  | ParseValue d => ret d
  end.

(** [await exists(p) ? await fse.readFile(p, 'utf-8') : null]. *)
Definition read_if_exists (f : File) : Promise (option Utf8.Text) :=
  let* present := file_exists f in
  if present : bool then let* data := readFile f in ret (Some data)
  else ret None.

(** The object [save()] hands to [yaml.stringify]. *)
Definition document (this : Settings) : SettingsData :=
  {| extensionKind := None;
     hooks := if (0 <? size (_hooks this))%nat then Some (_hooks this)
              else None;
     hostname := _hostname this;
     profile := Some (_profile this);
     repository := Some (_repository this) |}.

(** [public async save()]. *)
Definition save : Promise unit :=
  let* this := get in
  let data := yaml_stringify (document this) in
  assign (with_hash (digest (Some data))) >>
  writeFile data.

(** [public async setProfile(profile)]. *)
Definition setProfile (p : string) : Promise unit :=
  assign (with_profile p) >>
  save.

(** [public async reload()]. *)
Definition reload : Promise bool :=
  let* data := read_if_exists SettingsYml in
  let hash := digest data in
  let* this := get in
  if bool_decide (_hash this ≠ hash) then
    (if present data
     then let* parsed := parse (default Utf8.empty data) in set parsed
     else set defaults) >>
    assign (with_hash hash) >>
    ret true
  else
    ret false.

(** [public static async load(context)].  The call
    [void getEditorStorage(context)] is fired and not awaited; it touches
    none of the state modelled here. *)
Definition load (context : ExtensionContext) : Promise Settings :=
  put (Some (new (extension_id context)
               (extensionKind_is_Workspace context))) >>
  let* data := read_if_exists SettingsYml in
  (if present data then
     let* parsed := parse (default Utf8.empty data) in
     set parsed >>
     assign (with_hash (digest data))
   else
     let* bundled := file_exists DefaultSettingsYml in
     if bundled : bool then
       let* data := readFile DefaultSettingsYml in
       let* parsed := parse data in
       set parsed >>
       writeFile data >>
       assign (with_hash (digest (Some data)))
     else
       set defaults >>
       save) >>
  get.
End WithYaml.
End Settings.

(** ** repository-factory.ts *)
Module RepositoryFactory.
Section WithBackends.
Context {codec : Yaml} {contract : Backends}.

(** Reading and assigning the module's [$instance]. *)
Definition instance : Promise (option Repository) :=
  fun w => (Fulfilled (Repository_instance w), w).

Definition put (r : option Repository) : Promise unit :=
  fun w =>
    (Fulfilled tt,
     {| settings_yml := settings_yml w;
        default_settings_yml := default_settings_yml w;
        Settings_instance := Settings_instance w;
        Repository_instance := r;
        next_ref := next_ref w;
        trace := trace w |}).

(** [$instance = new C(settings)] for one of the five classes [C]: a fresh
    object, assigned to [$instance].  The constructors are taken to
    succeed. *)
Definition construct (v : Variant) : Promise unit :=
  fun w =>
    let r := {| variant := v; ref := next_ref w |} in
    emit (New r)
      {| settings_yml := settings_yml w;
         default_settings_yml := default_settings_yml w;
         Settings_instance := Settings_instance w;
         Repository_instance := Some r;
         next_ref := S (next_ref w);
         trace := trace w |}.

(** [r.setProfile(profile)] and [r.terminate()] of the contract. *)
Definition call_setProfile (r : Repository) (p : string) : Promise unit :=
  fun w =>
    let ok := backend_setProfile (trace w) r p in
    (emit (SetProfile r p ok) >>
     if ok then ret tt else throw (BackendError r)) w.

Definition call_terminate (r : Repository) : Promise unit :=
  fun w =>
    let ok := backend_terminate (trace w) r in
    (emit (Terminate r ok) >>
     if ok then ret tt else throw (BackendError r)) w.

(** [async function create(settings)].  [settings] is the reference
    [Settings.get()] returned, so its fields are read from the singleton as
    it is when [create] runs. *)
Definition create : Promise unit :=
  put None >>
  let* settings := Settings.get in
  (match type (_repository settings) with
   | DUMMY => construct DummyRepository
   | FILE => construct FileRepository
   | GIT =>
       if truthy (path (_repository settings)) then
         construct LocalGitRepository
       else if truthy (url (_repository settings)) then
         construct RemoteGitRepository
       else ret tt
   | RSYNC => construct RsyncRepository
   | OTHER _ => ret tt
   end) >>
  let* created := instance in
  match created with
  | None => throw (MysteriousType (type (_repository settings)))
  | Some r => call_setProfile r (_profile settings)
  end.

(** [RepositoryFactory.get()].  [create] rejects when it leaves [$instance]
    unset, so the last [None] below, the [undefined] that [$instance!]
    would let through, is never reached. *)
Definition get : Promise Repository :=
  let* current := instance in
  match current with
  | Some r => ret r
  | None =>
      Settings.get >>
      create >>
      let* created := instance in
      match created with
      | Some r => ret r
      | None => throw NotInitialized
      end
  end.

(** [RepositoryFactory.reload()]. *)
Definition reload : Promise bool :=
  Settings.get >>
  let* changed := Settings.reload in
  if changed : bool then
    let* current := instance in
    (match current with
     | Some r => call_terminate r >> create
     | None => ret tt
     end) >>
    ret true
  else
    ret false.

(** [RepositoryFactory.reset()]. *)
Definition reset : Promise unit :=
  let* current := instance in
  match current with
  | Some r => call_terminate r >> put None
  | None => ret tt
  end.

(** [RepositoryFactory.setProfile(profile)]. *)
Definition setProfile (p : string) : Promise unit :=
  let* current := instance in
  (match current with
   | Some r => call_setProfile r p
   | None => ret tt
   end) >>
  Settings.get >>
  Settings.setProfile p.
End WithBackends.
End RepositoryFactory.

(** ** settings.ts: the shared terminal

    [Settings.getTerminal] keeps one terminal of the editor in the
    module-level [$terminal].  The window of the editor is a second, separate
    piece of state: the terminal held, a counter for fresh terminal objects
    and the calls made to the editor.  Whether the process of a terminal is
    still there ([processId] resolves to a number) is up to the editor. *)
Module Terminals.

(** The options [window.createTerminal] is called with, kept by the terminal
    as [creationOptions]. *)
Record TerminalOptions : Type := {
  name : string;
  cwd : string;
  isTransient : bool;
}.

Record Terminal : Type := {
  creationOptions : TerminalOptions;
  terminal_ref : nat;
}.

Inductive WindowEvent : Type :=
| CreateTerminal (t : Terminal)
| Dispose (t : Terminal)
| ProcessId (t : Terminal) (running : bool)
| Show (t : Terminal) (preserveFocus : bool).

Record Window : Type := {
  terminal_instance : option Terminal;
  next_terminal : nat;
  calls : list WindowEvent;
}.

(** What [await $terminal.processId] gives: [true] for a process id,
    [false] for [undefined]. *)
Class Processes : Type := {
  process_running : list WindowEvent -> Terminal -> bool;
}.

Section WithProcesses.
Context {editor : Processes}.

Definition call (e : WindowEvent) (win : Window) : Window :=
  {| terminal_instance := terminal_instance win;
     next_terminal := next_terminal win;
     calls := calls win ++ [e] |}.

(** [$terminal = window.createTerminal({ name: 'Sync Settings', cwd:
    workingDirectory, isTransient: true })]. *)
Definition createTerminal (workingDirectory : string) (win : Window)
    : Terminal * Window :=
  let t := {| creationOptions :=
                {| name := "Sync Settings"; cwd := workingDirectory;
                   isTransient := true |};
              terminal_ref := next_terminal win |} in
  (t, {| terminal_instance := Some t;
         next_terminal := S (next_terminal win);
         calls := calls win ++ [CreateTerminal t] |}).

(** [public static async getTerminal(workingDirectory)].  Each branch leaves
    in [$terminal] the terminal it hands on, which is then shown and
    returned. *)
Definition getTerminal (workingDirectory : string) (win : Window)
    : Terminal * Window :=
  let '(t, win') :=
    match terminal_instance win with
    | None => createTerminal workingDirectory win
    | Some t =>
        if negb (String.eqb (cwd (creationOptions t)) workingDirectory) then
          createTerminal workingDirectory (call (Dispose t) win)
        else
          let running := process_running (calls win) t in
          let win' := call (ProcessId t running) win in
          if running then (t, win')
          else createTerminal workingDirectory win'
    end in
  (t, call (Show t false) win').

(** The host asks for a terminal in one directory after the other. *)
Definition open_all (dirs : list string) (win : Window) : Window :=
  foldl (fun win workingDirectory => (getTerminal workingDirectory win).2)
    win dirs.
End WithProcesses.

(** The terminal a call to the editor is about, and the terminals created. *)
Definition window_subject (e : WindowEvent) : Terminal :=
  match e with
  | CreateTerminal t | Dispose t | ProcessId t _ | Show t _ => t
  end.

Definition creation (e : WindowEvent) : option Terminal :=
  match e with
  | CreateTerminal t => Some t
  | _ => None
  end.

Definition created (l : list WindowEvent) : list Terminal := omap creation l.

(** Nothing is asked of a terminal after it has been disposed of. *)
Definition no_use_after_dispose (l : list WindowEvent) : Prop :=
  ∀ before after t,
    l = before ++ Dispose t :: after →
    ∀ e, e ∈ after → window_subject e ≠ t.

(** What holds of a window whatever terminal it holds, and what holds of the
    terminal it holds. *)
Record sane (win : Window) : Prop := {
  terminals_below : ∀ e, e ∈ calls win →
                         terminal_ref (window_subject e) < next_terminal win;
  terminals_distinct : NoDup (terminal_ref <$> created (calls win));
  disposed_for_good : no_use_after_dispose (calls win);
}.

Record healthy (win : Window) : Prop := {
  healthy_sane : sane win;
  held_below : ∀ t, terminal_instance win = Some t →
                    terminal_ref t < next_terminal win;
  held_not_disposed : ∀ t, terminal_instance win = Some t →
                           Dispose t ∉ calls win;
}.
End Terminals.

(** ** Vocabulary of the properties *)

(** A string field that is set: present and not the empty string. *)
Definition nonempty (v : option string) : Prop := ∃ s, v = Some s ∧ s ≠ "".

(** The backend class that goes with a [repository] section: one per type,
    and for [git] the local class when [path] is set, the remote one when
    only [url] is. *)
Inductive Matches (r : RepositorySettings) : Variant → Prop :=
| matches_dummy : type r = DUMMY → Matches r DummyRepository
| matches_file : type r = FILE → Matches r FileRepository
| matches_local_git :
    type r = GIT → nonempty (path r) → Matches r LocalGitRepository
| matches_remote_git :
    type r = GIT → ¬ nonempty (path r) → nonempty (url r) →
    Matches r RemoteGitRepository
| matches_rsync : type r = RSYNC → Matches r RsyncRepository.

(** The calls made to backends, among all events. *)
Definition is_backend_call (e : Event) : bool :=
  match e with
  | New _ | SetProfile _ _ _ | Terminate _ _ => true
  | _ => false
  end.

Definition backend_calls (t : list Event) : list Event :=
  List.filter is_backend_call t.

(** The bytes of the last read or write of a file, if there was one. *)
Definition transferred (e : Event) : option string :=
  match e with
  | FsRead _ bytes | FsWrite _ bytes => Some bytes
  | _ => None
  end.

Definition last_bytes (t : list Event) : option string :=
  last (omap transferred t).

(** The events of reading a file when it exists. *)
Definition reads (f : File) (w : World) : list Event :=
  match file f w with
  | Some bytes => [FsRead f bytes]
  | None => []
  end.

(** A world that differs in the settings store only, and one that differs in
    the factory only. *)
Definition with_store (disk : option string) (inst : option Settings)
    (t : list Event) (w : World) : World :=
  {| settings_yml := disk;
     default_settings_yml := default_settings_yml w;
     Settings_instance := inst;
     Repository_instance := Repository_instance w;
     next_ref := next_ref w;
     trace := t |}.

Definition with_backend (inst : option Repository) (n : nat) (t : list Event)
    (w : World) : World :=
  {| settings_yml := settings_yml w;
     default_settings_yml := default_settings_yml w;
     Settings_instance := Settings_instance w;
     Repository_instance := inst;
     next_ref := n;
     trace := t |}.

(** The class [create] instantiates, read off its chain of tests. *)
Definition resolve (r : RepositorySettings) : option Variant :=
  match type r with
  | DUMMY => Some DummyRepository
  | FILE => Some FileRepository
  | GIT =>
      if truthy (path r) then Some LocalGitRepository
      else if truthy (url r) then Some RemoteGitRepository
      else None
  | RSYNC => Some RsyncRepository
  | OTHER _ => None
  end.

(** The error [set] logs for a document without [repository]. *)
Definition complaint : Event :=
  LogError "No `repository` property has been defined in the settings".

(** What reading a file that may be absent gives: its bytes, decoded. *)
Definition decoded (disk : option string) : option Utf8.Text :=
  Utf8.decode <$> disk.

(** The string [load] hands to [yaml.parse], if any: the one read from
    [settings.yml] when that is not empty, else the one read from the
    bundled default. *)
Definition parsed_by_load (w : World) : option Utf8.Text :=
  if Settings.present (decoded (settings_yml w))
  then decoded (settings_yml w)
  else decoded (default_settings_yml w).

(** What [set(data)] leaves in the fields of [this], and what it logs. *)
Definition fields_after_set (data : SettingsData) (this : Settings) : Settings :=
  let this' :=
    if truthy (extensionKind data)
       && negb (String.eqb (default "" (extensionKind data)) "auto")
    then Settings.with_remote
           (String.eqb (default "" (extensionKind data)) "workspace") this
    else this in
  match repository data with
  | Some r =>
      Settings.with_document (default ∅ (hooks data)) (hostname data)
        (default "" (profile data)) r this'
  | None =>
      Settings.with_document (default ∅ (hooks data)) (Some "") ""
        Settings.dummy_repository this'
  end.

Definition log_of_set (data : SettingsData) : list Event :=
  [LogRepository (repository data)]
  ++ [if truthy (profile data)
      then LogInfo "profile:" (default "" (profile data))
      else LogError "The `profile` property is required"]
  ++ (if truthy (hostname data)
      then [LogInfo "hostname:" (default "" (hostname data))]
      else [])
  ++ match repository data with
     | Some _ => []
     | None => [complaint]
     end.

(** The document [load] and [reload] hand to [set] for what they read from
    [settings.yml]: the parsed one, [{}] for [null], [defaults()] when the
    file is absent or empty; [None] when [yaml.parse] throws. *)
Definition incoming {codec : Yaml} (data : option Utf8.Text)
    : option SettingsData :=
  if Settings.present data then
    match yaml_parse (default Utf8.empty data) with
    | ParseThrows => None
    | ParseNull => Some Settings.empty_document
    | ParseValue d => Some d
    end
  else Some Settings.defaults.

(** The object [load] ends with after it has set [data] parsed from
    [text]. *)
Definition loaded (context : ExtensionContext) (text : Utf8.Text)
    (data : SettingsData) : Settings :=
  Settings.with_hash (Settings.digest (Some text))
    (fields_after_set data
       (Settings.new (extension_id context)
          (extensionKind_is_Workspace context))).

(** The user replaces or deletes [settings.yml] outside the process. *)
Definition edited (disk : option string) (w : World) : World :=
  {| settings_yml := disk;
     default_settings_yml := default_settings_yml w;
     Settings_instance := Settings_instance w;
     Repository_instance := Repository_instance w;
     next_ref := next_ref w;
     trace := trace w |}.

(** What can happen to a world: a call of one of the operations the two
    modules export, or an edit of the file from outside. *)
Inductive Call : Type :=
| Settings_load (context : ExtensionContext)
| Settings_save
| Settings_reload
| Settings_setProfile (p : string)
| Factory_get
| Factory_reload
| Factory_reset
| Factory_setProfile (p : string)
| External_edit (disk : option string).

Definition run {codec : Yaml} {contract : Backends} (c : Call) (w : World)
    : World :=
  match c with
  | Settings_load context => (Settings.load context w).2
  | Settings_save => (Settings.save w).2
  | Settings_reload => (Settings.reload w).2
  | Settings_setProfile p => (Settings.setProfile p w).2
  | Factory_get => (RepositoryFactory.get w).2
  | Factory_reload => (RepositoryFactory.reload w).2
  | Factory_reset => (RepositoryFactory.reset w).2
  | Factory_setProfile p => (RepositoryFactory.setProfile p w).2
  | External_edit disk => edited disk w
  end.

Definition run_all {codec : Yaml} {contract : Backends} (calls : list Call)
    (w : World) : World :=
  foldl (fun w c => run c w) w calls.

(** A backend is live only if the settings are initialised. *)
Definition consistent (w : World) : Prop :=
  is_Some (Repository_instance w) → is_Some (Settings_instance w).

(** A computation that keeps the worlds consistent and the settings
    initialised. *)
Definition steady {A : Type} (m : Promise A) : Prop :=
  ∀ w, (consistent w → consistent (m w).2)
       ∧ (is_Some (Settings_instance w)
          → is_Some (Settings_instance (m w).2)).

(** The bytes handed to [fse.writeFile], among all events. *)
Definition written (e : Event) : option string :=
  match e with
  | FsWrite _ bytes => Some bytes
  | _ => None
  end.

Definition writes (t : list Event) : list string := omap written t.

(** The settings in memory hold the digest [reload] would compute now: that
    of the string [settings.yml] decodes to (of the empty string when the
    file is absent). *)
Definition in_sync (w : World) : Prop :=
  ∃ this, Settings_instance w = Some this
          ∧ _hash this = Settings.digest (decoded (settings_yml w)).

(** A computation that leaves the factory alone: its cached instance, its
    counter of references, and no call to a backend. *)
Definition quiet {A : Type} (m : Promise A) : Prop :=
  ∀ w, Repository_instance (m w).2 = Repository_instance w
       ∧ next_ref (m w).2 = next_ref w
       ∧ backend_calls (trace (m w).2) = backend_calls (trace w).

(** The backend object a call is made on, and the objects constructed. *)
Definition subject (e : Event) : option Repository :=
  match e with
  | New r | SetProfile r _ _ | Terminate r _ => Some r
  | _ => None
  end.

Definition construction (e : Event) : option Repository :=
  match e with
  | New r => Some r
  | _ => None
  end.

Definition constructed (t : list Event) : list Repository :=
  omap construction t.

(** What the factory shows of a world: the cached instance, the counter and
    the calls made to backends so far. *)
Record View : Type := {
  cached : option Repository;
  counter : nat;
  history : list Event;
}.

Definition view (w : World) : View :=
  {| cached := Repository_instance w;
     counter := next_ref w;
     history := backend_calls (trace w) |}.

(** The six things a call can do to that view. *)
Inductive Transition (v : View) : View → Prop :=
| stays : Transition v v
| first_instance class p ok :
    cached v = None →
    let r := {| variant := class; ref := counter v |} in
    Transition v
      {| cached := Some r; counter := S (counter v);
         history := history v ++ [New r; SetProfile r p ok] |}
| profile_switched r p ok :
    cached v = Some r →
    Transition v
      {| cached := Some r; counter := counter v;
         history := history v ++ [SetProfile r p ok] |}
| terminate_failed r :
    cached v = Some r →
    Transition v
      {| cached := Some r; counter := counter v;
         history := history v ++ [Terminate r false] |}
| dropped r :
    cached v = Some r →
    Transition v
      {| cached := None; counter := counter v;
         history := history v ++ [Terminate r true] |}
| replaced r class p ok :
    cached v = Some r →
    let r' := {| variant := class; ref := counter v |} in
    Transition v
      {| cached := Some r'; counter := S (counter v);
         history := history v ++ [Terminate r true; New r';
                                  SetProfile r' p ok] |}.

(** No call is made on an object after its [terminate] has succeeded. *)
Definition no_use_after_terminate (h : list Event) : Prop :=
  ∀ before after r,
    h = before ++ Terminate r true :: after →
    ∀ e, e ∈ after → subject e ≠ Some r.

(** What holds of the view of every world the host can reach. *)
Record well_formed (v : View) : Prop := {
  subjects_below : ∀ e r, e ∈ history v → subject e = Some r →
                          ref r < counter v;
  subjects_constructed : ∀ e r, e ∈ history v → subject e = Some r →
                                New r ∈ history v;
  cached_is_last : ∀ r, cached v = Some r →
                        last (constructed (history v)) = Some r;
  cached_not_terminated : ∀ r, cached v = Some r →
                               Terminate r true ∉ history v;
  references_distinct : NoDup (ref <$> constructed (history v));
  terminated_or_cached : ∀ r, New r ∈ history v →
                              Terminate r true ∈ history v
                              ∨ cached v = Some r;
  terminated_for_good : no_use_after_terminate (history v);
}.

(** ** A sample host

    Concrete collaborators to run the code on: a YAML codec that knows the
    documents of a table, each with the UTF-8 encoding of its text (it
    parses the empty text to [null] and throws on any other text), and
    backends whose [setProfile] fails for the profile
    [missing] and whose [terminate] always succeeds. *)
Module Sample.
Definition nl : string := String (Ascii.ascii_of_nat 10) EmptyString.

Definition lines (ls : list string) : string :=
  foldr (fun l rest => l +:+ nl +:+ rest) EmptyString ls.

Definition section (t : RepositoryType) (p u : option string)
    : RepositorySettings :=
  {| branch := None; messages := None; path := p; shell := None;
     type := t; url := u |}.

Definition doc (p : string) (r : option RepositorySettings) : SettingsData :=
  {| extensionKind := None; hooks := None; hostname := None;
     profile := Some p; repository := r |}.

(** Six documents and the text of each. *)
Definition file_main : SettingsData :=
  doc "main" (Some (section FILE (Some "/srv/sync") None)).
Definition file_main_text : string :=
  lines ["profile: main"; "repository:"; "  path: /srv/sync";
         "  type: file"].

Definition file_work : SettingsData :=
  doc "work" (Some (section FILE (Some "/srv/sync") None)).
Definition file_work_text : string :=
  lines ["profile: work"; "repository:"; "  path: /srv/sync";
         "  type: file"].

Definition git_remote : SettingsData :=
  doc "main"
    (Some (section GIT None (Some "git@example.org:me/settings.git"))).
Definition git_remote_text : string :=
  lines ["profile: main"; "repository:"; "  type: git";
         "  url: git@example.org:me/settings.git"].

Definition git_both : SettingsData :=
  doc "main"
    (Some (section GIT (Some "/home/me/settings")
             (Some "git@example.org:me/settings.git"))).
Definition git_both_text : string :=
  lines ["profile: main"; "repository:"; "  path: /home/me/settings";
         "  type: git"; "  url: git@example.org:me/settings.git"].

Definition webdav : SettingsData :=
  doc "main" (Some (section (OTHER "webdav") None None)).
Definition webdav_text : string :=
  lines ["profile: main"; "repository:"; "  type: webdav"].

Definition no_repository : SettingsData := doc "main" None.
Definition no_repository_text : string := lines ["profile: main"].

(** A file saved in Latin-1: the last letter of its path is the one byte
    [E9], which is not UTF-8.  What is read has U+FFFD in its place. *)
Definition latin1_bytes : string :=
  lines ["profile: main"; "repository:";
         "  path: /srv/caf" +:+ String "233"%char EmptyString;
         "  type: file"].

Definition latin1 : SettingsData :=
  doc "main"
    (Some (section FILE (Some ("/srv/caf" +:+ Utf8.replacement EmptyString))
             None)).
Definition latin1_text : string :=
  lines ["profile: main"; "repository:";
         "  path: /srv/caf" +:+ Utf8.replacement EmptyString;
         "  type: file"].

Definition table : list (string * SettingsData) :=
  [ (file_main_text, file_main); (file_work_text, file_work);
    (git_remote_text, git_remote); (git_both_text, git_both);
    (webdav_text, webdav); (no_repository_text, no_repository);
    (latin1_text, latin1) ].

#[local] Instance RepositoryType_eq_dec : EqDecision RepositoryType.
Proof. solve_decision. Defined.
#[local] Instance HookCommand_eq_dec : EqDecision HookCommand.
Proof. solve_decision. Defined.
#[local] Instance RepositorySettings_eq_dec : EqDecision RepositorySettings.
Proof. solve_decision. Defined.
#[local] Instance SettingsData_eq_dec : EqDecision SettingsData.
Proof. solve_decision. Defined.

Definition yaml : Yaml :=
  {| yaml_parse text :=
       match List.find (fun row => String.eqb (fst row) (Utf8.encode text))
               table with
       | Some row => ParseValue (snd row)
       | None =>
           if String.eqb (Utf8.encode text) "" then ParseNull
           else ParseThrows
       end;
     yaml_stringify data :=
       Utf8.decode
         match List.find (fun row => bool_decide (snd row = data)) table with
         | Some row => fst row
         | None => lines ["{}"]
         end |}.

Definition backends : Backends :=
  {| backend_setProfile _ _ p := negb (String.eqb p "missing");
     backend_terminate _ _ := true |}.

Definition context : ExtensionContext :=
  {| extension_id := "zokugun.sync-settings";
     extensionKind_is_Workspace := false |}.

(** The process starts: nothing is initialised, [settings.yml] holds
    [disk], no default document is bundled. *)
Definition boot (disk : option string) : World :=
  {| settings_yml := disk; default_settings_yml := None;
     Settings_instance := None; Repository_instance := None;
     next_ref := 0; trace := [] |}.

(** After [Settings.load] on a given [settings.yml], and after a first
    [RepositoryFactory.get] on top of it. *)
Definition started (disk : option string) : World :=
  snd (Settings.load (codec := yaml) context (boot disk)).

Definition live (disk : option string) : World :=
  snd (RepositoryFactory.get (contract := backends) (started disk)).

(** The settings object a world holds. *)
Definition settings_of (w : World) : Settings :=
  default (Settings.new "" false) (Settings_instance w).

(** A document without profile, and one that forces the extension kind. *)
Definition no_profile : SettingsData :=
  {| extensionKind := None; hooks := None; hostname := None;
     profile := None;
     repository := Some (section FILE (Some "/srv/sync") None) |}.

Definition forced_workspace : SettingsData :=
  {| extensionKind := Some "workspace"; hooks := None; hostname := None;
     profile := Some "main";
     repository := Some (section FILE (Some "/srv/sync") None) |}.

(** Backends that refuse to terminate. *)
Definition stubborn : Backends :=
  {| backend_setProfile _ _ _ := true;
     backend_terminate _ _ := false |}.

(** An editor in which the process of the first terminal is gone and the
    others run, and its window before any terminal is asked for. *)
Definition editor : Terminals.Processes :=
  {| Terminals.process_running _ t :=
       negb (Nat.eqb (Terminals.terminal_ref t) 0) |}.

Definition window : Terminals.Window :=
  {| Terminals.terminal_instance := None;
     Terminals.next_terminal := 0;
     Terminals.calls := [] |}.

(** A session of the host: start, use a backend, reset, use one again, see
    the file changed to a git repository, switch profile. *)
Definition session : list Call :=
  [Settings_load context; Factory_get; Factory_reset; Factory_get;
   External_edit (Some git_remote_text); Factory_reload;
   Factory_setProfile "work"].

(** The directories a terminal is asked for, one after the other. *)
Definition directories : list string :=
  ["/srv/sync"; "/home/me/settings"; "/home/me/settings"].
End Sample.

(** ** Basic facts *)

Lemma scrub_cons b1 r1 :
  Utf8.scrub (String b1 r1) =
    match Utf8.width b1 with
    | 1 => String b1 (Utf8.scrub r1)
    | 2 =>
        match r1 with
        | String b2 r2 =>
            if Utf8.continuation b2 then String b1 (String b2 (Utf8.scrub r2))
            else Utf8.replacement (Utf8.scrub r1)
        | EmptyString => Utf8.replacement EmptyString
        end
    | 3 =>
        match r1 with
        | String b2 r2 =>
            if Utf8.second b1 b2 then
              match r2 with
              | String b3 r3 =>
                  if Utf8.continuation b3
                  then String b1 (String b2 (String b3 (Utf8.scrub r3)))
                  else Utf8.replacement (Utf8.scrub r2)
              | EmptyString => Utf8.replacement EmptyString
              end
            else Utf8.replacement (Utf8.scrub r1)
        | EmptyString => Utf8.replacement EmptyString
        end
    | 4 =>
        match r1 with
        | String b2 r2 =>
            if Utf8.second b1 b2 then
              match r2 with
              | String b3 r3 =>
                  if Utf8.continuation b3 then
                    match r3 with
                    | String b4 r4 =>
                        if Utf8.continuation b4
                        then String b1 (String b2 (String b3
                               (String b4 (Utf8.scrub r4))))
                        else Utf8.replacement (Utf8.scrub r3)
                    | EmptyString => Utf8.replacement EmptyString
                    end
                  else Utf8.replacement (Utf8.scrub r2)
              | EmptyString => Utf8.replacement EmptyString
              end
            else Utf8.replacement (Utf8.scrub r1)
        | EmptyString => Utf8.replacement EmptyString
        end
    | _ => Utf8.replacement (Utf8.scrub r1)
    end.
Proof. destruct r1 as [|b2 [|b3 [|b4 r4]]]; reflexivity. Qed.

Lemma scrub_replacement r :
  Utf8.scrub (Utf8.replacement r) = Utf8.replacement (Utf8.scrub r).
Proof. reflexivity. Qed.

Lemma scrub_idempotent_upto n :
  ∀ s, String.length s ≤ n → Utf8.scrub (Utf8.scrub s) = Utf8.scrub s.
Proof.
  induction n as [|n IH]; intros s Hn.
  { destruct s; [reflexivity | simpl in Hn; lia]. }
  destruct s as [|b1 r1]; [reflexivity|]. simpl in Hn.
  assert (∀ r, String.length r ≤ n →
            Utf8.scrub (Utf8.replacement (Utf8.scrub r))
            = Utf8.replacement (Utf8.scrub r)) as Hrep.
  { intros r Hr. rewrite scrub_replacement. by rewrite IH. }
  rewrite (scrub_cons b1 r1).
  destruct (Utf8.width b1) as [|[|[|[|[|k]]]]] eqn:Hw;
    try (apply Hrep; lia).
  - rewrite scrub_cons, Hw, IH by lia. reflexivity.
  - destruct r1 as [|b2 r2]; [reflexivity|]. simpl in Hn.
    destruct (Utf8.continuation b2) eqn:H2; [|apply Hrep; simpl; lia].
    rewrite scrub_cons, Hw, H2, IH by lia. reflexivity.
  - destruct r1 as [|b2 r2]; [reflexivity|]. simpl in Hn.
    destruct (Utf8.second b1 b2) eqn:H2; [|apply Hrep; simpl; lia].
    destruct r2 as [|b3 r3]; [reflexivity|]. simpl in Hn.
    destruct (Utf8.continuation b3) eqn:H3; [|apply Hrep; simpl; lia].
    rewrite scrub_cons, Hw, H2, H3, IH by lia. reflexivity.
  - destruct r1 as [|b2 r2]; [reflexivity|]. simpl in Hn.
    destruct (Utf8.second b1 b2) eqn:H2; [|apply Hrep; simpl; lia].
    destruct r2 as [|b3 r3]; [reflexivity|]. simpl in Hn.
    destruct (Utf8.continuation b3) eqn:H3; [|apply Hrep; simpl; lia].
    destruct r3 as [|b4 r4]; [reflexivity|]. simpl in Hn.
    destruct (Utf8.continuation b4) eqn:H4; [|apply Hrep; simpl; lia].
    rewrite scrub_cons, Hw, H2, H3, H4, IH by lia. reflexivity.
Qed.

(** Decoding what was decoded and encoded again changes nothing. *)
Lemma scrub_idempotent s : Utf8.scrub (Utf8.scrub s) = Utf8.scrub s.
Proof. by apply (scrub_idempotent_upto (String.length s)). Qed.

Lemma scrub_empty s : Utf8.scrub s = "" ↔ s = "".
Proof.
  split; [|by intros ->]. destruct s as [|b1 r1]; [done|].
  rewrite scrub_cons.
  destruct (Utf8.width b1) as [|[|[|[|[|k]]]]]; try discriminate;
    repeat match goal with
           | |- context [match ?r with EmptyString => _ | String _ _ => _ end] =>
               destruct r
           | |- context [if ?c then _ else _] => destruct c
           end; discriminate.
Qed.

(** Two strings with the same encoding are the same. *)
Lemma Text_eq (a b : Utf8.Text) : Utf8.encode a = Utf8.encode b → a = b.
Proof.
  destruct a as [a Ha], b as [b Hb]. simpl. intros ->.
  f_equal. apply proof_irrel.
Qed.

Lemma text_wellformed s (ok : Utf8.scrub s = s) :
  Utf8.text s = Some {| Utf8.encode := s; Utf8.wellformed := ok |}.
Proof.
  unfold Utf8.text. destruct (decide _) as [ok'|]; [|done].
  f_equal. by apply Text_eq.
Qed.

Lemma encode_decode bytes : Utf8.encode (Utf8.decode bytes) = Utf8.scrub bytes.
Proof.
  unfold Utf8.decode. by rewrite (text_wellformed _ (scrub_idempotent bytes)).
Qed.

(** What was written is read back as the string that was written. *)
Lemma decode_encode text : Utf8.decode (Utf8.encode text) = text.
Proof. apply Text_eq. rewrite encode_decode. apply Utf8.wellformed. Qed.

Lemma decoded_encode text : decoded (Some (Utf8.encode text)) = Some text.
Proof. unfold decoded. simpl. by rewrite decode_encode. Qed.

Lemma encode_empty text : Utf8.encode text = "" → text = Utf8.empty.
Proof. intros He. by apply Text_eq. Qed.

Lemma present_decoded disk :
  Settings.present (decoded disk) = truthy disk.
Proof.
  destruct disk as [bytes|]; [|reflexivity].
  unfold Settings.present, decoded. simpl. rewrite encode_decode.
  destruct bytes as [|b r]; [reflexivity|].
  destruct (Utf8.scrub (String b r)) eqn:Hs; [|reflexivity].
  apply (proj1 (scrub_empty _)) in Hs. discriminate.
Qed.

Lemma present_Some text :
  Settings.present (Some text) = true ↔ text ≠ Utf8.empty.
Proof.
  unfold Settings.present. simpl. split.
  - intros Ht ->. discriminate.
  - intros Hne. destruct (Utf8.encode text) eqn:He; [|reflexivity].
    by apply encode_empty in He.
Qed.

Lemma truthy_nonempty v : truthy v = true ↔ nonempty v.
Proof.
  split.
  - destruct v as [[|a s]|]; simpl; try discriminate.
    intros _. exists (String a s). split; [reflexivity | discriminate].
  - intros (s & -> & Hs). destruct s; [contradiction | reflexivity].
Qed.

Lemma truthy_false v : truthy v = false ↔ ¬ nonempty v.
Proof.
  rewrite <- truthy_nonempty. destruct (truthy v); split; intro; congruence.
Qed.

Lemma resolve_Matches r v : resolve r = Some v ↔ Matches r v.
Proof.
  unfold resolve. split.
  - destruct (type r) eqn:Ht; try (intros [= <-]; now constructor).
    destruct (truthy (path r)) eqn:Hp.
    + intros [= <-]. constructor; [done | by apply truthy_nonempty].
    + destruct (truthy (url r)) eqn:Hu; [|discriminate].
      intros [= <-]. constructor;
        [done | by apply truthy_false | by apply truthy_nonempty].
  - intros Hm. destruct Hm as [-> | -> | -> Hp | -> Hp Hu | ->]; try reflexivity.
    + apply truthy_nonempty in Hp. by rewrite Hp.
    + apply truthy_false in Hp. apply truthy_nonempty in Hu. by rewrite Hp, Hu.
Qed.

Lemma resolve_None r :
  resolve r = None ↔
  (∃ tag, type r = OTHER tag)
  ∨ (type r = GIT ∧ ¬ nonempty (path r) ∧ ¬ nonempty (url r)).
Proof.
  unfold resolve. rewrite <- !truthy_false.
  destruct (type r) eqn:Ht; try (split; [discriminate | ]);
    try (intros [[tag' [=]] | [[=] _]]).
  - destruct (truthy (path r)), (truthy (url r)); split;
      try discriminate; try (intros [[tag' [=]] | (_ & [=] & [=])]);
      try (intros _; right; done); done.
  - split; [intros _; left; eauto | done].
Qed.

Lemma backend_calls_app t1 t2 :
  backend_calls (t1 ++ t2) = backend_calls t1 ++ backend_calls t2.
Proof. apply List.filter_app. Qed.

Arguments backend_calls : simpl never.

Lemma backend_calls_log_of_set data : backend_calls (log_of_set data) = [].
Proof.
  unfold log_of_set.
  destruct (truthy (profile data)), (truthy (hostname data)),
    (repository data); reflexivity.
Qed.

Lemma backend_calls_reads f w : backend_calls (reads f w) = [].
Proof. unfold reads. destruct (file f w); reflexivity. Qed.

Lemma last_bytes_snoc t e bytes :
  transferred e = Some bytes → last_bytes (t ++ [e]) = Some bytes.
Proof.
  intros He. unfold last_bytes. rewrite omap_app. simpl. rewrite He.
  apply last_snoc.
Qed.

Lemma last_bytes_skip t t' :
  omap transferred t' = [] → last_bytes (t ++ t') = last_bytes t.
Proof.
  intros He. unfold last_bytes. rewrite omap_app, He. by rewrite app_nil_r.
Qed.

Lemma transferred_log_of_set data : omap transferred (log_of_set data) = [].
Proof.
  unfold log_of_set.
  destruct (truthy (profile data)), (truthy (hostname data)),
    (repository data); reflexivity.
Qed.

Lemma with_store_same w this :
  Settings_instance w = Some this →
  with_store (settings_yml w) (Some this) (trace w) w = w.
Proof. intros Hs. destruct w; simpl in *; by subst. Qed.

Lemma bind_fulfilled {A B} (m : Promise A) (k : A → Promise B) w a w' :
  m w = (Fulfilled a, w') → bind m k w = k a w'.
Proof. unfold bind. by intros ->. Qed.

Lemma bind_rejected {A B} (m : Promise A) (k : A → Promise B) w e w' :
  m w = (Rejected e, w') → bind m k w = (Rejected e, w').
Proof. unfold bind. by intros ->. Qed.

(** ** What each operation of the settings store computes *)
Section Store.
Context {codec : Yaml}.

Lemma set_run data w this :
  Settings_instance w = Some this →
  Settings.set data w =
    (Fulfilled tt,
     with_store (settings_yml w) (Some (fields_after_set data this))
       (trace w ++ log_of_set data) w).
Proof.
  intros Hs. destruct w; simpl in *; subst.
  unfold Settings.set, fields_after_set, log_of_set, with_store, bind,
    Settings.assign, Settings.get, Settings.put, emit, ret.
  simpl.
  destruct (truthy (profile data)), (truthy (hostname data)),
    (truthy (extensionKind data)
     && negb (String.eqb (default "" (extensionKind data)) "auto")),
    (repository data); simpl;
    repeat rewrite <- app_assoc; reflexivity.
Qed.

Lemma save_run w this :
  Settings_instance w = Some this →
  let bytes := Utf8.encode (yaml_stringify (Settings.document this)) in
  Settings.save w =
    (Fulfilled tt,
     with_store (Some bytes)
       (Some (Settings.with_hash (Sha1.digest_hex bytes) this))
       (trace w ++ [FsWrite SettingsYml bytes]) w).
Proof.
  intros Hs. destruct w; simpl in *; subst. reflexivity.
Qed.

Lemma read_if_exists_run w :
  Settings.read_if_exists SettingsYml w =
    (Fulfilled (decoded (settings_yml w)),
     with_store (settings_yml w) (Settings_instance w)
       (trace w ++ reads SettingsYml w) w).
Proof.
  destruct w as [[d|] ? ? ? ? ?]; unfold reads; simpl.
  - reflexivity.
  - unfold with_store; simpl. by rewrite app_nil_r.
Qed.

Lemma reload_run w this :
  Settings_instance w = Some this →
  let hash := Settings.digest (decoded (settings_yml w)) in
  Settings.reload w =
    if bool_decide (_hash this ≠ hash) then
      match incoming (decoded (settings_yml w)) with
      | Some data =>
          (Fulfilled true,
           with_store (settings_yml w)
             (Some (Settings.with_hash hash (fields_after_set data this)))
             ((trace w ++ reads SettingsYml w) ++ log_of_set data) w)
      | None =>
          (Rejected YamlParseError,
           with_store (settings_yml w) (Some this)
             (trace w ++ reads SettingsYml w) w)
      end
    else
      (Fulfilled false,
       with_store (settings_yml w) (Some this)
         (trace w ++ reads SettingsYml w) w).
Proof.
  intros Hs hash. unfold Settings.reload.
  unfold bind at 1. rewrite read_if_exists_run.
  unfold bind at 1. unfold Settings.get at 1. simpl. rewrite Hs.
  fold hash. case_bool_decide; [|reflexivity].
  unfold incoming, Settings.parse.
  destruct (Settings.present (decoded (settings_yml w)));
    [destruct (yaml_parse (default Utf8.empty (decoded (settings_yml w))))|];
    unfold bind, ret, throw; cbv beta iota;
    try erewrite set_run by reflexivity; reflexivity.
Qed.

Lemma load_existing context w bytes :
  settings_yml w = Some bytes → bytes ≠ "" →
  let text := Utf8.decode bytes in
  Settings.load context w =
    match incoming (Some text) with
    | Some data =>
        (Fulfilled (loaded context text data),
         with_store (Some bytes) (Some (loaded context text data))
           ((trace w ++ [FsRead SettingsYml bytes]) ++ log_of_set data) w)
    | None =>
        (Rejected YamlParseError,
         with_store (Some bytes)
           (Some (Settings.new (extension_id context)
                    (extensionKind_is_Workspace context)))
           (trace w ++ [FsRead SettingsYml bytes]) w)
    end.
Proof.
  intros Hd Hne text.
  assert (Settings.present (Some text) = true) as Hp.
  { change (Some text) with (decoded (Some bytes)). rewrite present_decoded.
    destruct bytes; [done | reflexivity]. }
  unfold Settings.load.
  unfold bind at 1. unfold Settings.put at 1. cbv beta iota.
  unfold bind at 1. rewrite read_if_exists_run. cbn [settings_yml].
  rewrite Hd. change (decoded (Some bytes)) with (Some text). rewrite Hp.
  unfold incoming. rewrite Hp. cbn [default].
  destruct w; simpl in *; subst.
  unfold loaded, Settings.parse, reads. cbn [file settings_yml].
  destruct (yaml_parse text);
    unfold bind, ret, throw; cbv beta iota;
    try erewrite set_run by reflexivity; reflexivity.
Qed.

Lemma load_bundled context w bytes :
  truthy (settings_yml w) = false → default_settings_yml w = Some bytes →
  let text := Utf8.decode bytes in
  Settings.load context w =
    match yaml_parse text with
    | ParseThrows =>
        (Rejected YamlParseError,
         with_store (settings_yml w)
           (Some (Settings.new (extension_id context)
                    (extensionKind_is_Workspace context)))
           ((trace w ++ reads SettingsYml w)
              ++ [FsRead DefaultSettingsYml bytes]) w)
    | parsed =>
        let data := match parsed with
                    | ParseValue d => d
                    | _ => Settings.empty_document
                    end in
        (Fulfilled (loaded context text data),
         with_store (Some (Utf8.encode text))
           (Some (loaded context text data))
           ((((trace w ++ reads SettingsYml w)
                ++ [FsRead DefaultSettingsYml bytes]) ++ log_of_set data)
              ++ [FsWrite SettingsYml (Utf8.encode text)]) w)
    end.
Proof.
  intros Hd Hb text. unfold Settings.load.
  unfold bind at 1. unfold Settings.put at 1. cbv beta iota.
  unfold bind at 1. rewrite read_if_exists_run. simpl settings_yml.
  rewrite present_decoded, Hd. destruct w; simpl in *; subst.
  unfold loaded, Settings.parse.
  unfold bind, ret, throw, file_exists, readFile; simpl.
  fold text.
  destruct (yaml_parse text);
    try erewrite set_run by reflexivity; reflexivity.
Qed.

Lemma load_defaults context w :
  truthy (settings_yml w) = false → default_settings_yml w = None →
  let this := fields_after_set Settings.defaults
                (Settings.new (extension_id context)
                   (extensionKind_is_Workspace context)) in
  let bytes := Utf8.encode (yaml_stringify (Settings.document this)) in
  Settings.load context w =
    (Fulfilled (Settings.with_hash (Sha1.digest_hex bytes) this),
     with_store (Some bytes)
       (Some (Settings.with_hash (Sha1.digest_hex bytes) this))
       (((trace w ++ reads SettingsYml w) ++ log_of_set Settings.defaults)
          ++ [FsWrite SettingsYml bytes]) w).
Proof.
  intros Hd Hb this bytes. unfold Settings.load.
  unfold bind at 1. unfold Settings.put at 1. cbv beta iota.
  unfold bind at 1. rewrite read_if_exists_run. simpl settings_yml.
  rewrite present_decoded, Hd. destruct w; simpl in *; subst.
  unfold bind, ret, file_exists, with_store.
  cbn [file default_settings_yml]. cbv beta iota.
  erewrite set_run by reflexivity. reflexivity.
Qed.
End Store.

(** ** What each operation of the factory computes *)
Section Factory.
Context {codec : Yaml} {contract : Backends}.

Lemma create_run w this :
  Settings_instance w = Some this →
  RepositoryFactory.create w =
    match resolve (_repository this) with
    | Some v =>
        let r := {| variant := v; ref := next_ref w |} in
        let ok := backend_setProfile (trace w ++ [New r]) r (_profile this) in
        (if ok then Fulfilled tt else Rejected (BackendError r),
         with_backend (Some r) (S (next_ref w))
           ((trace w ++ [New r]) ++ [SetProfile r (_profile this) ok]) w)
    | None =>
        (Rejected (MysteriousType (type (_repository this))),
         with_backend None (next_ref w) (trace w) w)
    end.
Proof.
  intros Hs. destruct w; simpl in *; subst.
  unfold RepositoryFactory.create, resolve, bind, RepositoryFactory.put,
    Settings.get, with_backend.
  simpl.
  destruct (type (_repository this)); simpl;
    repeat match goal with
           | |- context [truthy ?v] => destruct (truthy v); simpl
           end;
    unfold RepositoryFactory.call_setProfile, bind; simpl;
    try match goal with
        | |- context [backend_setProfile ?t ?r ?p] =>
            destruct (backend_setProfile t r p)
        end; reflexivity.
Qed.

Lemma get_cached w r :
  Repository_instance w = Some r →
  RepositoryFactory.get w = (Fulfilled r, w).
Proof.
  intros Hr. unfold RepositoryFactory.get, bind, RepositoryFactory.instance.
  by rewrite Hr.
Qed.

Lemma get_run w this :
  Repository_instance w = None → Settings_instance w = Some this →
  RepositoryFactory.get w =
    match resolve (_repository this) with
    | Some v =>
        let r := {| variant := v; ref := next_ref w |} in
        let ok := backend_setProfile (trace w ++ [New r]) r (_profile this) in
        (if ok then Fulfilled r else Rejected (BackendError r),
         with_backend (Some r) (S (next_ref w))
           ((trace w ++ [New r]) ++ [SetProfile r (_profile this) ok]) w)
    | None =>
        (Rejected (MysteriousType (type (_repository this))),
         with_backend None (next_ref w) (trace w) w)
    end.
Proof.
  intros Hr Hs. unfold RepositoryFactory.get.
  unfold bind at 1. unfold RepositoryFactory.instance at 1. rewrite Hr.
  unfold bind at 1. unfold Settings.get at 1. rewrite Hs.
  unfold bind at 1. rewrite (create_run w this Hs).
  destruct (resolve (_repository this)) as [v|]; [|reflexivity].
  cbv zeta.
  destruct (backend_setProfile _ _ _); reflexivity.
Qed.

Lemma call_terminate_run w r :
  RepositoryFactory.call_terminate r w =
    let ok := backend_terminate (trace w) r in
    (if ok then Fulfilled tt else Rejected (BackendError r),
     with_backend (Repository_instance w) (next_ref w)
       (trace w ++ [Terminate r ok]) w).
Proof.
  unfold RepositoryFactory.call_terminate, bind. simpl.
  destruct (backend_terminate (trace w) r); reflexivity.
Qed.

Lemma call_setProfile_run w r p :
  RepositoryFactory.call_setProfile r p w =
    let ok := backend_setProfile (trace w) r p in
    (if ok then Fulfilled tt else Rejected (BackendError r),
     with_backend (Repository_instance w) (next_ref w)
       (trace w ++ [SetProfile r p ok]) w).
Proof.
  unfold RepositoryFactory.call_setProfile, bind. simpl.
  destruct (backend_setProfile (trace w) r p); reflexivity.
Qed.
End Factory.

(** ** A live backend has settings behind it *)

Create HintDb steady.

Section Reachable.
Context {codec : Yaml} {contract : Backends}.

Lemma steady_bind {A B} (m : Promise A) (k : A → Promise B) :
  steady m → (∀ a, steady (k a)) → steady (bind m k).
Proof.
  intros Hm Hk w. unfold bind. destruct (Hm w) as [H1 H2].
  destruct (m w) as [[a|e] w']; simpl in *.
  - destruct (Hk a w') as [H3 H4]. split; auto.
  - split; auto.
Qed.

Lemma steady_ret {A} (a : A) : steady (ret a).
Proof. intros w. split; auto. Qed.

Lemma steady_throw {A} e : steady (throw (A := A) e).
Proof. intros w. split; auto. Qed.

Lemma steady_frame {A} (m : Promise A) :
  (∀ w, Settings_instance (m w).2 = Settings_instance w
        ∧ Repository_instance (m w).2 = Repository_instance w) →
  steady m.
Proof.
  intros Hm w. destruct (Hm w) as [H1 H2]. unfold consistent.
  rewrite H1, H2. split; auto.
Qed.

Lemma steady_emit e : steady (emit e).
Proof. apply steady_frame. intros w. split; reflexivity. Qed.

Lemma steady_file_exists f : steady (file_exists f).
Proof. apply steady_frame. intros w. split; reflexivity. Qed.

Lemma steady_readFile f : steady (readFile f).
Proof.
  apply steady_frame. intros w. unfold readFile.
  destruct (file f w); split; reflexivity.
Qed.

Lemma steady_writeFile data : steady (writeFile data).
Proof. apply steady_frame. intros w. split; reflexivity. Qed.

Lemma steady_Settings_get : steady Settings.get.
Proof.
  apply steady_frame. intros w. unfold Settings.get.
  destruct (Settings_instance w) eqn:Hs; simpl; rewrite ?Hs; split;
    reflexivity.
Qed.

Lemma steady_Settings_put this : steady (Settings.put (Some this)).
Proof. intros w. unfold consistent. simpl. split; eauto. Qed.

Lemma steady_instance : steady RepositoryFactory.instance.
Proof. apply steady_frame. intros w. split; reflexivity. Qed.

Lemma steady_put_None : steady (RepositoryFactory.put None).
Proof.
  intros w. unfold consistent. simpl. split; [|auto].
  intros _ [r Hr]. discriminate.
Qed.

Lemma steady_call_setProfile r p : steady (RepositoryFactory.call_setProfile r p).
Proof.
  apply steady_frame. intros w. rewrite call_setProfile_run. split; reflexivity.
Qed.

Lemma steady_call_terminate r : steady (RepositoryFactory.call_terminate r).
Proof.
  apply steady_frame. intros w. rewrite call_terminate_run. split; reflexivity.
Qed.

#[local] Hint Resolve steady_ret steady_throw steady_emit steady_file_exists
  steady_readFile steady_writeFile steady_Settings_get steady_Settings_put
  steady_instance steady_put_None steady_call_setProfile
  steady_call_terminate : steady.

Ltac steady :=
  repeat first
    [ progress intros
    | solve [auto with steady]
    | apply steady_bind
    | match goal with
      | |- steady (if ?b then _ else _) => destruct b
      | |- steady (match ?x with _ => _ end) => destruct x
      end ].

Lemma steady_assign f : steady (Settings.assign f).
Proof. unfold Settings.assign. steady. Qed.
#[local] Hint Resolve steady_assign : steady.

Lemma steady_set data : steady (Settings.set data).
Proof. unfold Settings.set. steady. Qed.

Lemma steady_parse bytes : steady (Settings.parse bytes).
Proof. unfold Settings.parse. steady. Qed.

Lemma steady_read_if_exists f : steady (Settings.read_if_exists f).
Proof. unfold Settings.read_if_exists. steady. Qed.

Lemma steady_save : steady Settings.save.
Proof. unfold Settings.save. steady. Qed.
#[local] Hint Resolve steady_set steady_parse steady_read_if_exists steady_save : steady.

Lemma steady_Settings_setProfile p : steady (Settings.setProfile p).
Proof. unfold Settings.setProfile. steady. Qed.

Lemma steady_Settings_reload : steady Settings.reload.
Proof. unfold Settings.reload. steady. Qed.

Lemma steady_load context : steady (Settings.load context).
Proof. unfold Settings.load. steady. Qed.
#[local] Hint Resolve steady_Settings_setProfile steady_Settings_reload steady_load
  : steady.

Lemma steady_create : steady RepositoryFactory.create.
Proof.
  intros w. destruct (Settings_instance w) as [this|] eqn:Hs.
  - rewrite (create_run w this Hs). unfold consistent.
    destruct (resolve (_repository this)); simpl; rewrite Hs; split; eauto.
  - assert (RepositoryFactory.create w
            = (Rejected NotInitialized, with_backend None (next_ref w) (trace w) w))
      as ->.
    { destruct w; simpl in *; subst. reflexivity. }
    unfold consistent. simpl. rewrite Hs. split; [|auto].
    intros _ [r Hr]. discriminate.
Qed.
#[local] Hint Resolve steady_create : steady.

Lemma steady_get : steady RepositoryFactory.get.
Proof. unfold RepositoryFactory.get. steady. Qed.

Lemma steady_reload : steady RepositoryFactory.reload.
Proof. unfold RepositoryFactory.reload. steady. Qed.

Lemma steady_reset : steady RepositoryFactory.reset.
Proof. unfold RepositoryFactory.reset. steady. Qed.

Lemma steady_setProfile p : steady (RepositoryFactory.setProfile p).
Proof. unfold RepositoryFactory.setProfile. steady. Qed.

Lemma consistent_run c w : consistent w → consistent (run c w).
Proof.
  destruct c; simpl; try (by apply steady_load); try (by apply steady_save);
    try (by apply steady_Settings_reload);
    try (by apply steady_Settings_setProfile); try (by apply steady_get);
    try (by apply steady_reload); try (by apply steady_reset);
    try (by apply steady_setProfile).
  auto.
Qed.

Lemma run_all_cons c calls w : run_all (c :: calls) w = run_all calls (run c w).
Proof. reflexivity. Qed.

Lemma consistent_run_all calls w :
  consistent w → consistent (run_all calls w).
Proof.
  revert w. induction calls as [|c calls IH]; intros w Hw; [done|].
  rewrite run_all_cons. apply IH. by apply consistent_run.
Qed.

(** Whatever the host called since the process started, a live backend has
    initialised settings behind it. *)
Lemma live_instance_has_settings calls w r :
  Repository_instance w = None →
  Repository_instance (run_all calls w) = Some r →
  ∃ this, Settings_instance (run_all calls w) = Some this.
Proof.
  intros Hnone Hr.
  assert (consistent w) as Hw by (intros [r' Hx]; congruence).
  apply (consistent_run_all calls) in Hw. apply Hw. eauto.
Qed.
End Reachable.

(** ** Choice of the backend: [create] and [RepositoryFactory.get] *)
Section Selection.
Context {codec : Yaml} {contract : Backends}.

(** C10.  For a document of type git, [create] chooses by the truthiness of
    the strings and not by the presence of the fields: the local git
    backend is instantiated exactly when [path] is a non-empty string; the
    remote one exactly when [path] is not and [url] is a non-empty string;
    in the remaining case nothing is instantiated and [create] fails with
    the mysterious type error.  So an empty [path] with a non-empty [url]
    gives the remote backend, and an empty [path] with an empty [url]
    fails. *)
Theorem git_variant_by_truthiness w this :
  Settings_instance w = Some this →
  type (_repository this) = GIT →
  let rs := _repository this in
  let after := RepositoryFactory.create w in
  let chosen := variant <$> Repository_instance after.2 in
  (chosen = Some LocalGitRepository ↔ nonempty (path rs))
  ∧ (chosen = Some RemoteGitRepository ↔
       ¬ nonempty (path rs) ∧ nonempty (url rs))
  ∧ (after.1 = Rejected (MysteriousType GIT) ↔
       ¬ nonempty (path rs) ∧ ¬ nonempty (url rs))
  ∧ (path rs = Some "" → nonempty (url rs) →
       chosen = Some RemoteGitRepository)
  ∧ (path rs = Some "" → url rs = Some "" →
       after.1 = Rejected (MysteriousType GIT)).
Proof.
  intros Hs Ht rs after chosen.
  assert (Hrun := create_run w this Hs).
  fold after rs in Hrun. unfold resolve in Hrun. fold rs in Hrun.
  subst chosen. unfold rs in Ht. fold rs in Ht. rewrite Ht in Hrun.
  rewrite <- !truthy_false, <- !truthy_nonempty.
  destruct (truthy (path rs)) eqn:Hp; [|destruct (truthy (url rs)) eqn:Hu];
    rewrite Hrun; cbv zeta;
    repeat match goal with
           | |- context [backend_setProfile ?t ?r ?p] =>
               destruct (backend_setProfile t r p)
           end; simpl;
    repeat split; try congruence; try tauto;
    try (intros [_ ?]; congruence); try (intros [? _]; congruence);
    try (intros Hq; rewrite Hq in Hp; discriminate);
    try (intros _ Hq; rewrite Hq in Hu; discriminate).
Qed.

(** C2.  With no live instance, [RepositoryFactory.get] fails with the
    mysterious type error exactly when the type of the current document is
    outside the enumeration, or is git with neither [path] nor [url] set
    (set: a non-empty string).  In every other case it instantiates the
    backend class that matches the document, caches it, calls its
    [setProfile] with the profile of the document, and its only possible
    failure is the one of that call. *)
Theorem get_mysterious_type_exactly w this :
  Repository_instance w = None →
  Settings_instance w = Some this →
  let rs := _repository this in
  let after := RepositoryFactory.get w in
  let unknown :=
    (∃ tag, type rs = OTHER tag)
    ∨ (type rs = GIT ∧ ¬ nonempty (path rs) ∧ ¬ nonempty (url rs)) in
  ((∃ t, after.1 = Rejected (MysteriousType t)) ↔ unknown)
  ∧ (unknown → after.1 = Rejected (MysteriousType (type rs))
               ∧ Repository_instance after.2 = None
               ∧ trace after.2 = trace w)
  ∧ (¬ unknown →
     ∃ r ok,
       Matches rs (variant r)
       ∧ Repository_instance after.2 = Some r
       ∧ trace after.2 = trace w ++ [New r; SetProfile r (_profile this) ok]
       ∧ after.1 = if ok then Fulfilled r else Rejected (BackendError r)).
Proof.
  intros Hr Hs rs after unknown.
  assert (Hrun := get_run w this Hr Hs). fold after rs in Hrun.
  assert (Hnone := resolve_None rs). fold unknown in Hnone.
  destruct (resolve rs) as [v|] eqn:Hv.
  - assert (¬ unknown) as Hk by (rewrite <- Hnone; discriminate).
    cbv zeta in Hrun. rewrite Hrun. simpl. split; [|split].
    + split; [|tauto]. intros [t Ht].
      destruct (backend_setProfile _ _ _); discriminate.
    + tauto.
    + intros _. eexists _, _. split; [|split; [reflexivity|split]].
      * by apply resolve_Matches.
      * by rewrite <- app_assoc.
      * reflexivity.
  - assert unknown as Hk by (by apply Hnone).
    rewrite Hrun. simpl. split; [|split].
    + split; [done | eauto].
    + done.
    + tauto.
Qed.

(** C3, amended.  For a document of type git whose [path] and [url] are
    both set, [RepositoryFactory.get] does not fail with the mysterious
    type error: the first test of [create] matches, so the local git
    backend is instantiated and cached, [path] taking precedence over
    [url]. *)
Theorem git_with_path_and_url_is_local w this :
  Repository_instance w = None →
  Settings_instance w = Some this →
  type (_repository this) = GIT →
  nonempty (path (_repository this)) →
  nonempty (url (_repository this)) →
  let after := RepositoryFactory.get w in
  ∃ r ok,
    variant r = LocalGitRepository
    ∧ Repository_instance after.2 = Some r
    ∧ trace after.2 = trace w ++ [New r; SetProfile r (_profile this) ok]
    ∧ after.1 = (if ok then Fulfilled r else Rejected (BackendError r))
    ∧ ∀ t, after.1 ≠ Rejected (MysteriousType t).
Proof.
  intros Hr Hs Ht Hp Hu after.
  assert (Hrun := get_run w this Hr Hs). fold after in Hrun.
  assert (resolve (_repository this) = Some LocalGitRepository) as Hv.
  { apply resolve_Matches. by constructor. }
  rewrite Hv in Hrun. cbv zeta in Hrun. rewrite Hrun. simpl.
  exists {| variant := LocalGitRepository; ref := next_ref w |}. eexists.
  split; [reflexivity|]. split; [reflexivity|].
  split; [by rewrite <- app_assoc|]. split; [reflexivity|].
  intros t. destruct (backend_setProfile _ _ _); discriminate.
Qed.

End Selection.

(** ** Switching profile and reloading: [setProfile] and [reload] *)
Section Lifecycle.
Context {codec : Yaml} {contract : Backends}.

Lemma setProfile_store_run w this p :
  Settings_instance w = Some this →
  let bytes := Utf8.encode
                 (yaml_stringify
                    (Settings.document (Settings.with_profile p this))) in
  Settings.setProfile p w =
    (Fulfilled tt,
     with_store (Some bytes)
       (Some (Settings.with_hash (Sha1.digest_hex bytes)
                (Settings.with_profile p this)))
       (trace w ++ [FsWrite SettingsYml bytes]) w).
Proof.
  intros Hs. destruct w; simpl in *; subst. reflexivity.
Qed.

(** C1.  With a live backend instance, [RepositoryFactory.setProfile p]
    calls the [setProfile p] of the backend first and only then has the
    settings store persist the profile.  If the backend call fails, the
    failure is the result, nothing is written and both the file and the
    settings in memory are as before; if it succeeds, the document with
    profile [p] is written.  So the profile is persisted if and only if the
    backend call did not fail. *)
Theorem setProfile_backend_before_persisting w r this p :
  Repository_instance w = Some r →
  Settings_instance w = Some this →
  let after := RepositoryFactory.setProfile p w in
  let ok := backend_setProfile (trace w) r p in
  let saved := Settings.document (Settings.with_profile p this) in
  (ok = false →
     after.1 = Rejected (BackendError r)
     ∧ settings_yml after.2 = settings_yml w
     ∧ Settings_instance after.2 = Some this
     ∧ trace after.2 = trace w ++ [SetProfile r p false])
  ∧ (ok = true →
     after.1 = Fulfilled tt
     ∧ settings_yml after.2 = Some (Utf8.encode (yaml_stringify saved))
     ∧ profile saved = Some p
     ∧ _profile <$> Settings_instance after.2 = Some p
     ∧ trace after.2 =
         trace w ++ [SetProfile r p true;
                     FsWrite SettingsYml
                       (Utf8.encode (yaml_stringify saved))])
  ∧ ((∃ bytes, FsWrite SettingsYml bytes
                 ∈ drop (length (trace w)) (trace after.2)) ↔ ok = true).
Proof.
  intros Hr Hs after ok saved.
  assert (after =
            if ok then
              Settings.setProfile p
                (with_backend (Some r) (next_ref w)
                   (trace w ++ [SetProfile r p true]) w)
            else
              (Rejected (BackendError r),
               with_backend (Some r) (next_ref w)
                 (trace w ++ [SetProfile r p false]) w)) as Hrun.
  { subst after. unfold RepositoryFactory.setProfile.
    unfold bind at 1. unfold RepositoryFactory.instance at 1. rewrite Hr.
    unfold bind at 1. rewrite call_setProfile_run. fold ok. rewrite Hr.
    cbv zeta. destruct ok; [|reflexivity].
    unfold bind, Settings.get. simpl. by rewrite Hs. }
  destruct ok eqn:Hok.
  - erewrite setProfile_store_run in Hrun by exact Hs.
    cbv zeta in Hrun. rewrite Hrun. simpl.
    split; [discriminate|]. split.
    + intros _. split; [reflexivity|]. split; [reflexivity|].
      split; [reflexivity|]. split; [reflexivity|].
      by rewrite <- app_assoc.
    + split; [done|]. intros _.
      exists (Utf8.encode (yaml_stringify saved)).
      rewrite <- app_assoc, drop_app_length. simpl.
      apply list_elem_of_In. simpl. tauto.
  - rewrite Hrun. simpl. split.
    + intros _. by rewrite Hs.
    + split; [discriminate|]. split; [|discriminate].
      intros [bytes Hin]. rewrite drop_app_length in Hin.
      apply list_elem_of_In in Hin. simpl in Hin.
      destruct Hin as [[=]|[]].
Qed.

(** C4.  When what [settings.yml] holds (the empty text when the file
    does not exist) has the digest the settings hold in memory,
    [RepositoryFactory.reload] returns [false] and does no backend work:
    no [terminate], no construction, the cached instance and the settings
    in memory are those of before; it only read the file. *)
Theorem reload_unchanged_is_noop w this :
  Settings_instance w = Some this →
  _hash this = Settings.digest (decoded (settings_yml w)) →
  let after := RepositoryFactory.reload w in
  after.1 = Fulfilled false
  ∧ Repository_instance after.2 = Repository_instance w
  ∧ Settings_instance after.2 = Some this
  ∧ settings_yml after.2 = settings_yml w
  ∧ next_ref after.2 = next_ref w
  ∧ trace after.2 = trace w ++ reads SettingsYml w
  ∧ backend_calls (trace after.2) = backend_calls (trace w).
Proof.
  intros Hs Hh after.
  assert (after =
            (Fulfilled false,
             with_store (settings_yml w) (Some this)
               (trace w ++ reads SettingsYml w) w)) as ->.
  { subst after. unfold RepositoryFactory.reload.
    unfold bind at 1. unfold Settings.get at 1. rewrite Hs.
    unfold bind at 1. rewrite (reload_run w this Hs). cbv zeta.
    rewrite bool_decide_eq_false_2 by (intros Hne; by apply Hne).
    reflexivity. }
  simpl. repeat split.
  by rewrite backend_calls_app, backend_calls_reads, app_nil_r.
Qed.

(** C5, amended.  When the digest of what [settings.yml] holds differs
    from the one in memory and the document parses, the settings are
    replaced and [RepositoryFactory.reload] goes on as follows.  Without a
    live instance it returns [true] and constructs nothing.  With a live
    instance it calls [terminate] once on it; if that fails the failure is
    the result, nothing is constructed and the old instance stays cached;
    if it succeeds and the new document resolves to a backend class, one
    object of that class is constructed, cached and given the new profile,
    and the result is [true] when that call succeeds and its failure
    otherwise; if the new document resolves to no class, nothing is
    constructed, the cache is empty and the result is the mysterious type
    error. *)
Theorem reload_changed w this data :
  Settings_instance w = Some this →
  _hash this ≠ Settings.digest (decoded (settings_yml w)) →
  incoming (decoded (settings_yml w)) = Some data →
  let after := RepositoryFactory.reload w in
  let this' :=
    Settings.with_hash (Settings.digest (decoded (settings_yml w)))
      (fields_after_set data this) in
  let before := backend_calls (trace w) in
  Settings_instance after.2 = Some this'
  ∧ (Repository_instance w = None →
     after.1 = Fulfilled true
     ∧ Repository_instance after.2 = None
     ∧ backend_calls (trace after.2) = before)
  ∧ (∀ r, Repository_instance w = Some r →
     let ok_t :=
       backend_terminate
         ((trace w ++ reads SettingsYml w) ++ log_of_set data) r in
     (ok_t = false →
        after.1 = Rejected (BackendError r)
        ∧ Repository_instance after.2 = Some r
        ∧ backend_calls (trace after.2) = before ++ [Terminate r false])
     ∧ (ok_t = true → ∀ v, Matches (_repository this') v →
        ∃ r' ok_p,
          variant r' = v
          ∧ Repository_instance after.2 = Some r'
          ∧ backend_calls (trace after.2) =
              before ++ [Terminate r true; New r';
                         SetProfile r' (_profile this') ok_p]
          ∧ after.1 = if ok_p then Fulfilled true
                      else Rejected (BackendError r'))
     ∧ (ok_t = true → (∀ v, ¬ Matches (_repository this') v) →
        after.1 = Rejected (MysteriousType (type (_repository this')))
        ∧ Repository_instance after.2 = None
        ∧ backend_calls (trace after.2) = before ++ [Terminate r true])).
Proof.
  intros Hs Hh Hin after this' before.
  set (w1 := with_store (settings_yml w) (Some this')
               ((trace w ++ reads SettingsYml w) ++ log_of_set data) w).
  assert (backend_calls (trace w1) = before) as Hcalls.
  { simpl. by rewrite !backend_calls_app, backend_calls_reads,
             backend_calls_log_of_set, !app_nil_r. }
  assert (after =
            match Repository_instance w with
            | Some r =>
                (RepositoryFactory.call_terminate r >>
                 RepositoryFactory.create >> ret true) w1
            | None => (Fulfilled true, w1)
            end) as Hrun.
  { subst after. unfold RepositoryFactory.reload.
    unfold bind at 1. unfold Settings.get at 1. rewrite Hs.
    unfold bind at 1. rewrite (reload_run w this Hs). cbv zeta.
    rewrite bool_decide_eq_true_2 by exact Hh. rewrite Hin.
    fold this' w1.
    unfold bind at 1. unfold RepositoryFactory.instance at 1.
    change (Repository_instance w1) with (Repository_instance w).
    destruct (Repository_instance w); [|reflexivity].
    unfold bind, ret. destruct (RepositoryFactory.call_terminate r w1).
    destruct s; [|reflexivity].
    destruct (RepositoryFactory.create w0). by destruct s. }
  split; [|split].
  - rewrite Hrun. destruct (Repository_instance w) as [r|]; [|reflexivity].
    unfold bind at 1. rewrite call_terminate_run. cbv zeta.
    destruct (backend_terminate (trace w1) r); [|reflexivity].
    unfold bind at 1. erewrite create_run by reflexivity.
    destruct (resolve (_repository this')); [|reflexivity].
    cbv zeta. by destruct (backend_setProfile _ _ _).
  - intros Hr. rewrite Hr in Hrun. rewrite Hrun. done.
  - intros r Hr ok_t. rewrite Hr in Hrun.
    unfold bind at 1 in Hrun. rewrite call_terminate_run in Hrun.
    change (backend_terminate (trace w1) r) with ok_t in Hrun.
    cbv zeta in Hrun. split; [|split].
    + intros Hok. rewrite Hok in Hrun. rewrite Hrun. simpl.
      split; [reflexivity|]. split; [exact Hr|].
      by rewrite !backend_calls_app, backend_calls_reads,
           backend_calls_log_of_set, !app_nil_r.
    + intros Hok v Hv. rewrite Hok in Hrun.
      unfold bind at 1 in Hrun. erewrite create_run in Hrun by reflexivity.
      apply resolve_Matches in Hv. rewrite Hv in Hrun. cbv zeta in Hrun.
      exists {| variant := v; ref := next_ref w |}. rewrite Hrun.
      destruct (backend_setProfile _ _ _) eqn:Hp;
        [exists true | exists false]; simpl;
        (split; [reflexivity|]);
        (split; [reflexivity|]);
        (split;
         [rewrite !backend_calls_app, backend_calls_reads,
            backend_calls_log_of_set, !app_nil_r, <- !app_assoc;
          reflexivity|]);
        reflexivity.
    + intros Hok Hv. rewrite Hok in Hrun.
      unfold bind at 1 in Hrun. erewrite create_run in Hrun by reflexivity.
      destruct (resolve (_repository this')) as [v|] eqn:Hres.
      { exfalso. apply (Hv v). by apply resolve_Matches. }
      rewrite Hrun. simpl. split; [reflexivity|]. split; [reflexivity|].
      by rewrite !backend_calls_app, backend_calls_reads,
           backend_calls_log_of_set, !app_nil_r.
Qed.
End Lifecycle.

(** ** The settings store: malformed documents, round trip, content hash *)
Section Documents.
Context {codec : Yaml}.

Lemma log_of_set_without_repository data :
  repository data = None →
  ∃ l, log_of_set data = l ++ [complaint].
Proof.
  intros Hr. unfold log_of_set. rewrite Hr.
  eexists (_ :: _ :: _). rewrite !app_assoc. reflexivity.
Qed.

Lemma fields_without_repository data this :
  repository data = None →
  _repository (fields_after_set data this) = Settings.dummy_repository
  ∧ _profile (fields_after_set data this) = ""
  ∧ _hostname (fields_after_set data this) = Some "".
Proof. intros Hr. unfold fields_after_set. rewrite Hr. done. Qed.

Lemma incoming_parsed text data :
  text ≠ Utf8.empty → yaml_parse text = ParseValue data →
  incoming (Some text) = Some data.
Proof.
  intros Hne Hp. unfold incoming.
  rewrite (proj2 (present_Some text) Hne). simpl. by rewrite Hp.
Qed.

Lemma decode_nonempty bytes : bytes ≠ "" → Utf8.decode bytes ≠ Utf8.empty.
Proof.
  intros Hne He. apply (f_equal Utf8.encode) in He.
  rewrite encode_decode in He. apply Hne.
  exact (proj1 (scrub_empty bytes) He).
Qed.

Lemma encode_nonempty text : text ≠ Utf8.empty → Utf8.encode text ≠ "".
Proof. intros Hne He. by apply encode_empty in He. Qed.

(** The digest of what is read is the digest of the bytes of the file when
    these are well-formed UTF-8. *)
Lemma digest_decoded bytes :
  Settings.digest (Some (Utf8.decode bytes))
    = Sha1.digest_hex (Utf8.scrub bytes).
Proof. unfold Settings.digest. simpl. by rewrite encode_decode. Qed.

Lemma digest_wellformed bytes :
  Utf8.scrub bytes = bytes →
  Settings.digest (Some (Utf8.decode bytes)) = Sha1.digest_hex bytes.
Proof. intros Hwf. by rewrite digest_decoded, Hwf. Qed.

(** C6.  For every parsed document without a [repository] field, [set]
    does not throw, leaves the inert configuration in memory (repository
    of type none and nothing else, empty profile) and logs the error that
    no repository is defined; so [Settings.load] of a [settings.yml] that
    parses to such a document fulfils with that configuration instead of
    failing. *)
Theorem document_without_repository_is_inert
    data w this context w0 bytes :
  repository data = None →
  Settings_instance w = Some this →
  settings_yml w0 = Some bytes →
  bytes ≠ "" →
  yaml_parse (Utf8.decode bytes) = ParseValue data →
  let after_set := Settings.set data w in
  let after_load := Settings.load context w0 in
  (after_set.1 = Fulfilled tt
   ∧ (∃ this', Settings_instance after_set.2 = Some this'
               ∧ _repository this' = Settings.dummy_repository
               ∧ _profile this' = "")
   ∧ last (trace after_set.2) = Some complaint)
  ∧ (∃ this', after_load.1 = Fulfilled this'
              ∧ Settings_instance after_load.2 = Some this'
              ∧ _repository this' = Settings.dummy_repository
              ∧ _profile this' = ""
              ∧ last (trace after_load.2) = Some complaint).
Proof.
  intros Hr Hs Hd Hne Hp after_set after_load.
  destruct (log_of_set_without_repository data Hr) as [l Hl].
  destruct (fields_without_repository data this Hr) as (Hf1 & Hf2 & _).
  split.
  - subst after_set. rewrite (set_run data w this Hs). simpl.
    split; [reflexivity|]. split; [eauto|].
    rewrite Hl, app_assoc. apply last_snoc.
  - subst after_load. rewrite (load_existing context w0 bytes Hd Hne).
    cbv zeta.
    rewrite (incoming_parsed _ data (decode_nonempty bytes Hne) Hp). simpl.
    eexists. split; [reflexivity|]. split; [reflexivity|].
    unfold loaded.
    destruct (fields_without_repository data
                (Settings.new (extension_id context)
                   (extensionKind_is_Workspace context)) Hr)
      as (Hg1 & Hg2 & _).
    split; [exact Hg1|]. split; [exact Hg2|].
    rewrite Hl, app_assoc. apply last_snoc.
Qed.

Lemma document_hooks this :
  default ∅ (hooks (Settings.document this)) = _hooks this.
Proof.
  unfold Settings.document. simpl.
  destruct (0 <? size (_hooks this))%nat eqn:Hz; [reflexivity|].
  apply Nat.ltb_ge in Hz. symmetry. apply map_size_empty_inv. lia.
Qed.

Lemma fields_of_document this other :
  let this' := fields_after_set (Settings.document this) other in
  _hooks this' = _hooks this
  ∧ _hostname this' = _hostname this
  ∧ _profile this' = _profile this
  ∧ _repository this' = _repository this.
Proof.
  assert (Hh := document_hooks this).
  unfold fields_after_set. simpl in *. rewrite Hh. done.
Qed.

(** C8.  Saving and then loading, or reloading, gives back the fields.
    After [save()], a [reload()] sees the digest it has just stored, returns
    [false] and keeps the fields; and a [load()] in which the YAML codec
    reads back the document it has just written (to a non-empty text)
    ends with the same hooks, hostname, profile and repository. *)
Theorem save_then_load_or_reload w this context :
  Settings_instance w = Some this →
  yaml_parse (yaml_stringify (Settings.document this))
    = ParseValue (Settings.document this) →
  yaml_stringify (Settings.document this) ≠ Utf8.empty →
  let saved := Settings.save w in
  let reloaded := Settings.reload saved.2 in
  let again := Settings.load context saved.2 in
  saved.1 = Fulfilled tt
  ∧ reloaded.1 = Fulfilled false
  ∧ (∃ this', Settings_instance reloaded.2 = Some this'
              ∧ _hooks this' = _hooks this
              ∧ _hostname this' = _hostname this
              ∧ _profile this' = _profile this
              ∧ _repository this' = _repository this)
  ∧ (∃ this', again.1 = Fulfilled this'
              ∧ Settings_instance again.2 = Some this'
              ∧ _hooks this' = _hooks this
              ∧ _hostname this' = _hostname this
              ∧ _profile this' = _profile this
              ∧ _repository this' = _repository this).
Proof.
  intros Hs Hrt Hne saved reloaded again.
  assert (Hsave := save_run w this Hs). fold saved in Hsave.
  cbv zeta in Hsave.
  split; [by rewrite Hsave|].
  assert (reloaded.1 = Fulfilled false
          ∧ Settings_instance reloaded.2
            = Some (Settings.with_hash
                      (Sha1.digest_hex
                         (Utf8.encode
                            (yaml_stringify (Settings.document this))))
                      this))
    as [Hr1 Hr2].
  { subst reloaded. rewrite Hsave. simpl.
    erewrite reload_run by reflexivity. cbv zeta.
    cbn [with_store settings_yml decoded fmap option_fmap option_map].
    rewrite decode_encode.
    rewrite bool_decide_eq_false_2 by (intros Hx; by apply Hx). done. }
  split; [exact Hr1|].
  split; [eexists; split; [exact Hr2 | done]|].
  subst again. rewrite Hsave. simpl.
  erewrite load_existing
    by (first [reflexivity | exact (encode_nonempty _ Hne)]).
  cbv zeta. rewrite decode_encode.
  rewrite (incoming_parsed _ _ Hne Hrt). simpl.
  eexists. split; [reflexivity|]. split; [reflexivity|].
  apply fields_of_document.
Qed.

(** C9, amended.  The digest in memory is recomputed by each of [load()],
    [save()] and [reload()] that completes, and what it is the digest of is
    the string the operation read or wrote, encoded in UTF-8.  After
    [load()], also the first one of the process, it is the digest of what
    the last bytes read or written decode to; after [save()] it is the
    digest of the bytes written; after [reload()] it is the digest of what
    the bytes just read from [settings.yml] decode to when the file exists,
    and the digest of the empty text when it does not (nothing is read
    then).  Where the bytes are well-formed UTF-8 this is the digest of the
    bytes themselves. *)
Theorem hash_after_each_operation context :
  (∀ w,
     (∀ text, parsed_by_load w = Some text → yaml_parse text ≠ ParseThrows) →
     let after := Settings.load context w in
     ∃ this' bytes,
       after.1 = Fulfilled this'
       ∧ Settings_instance after.2 = Some this'
       ∧ last_bytes (trace after.2) = Some bytes
       ∧ _hash this' = Sha1.digest_hex (Utf8.encode (Utf8.decode bytes))
       ∧ (Utf8.scrub bytes = bytes → _hash this' = Sha1.digest_hex bytes))
  ∧ (∀ w this,
       Settings_instance w = Some this →
       let after := Settings.save w in
       ∃ this' bytes,
         after.1 = Fulfilled tt
         ∧ Settings_instance after.2 = Some this'
         ∧ last_bytes (trace after.2) = Some bytes
         ∧ settings_yml after.2 = Some bytes
         ∧ _hash this' = Sha1.digest_hex bytes)
  ∧ (∀ w this,
       Settings_instance w = Some this →
       incoming (decoded (settings_yml w)) ≠ None →
       let after := Settings.reload w in
       ∃ this' changed,
         after.1 = Fulfilled changed
         ∧ Settings_instance after.2 = Some this'
         ∧ (∀ bytes, settings_yml w = Some bytes →
              last_bytes (trace after.2) = Some bytes
              ∧ _hash this'
                = Sha1.digest_hex (Utf8.encode (Utf8.decode bytes))
              ∧ (Utf8.scrub bytes = bytes →
                 _hash this' = Sha1.digest_hex bytes))
         ∧ (settings_yml w = None →
              last_bytes (trace after.2) = last_bytes (trace w)
              ∧ _hash this' = Sha1.digest_hex "")).
Proof.
  split; [|split].
  - intros w Hparse after. subst after. unfold parsed_by_load in Hparse.
    rewrite present_decoded in Hparse.
    destruct (truthy (settings_yml w)) eqn:Ht.
    + destruct (settings_yml w) as [bytes|] eqn:Hd; [|discriminate].
      assert (bytes ≠ "") as Hne by (intros ->; discriminate).
      rewrite (load_existing context w bytes Hd Hne). cbv zeta.
      unfold incoming.
      rewrite (proj2 (present_Some _) (decode_nonempty bytes Hne)).
      change (default Utf8.empty (Some (Utf8.decode bytes)))
        with (Utf8.decode bytes).
      specialize (Hparse _ eq_refl).
      destruct (yaml_parse (Utf8.decode bytes)); [done| |]; simpl;
        eexists _, bytes; (split; [reflexivity|]);
        (split; [reflexivity|]);
        (split;
         [rewrite last_bytes_skip by apply transferred_log_of_set;
          by apply last_bytes_snoc|]);
        (split; [reflexivity|]); exact (digest_wellformed bytes).
    + destruct (default_settings_yml w) as [bytes|] eqn:Hb.
      * rewrite (load_bundled context w bytes Ht Hb). cbv zeta.
        specialize (Hparse _ eq_refl).
        destruct (yaml_parse (Utf8.decode bytes)); [done| |]; simpl;
          eexists _, (Utf8.encode (Utf8.decode bytes));
          (split; [reflexivity|]); (split; [reflexivity|]);
          (split; [by apply last_bytes_snoc|]);
          rewrite decode_encode; done.
      * rewrite (load_defaults context w Ht Hb). simpl.
        eexists _, _. split; [reflexivity|]. split; [reflexivity|].
        split; [by apply last_bytes_snoc|].
        rewrite decode_encode. done.
  - intros w this Hs after. subst after. rewrite (save_run w this Hs). simpl.
    eexists _, _. split; [reflexivity|]. split; [reflexivity|].
    split; [by apply last_bytes_snoc|]. split; reflexivity.
  - intros w this Hs Hin after. subst after.
    rewrite (reload_run w this Hs). cbv zeta.
    assert (∀ bytes, settings_yml w = Some bytes →
              last_bytes (trace w ++ reads SettingsYml w) = Some bytes)
      as Hread.
    { intros bytes Hd. unfold reads. simpl. rewrite Hd.
      by apply last_bytes_snoc. }
    assert (settings_yml w = None →
              last_bytes (trace w ++ reads SettingsYml w)
                = last_bytes (trace w)) as Hnone.
    { intros Hd. unfold reads. simpl. rewrite Hd. by rewrite app_nil_r. }
    assert (∀ hash,
              hash = Settings.digest (decoded (settings_yml w)) →
              (∀ bytes, settings_yml w = Some bytes →
                 hash = Sha1.digest_hex (Utf8.encode (Utf8.decode bytes))
                 ∧ (Utf8.scrub bytes = bytes →
                    hash = Sha1.digest_hex bytes))
              ∧ (settings_yml w = None → hash = Sha1.digest_hex ""))
      as Hhash.
    { intros hash ->. split.
      - intros bytes ->. split; [reflexivity|].
        exact (digest_wellformed bytes).
      - intros ->. reflexivity. }
    case_bool_decide as Hh.
    + destruct (incoming (decoded (settings_yml w))) as [data|]; [|done].
      simpl. eexists _, true. split; [reflexivity|]. split; [reflexivity|].
      destruct (Hhash _ eq_refl) as [H1 H2].
      split; [intros bytes Hd | intros Hd];
        rewrite last_bytes_skip by apply transferred_log_of_set.
      * split; [by apply Hread | by apply H1].
      * split; [by apply Hnone | by apply H2].
    + simpl. exists this, false. split; [reflexivity|].
      split; [reflexivity|].
      assert (_hash this = Settings.digest (decoded (settings_yml w)))
        as Heq by (by destruct (decide (_hash this
                     = Settings.digest (decoded (settings_yml w))))).
      destruct (Hhash _ Heq) as [H1 H2].
      split; [intros bytes Hd | intros Hd].
      * split; [by apply Hread | by apply H1].
      * split; [by apply Hnone | by apply H2].
Qed.
End Documents.

(** ** The properties on the sample host *)

Lemma git_variant_by_truthiness_witness :
  let w := Sample.started (Some Sample.git_remote_text) in
  variant <$> Repository_instance
                (RepositoryFactory.create (contract := Sample.backends) w).2
    = Some RemoteGitRepository.
Proof.
  intros w.
  destruct (git_variant_by_truthiness (contract := Sample.backends)
              w (Sample.settings_of w)) as (_ & Hremote & _).
  - vm_compute. reflexivity.
  - vm_compute. reflexivity.
  - apply Hremote. split.
    + intros (s & Hs & _). vm_compute in Hs. discriminate.
    + eexists. split; [vm_compute; reflexivity | discriminate].
Defined.

Lemma get_mysterious_type_exactly_witness :
  let w := Sample.started (Some Sample.webdav_text) in
  (RepositoryFactory.get (contract := Sample.backends) w).1
    = Rejected (MysteriousType (type (_repository (Sample.settings_of w)))).
Proof.
  intros w.
  destruct (get_mysterious_type_exactly (contract := Sample.backends)
              w (Sample.settings_of w)) as (_ & Hunknown & _).
  - vm_compute. reflexivity.
  - vm_compute. reflexivity.
  - apply Hunknown. left. exists "webdav". vm_compute. reflexivity.
Defined.

(** C3 as stated fails: with [path] and [url] both set, [get] fulfils with a
    local git backend instead of failing with the mysterious type error. *)
Lemma git_with_path_and_url_counterexample :
  let w := Sample.started (Some Sample.git_both_text) in
  let rs := _repository (Sample.settings_of w) in
  Repository_instance w = None
  ∧ type rs = GIT
  ∧ path rs = Some "/home/me/settings"
  ∧ url rs = Some "git@example.org:me/settings.git"
  ∧ (RepositoryFactory.get (contract := Sample.backends) w).1
      = Fulfilled {| variant := LocalGitRepository; ref := 0 |}
  ∧ (RepositoryFactory.get (contract := Sample.backends) w).1
      ≠ Rejected (MysteriousType GIT).
Proof.
  vm_compute. repeat split; discriminate.
Qed.

Lemma git_with_path_and_url_is_local_witness :
  let w := Sample.started (Some Sample.git_both_text) in
  ∃ r, variant r = LocalGitRepository
       ∧ Repository_instance
           (RepositoryFactory.get (contract := Sample.backends) w).2 = Some r.
Proof.
  intros w.
  destruct (git_with_path_and_url_is_local (contract := Sample.backends)
              w (Sample.settings_of w)) as (r & ok & Hv & Hr & _).
  - vm_compute. reflexivity.
  - vm_compute. reflexivity.
  - vm_compute. reflexivity.
  - eexists. split; [vm_compute; reflexivity | discriminate].
  - eexists. split; [vm_compute; reflexivity | discriminate].
  - exists r. split; assumption.
Defined.


Lemma setProfile_backend_before_persisting_witness :
  let w := Sample.live (Some Sample.file_main_text) in
  let failed :=
    RepositoryFactory.setProfile (codec := Sample.yaml)
      (contract := Sample.backends) "missing" w in
  let done :=
    RepositoryFactory.setProfile (codec := Sample.yaml)
      (contract := Sample.backends) "work" w in
  (failed.1 = Rejected (BackendError {| variant := FileRepository; ref := 0 |})
   ∧ settings_yml failed.2 = settings_yml w)
  ∧ (done.1 = Fulfilled tt
     ∧ _profile <$> Settings_instance done.2 = Some "work").
Proof.
  intros w failed done. split.
  - destruct (setProfile_backend_before_persisting (codec := Sample.yaml)
                (contract := Sample.backends) w
                {| variant := FileRepository; ref := 0 |}
                (Sample.settings_of w) "missing") as (Hfail & _).
    + vm_compute. reflexivity.
    + vm_compute. reflexivity.
    + destruct Hfail as (H1 & H2 & _); [vm_compute; reflexivity|].
      split; assumption.
  - destruct (setProfile_backend_before_persisting (codec := Sample.yaml)
                (contract := Sample.backends) w
                {| variant := FileRepository; ref := 0 |}
                (Sample.settings_of w) "work") as (_ & Hok & _).
    + vm_compute. reflexivity.
    + vm_compute. reflexivity.
    + destruct Hok as (H1 & _ & _ & H2 & _); [vm_compute; reflexivity|].
      split; assumption.
Defined.

Lemma reload_unchanged_is_noop_witness :
  let w := Sample.live (Some Sample.file_main_text) in
  let after :=
    RepositoryFactory.reload (codec := Sample.yaml)
      (contract := Sample.backends) w in
  after.1 = Fulfilled false
  ∧ Repository_instance after.2 = Repository_instance w
  ∧ backend_calls (trace after.2) = backend_calls (trace w).
Proof.
  intros w after.
  destruct (reload_unchanged_is_noop (codec := Sample.yaml)
              (contract := Sample.backends) w (Sample.settings_of w))
    as (H1 & H2 & _ & _ & _ & _ & H3).
  - vm_compute. reflexivity.
  - vm_compute. reflexivity.
  - repeat split; assumption.
Defined.

(** C5 as stated fails: the file now names a type outside the enumeration;
    the digest differs and an instance is live, yet [reload] does not return
    [true] and constructs nothing after its one [terminate]. *)
Lemma reload_to_unknown_type_counterexample :
  let w := edited (Some Sample.webdav_text)
             (Sample.live (Some Sample.file_main_text)) in
  let r := {| variant := FileRepository; ref := 0 |} in
  let after :=
    RepositoryFactory.reload (codec := Sample.yaml)
      (contract := Sample.backends) w in
  Repository_instance w = Some r
  ∧ _hash (Sample.settings_of w)
      ≠ Settings.digest (decoded (settings_yml w))
  ∧ after.1 = Rejected (MysteriousType (OTHER "webdav"))
  ∧ after.1 ≠ Fulfilled true
  ∧ backend_calls (trace after.2)
      = backend_calls (trace w) ++ [Terminate r true]
  ∧ Repository_instance after.2 = None.
Proof.
  vm_compute. repeat split; discriminate.
Qed.

Lemma reload_changed_witness :
  let w := edited (Some Sample.git_remote_text)
             (Sample.live (Some Sample.file_main_text)) in
  let r := {| variant := FileRepository; ref := 0 |} in
  let after :=
    RepositoryFactory.reload (codec := Sample.yaml)
      (contract := Sample.backends) w in
  ∃ r' ok_p,
    variant r' = RemoteGitRepository
    ∧ Repository_instance after.2 = Some r'
    ∧ backend_calls (trace after.2)
        = backend_calls (trace w)
            ++ [Terminate r true; New r'; SetProfile r' "main" ok_p]
    ∧ after.1 = if ok_p then Fulfilled true else Rejected (BackendError r').
Proof.
  intros w r after.
  destruct (reload_changed (codec := Sample.yaml)
              (contract := Sample.backends) w (Sample.settings_of w)
              Sample.git_remote)
    as (_ & _ & Hlive).
  - vm_compute. reflexivity.
  - vm_compute. discriminate.
  - vm_compute. reflexivity.
  - destruct (Hlive r) as (_ & Hok & _); [vm_compute; reflexivity|].
    destruct (Hok eq_refl RemoteGitRepository)
      as (r' & ok_p & H1 & H2 & H3 & H4).
    + apply resolve_Matches. vm_compute. reflexivity.
    + exists r', ok_p. repeat split; assumption.
Defined.

Lemma document_without_repository_is_inert_witness :
  let w0 := Sample.boot (Some Sample.no_repository_text) in
  ∃ this',
    (Settings.load (codec := Sample.yaml) Sample.context w0).1 = Fulfilled this'
    ∧ _repository this' = Settings.dummy_repository
    ∧ _profile this' = "".
Proof.
  intros w0.
  pose (w := Sample.started (Some Sample.file_main_text)).
  destruct (document_without_repository_is_inert (codec := Sample.yaml)
              Sample.no_repository w (Sample.settings_of w)
              Sample.context w0 Sample.no_repository_text)
    as (_ & this' & H1 & _ & H2 & H3 & _).
  - reflexivity.
  - vm_compute. reflexivity.
  - vm_compute. reflexivity.
  - vm_compute. discriminate.
  - vm_compute. reflexivity.
  - exists this'. repeat split; assumption.
Defined.

Lemma save_then_load_or_reload_witness :
  let w := Sample.started (Some Sample.file_main_text) in
  let saved := (Settings.save (codec := Sample.yaml) w).2 in
  (Settings.reload (codec := Sample.yaml) saved).1 = Fulfilled false
  ∧ ∃ this',
      (Settings.load (codec := Sample.yaml) Sample.context saved).1
        = Fulfilled this'
      ∧ _profile this' = _profile (Sample.settings_of w)
      ∧ _repository this' = _repository (Sample.settings_of w).
Proof.
  intros w saved.
  destruct (save_then_load_or_reload (codec := Sample.yaml)
              w (Sample.settings_of w) Sample.context)
    as (_ & H1 & _ & this' & H2 & _ & _ & _ & H3 & H4).
  - vm_compute. reflexivity.
  - vm_compute. reflexivity.
  - vm_compute. discriminate.
  - split; [exact H1|]. exists this'. repeat split; assumption.
Defined.

(** C9 as stated fails: the process last read the text of [settings.yml];
    the file is then deleted; [reload] reads nothing and stores the digest
    of the empty text, which is not the digest of the bytes last read. *)
Lemma hash_after_reload_of_deleted_file_counterexample :
  let w := edited None (Sample.started (Some Sample.file_main_text)) in
  let after := Settings.reload (codec := Sample.yaml) w in
  after.1 = Fulfilled true
  ∧ last_bytes (trace after.2) = Some Sample.file_main_text
  ∧ _hash <$> Settings_instance after.2
      = Some "da39a3ee5e6b4b0d3255bfef95601890afd80709"
  ∧ Sha1.digest_hex Sample.file_main_text
      = "a16c12475d219d006024d82633adb236b2756485"
  ∧ ¬ (∃ this' bytes,
         Settings_instance after.2 = Some this'
         ∧ last_bytes (trace after.2) = Some bytes
         ∧ _hash this' = Sha1.digest_hex bytes).
Proof.
  intros w after.
  assert (after.1 = Fulfilled true) as H1 by (vm_compute; reflexivity).
  assert (last_bytes (trace after.2) = Some Sample.file_main_text) as H2
    by (vm_compute; reflexivity).
  assert (_hash <$> Settings_instance after.2
          = Some "da39a3ee5e6b4b0d3255bfef95601890afd80709") as H3
    by (vm_compute; reflexivity).
  assert (Sha1.digest_hex Sample.file_main_text
          = "a16c12475d219d006024d82633adb236b2756485") as H4
    by (vm_compute; reflexivity).
  repeat (split; [assumption|]).
  intros (this' & bytes & Hs & Hb & Hh).
  assert (bytes = Sample.file_main_text) as Hbytes.
  { rewrite Hb in H2. injection H2 as H2. exact H2. }
  assert (_hash this' = "da39a3ee5e6b4b0d3255bfef95601890afd80709") as Hhash.
  { rewrite Hs in H3. injection H3 as H3. exact H3. }
  rewrite Hhash, Hbytes, H4 in Hh. discriminate.
Qed.

(** The original claim fails on a second count: [load] of a file that is
    not UTF-8, here at the start of the process, stores the digest of the
    decoded text, which is not the digest of the bytes it read. *)
Lemma hash_of_file_that_is_not_utf8 :
  let first :=
    Settings.load (codec := Sample.yaml) Sample.context
      (Sample.boot (Some Sample.latin1_bytes)) in
  last_bytes (trace first.2) = Some Sample.latin1_bytes
  ∧ _hash <$> Settings_instance first.2
      = Some "361f20cff4420be23bcb9fce732d45611700d159"
  ∧ Sha1.digest_hex Sample.latin1_text
      = "361f20cff4420be23bcb9fce732d45611700d159"
  ∧ Sha1.digest_hex Sample.latin1_bytes
      = "0a12353b4dae65e5917d1e1360c652b062b36c33".
Proof.
  intros first.
  split; [vm_compute; reflexivity|].
  split; [vm_compute; reflexivity|].
  split; vm_compute; reflexivity.
Qed.

Lemma hash_after_each_operation_witness :
  let first :=
    Settings.load (codec := Sample.yaml) Sample.context
      (Sample.boot (Some Sample.latin1_bytes)) in
  let w0 := Sample.started (Some Sample.file_main_text) in
  let saved := Settings.save (codec := Sample.yaml) w0 in
  let w := edited None w0 in
  let after := Settings.reload (codec := Sample.yaml) w in
  (∃ this',
     first.1 = Fulfilled this'
     ∧ _hash this' = Sha1.digest_hex Sample.latin1_text)
  ∧ (∃ this',
       Settings_instance saved.2 = Some this'
       ∧ settings_yml saved.2 = Some Sample.file_main_text
       ∧ _hash this' = Sha1.digest_hex Sample.file_main_text)
  ∧ (∃ this',
       Settings_instance after.2 = Some this'
       ∧ _hash this' = Sha1.digest_hex ""
       ∧ last_bytes (trace after.2) = last_bytes (trace w)).
Proof.
  intros first w0 saved w after.
  destruct (hash_after_each_operation (codec := Sample.yaml) Sample.context)
    as (Hload & Hsave & Hreload).
  split; [|split].
  - destruct (Hload (Sample.boot (Some Sample.latin1_bytes)))
      as (this' & bytes & H1 & _ & H2 & H3 & _).
    + intros text Ht.
      assert (parsed_by_load (Sample.boot (Some Sample.latin1_bytes))
              = Some (Utf8.decode Sample.latin1_bytes)) as Hp
        by (unfold parsed_by_load; rewrite present_decoded; reflexivity).
      rewrite Hp in Ht. apply (inj Some) in Ht. subst text.
      vm_compute. discriminate.
    + assert (last_bytes (trace first.2) = Some Sample.latin1_bytes) as Hl
        by (vm_compute; reflexivity).
      assert (Utf8.encode (Utf8.decode Sample.latin1_bytes)
              = Sample.latin1_text) as He by (vm_compute; reflexivity).
      fold first in H2. rewrite Hl in H2. apply (inj Some) in H2.
      subst bytes. rewrite He in H3. exists this'.
      split; [exact H1 | exact H3].
  - destruct (Hsave w0 (Sample.settings_of w0))
      as (this' & bytes & _ & H1 & _ & H2 & H3).
    + vm_compute. reflexivity.
    + assert (settings_yml saved.2 = Some Sample.file_main_text) as Hd
        by (vm_compute; reflexivity).
      fold saved in H2. rewrite Hd in H2. apply (inj Some) in H2.
      subst bytes. exists this'.
      split; [exact H1|]. split; [exact Hd | exact H3].
  - destruct (Hreload w (Sample.settings_of w))
      as (this' & changed & _ & H1 & _ & H2).
    + vm_compute. reflexivity.
    + vm_compute. discriminate.
    + destruct (H2 eq_refl) as [H3 H4].
      exists this'. split; [exact H1|]. split; [exact H4 | exact H3].
Defined.

(** ** The settings store leaves the factory alone *)

Create HintDb quiet.

Section Quiet.
Context {codec : Yaml} {contract : Backends}.

Lemma quiet_bind {A B} (m : Promise A) (k : A → Promise B) :
  quiet m → (∀ a, quiet (k a)) → quiet (bind m k).
Proof.
  intros Hm Hk w. unfold bind. destruct (Hm w) as (H1 & H2 & H3).
  destruct (m w) as [[a|e] w']; simpl in *; [|done].
  destruct (Hk a w') as (H4 & H5 & H6). by rewrite H4, H5, H6.
Qed.

Lemma quiet_ret {A} (a : A) : quiet (ret a).
Proof. done. Qed.

Lemma quiet_throw {A} e : quiet (throw (A := A) e).
Proof. done. Qed.

Lemma quiet_emit e : is_backend_call e = false → quiet (emit e).
Proof.
  intros He w. simpl. rewrite backend_calls_app.
  unfold backend_calls at 2. simpl. rewrite He. by rewrite app_nil_r.
Qed.

Lemma quiet_file_exists f : quiet (file_exists f).
Proof. done. Qed.

Lemma quiet_readFile f : quiet (readFile f).
Proof.
  intros w. unfold readFile. destruct (file f w); [|done].
  apply (quiet_emit (FsRead f s) eq_refl w).
Qed.

Lemma quiet_writeFile data : quiet (writeFile data).
Proof.
  intros w. unfold writeFile.
  destruct (quiet_emit (FsWrite SettingsYml (Utf8.encode data)) eq_refl
              {| settings_yml := Some (Utf8.encode data);
                 default_settings_yml := default_settings_yml w;
                 Settings_instance := Settings_instance w;
                 Repository_instance := Repository_instance w;
                 next_ref := next_ref w;
                 trace := trace w |}) as (H1 & H2 & H3).
  done.
Qed.

Lemma quiet_Settings_get : quiet Settings.get.
Proof. intros w. unfold Settings.get. by destruct (Settings_instance w). Qed.

Lemma quiet_Settings_put this : quiet (Settings.put this).
Proof. done. Qed.

#[local] Hint Resolve quiet_ret quiet_throw quiet_file_exists quiet_readFile
  quiet_writeFile quiet_Settings_get quiet_Settings_put : quiet.
#[local] Hint Extern 1 (quiet (emit _)) =>
  apply quiet_emit; reflexivity : quiet.

Ltac quiet :=
  repeat first
    [ progress intros
    | solve [auto with quiet]
    | apply quiet_bind
    | match goal with
      | |- quiet (if ?b then _ else _) => destruct b
      | |- quiet (match ?x with _ => _ end) => destruct x
      end ].

Lemma quiet_assign f : quiet (Settings.assign f).
Proof. unfold Settings.assign. quiet. Qed.
#[local] Hint Resolve quiet_assign : quiet.

Lemma quiet_set data : quiet (Settings.set data).
Proof. unfold Settings.set. quiet. Qed.

Lemma quiet_parse bytes : quiet (Settings.parse bytes).
Proof. unfold Settings.parse. quiet. Qed.

Lemma quiet_read_if_exists f : quiet (Settings.read_if_exists f).
Proof. unfold Settings.read_if_exists. quiet. Qed.

Lemma quiet_save : quiet Settings.save.
Proof. unfold Settings.save. quiet. Qed.
#[local] Hint Resolve quiet_set quiet_parse quiet_read_if_exists quiet_save
  : quiet.

Lemma quiet_Settings_setProfile p : quiet (Settings.setProfile p).
Proof. unfold Settings.setProfile. quiet. Qed.

Lemma quiet_Settings_reload : quiet Settings.reload.
Proof. unfold Settings.reload. quiet. Qed.

Lemma quiet_load context : quiet (Settings.load context).
Proof. unfold Settings.load. quiet. Qed.

(** X1.  Settings.load, save, reload and setProfile never call a backend and
    leave the factory's cached instance and its reference counter as they
    were. *)
Theorem store_leaves_factory_alone context p w :
  let same (w' : World) :=
    Repository_instance w' = Repository_instance w
    ∧ next_ref w' = next_ref w
    ∧ backend_calls (trace w') = backend_calls (trace w) in
  same (Settings.load context w).2
  ∧ same (Settings.save w).2
  ∧ same (Settings.reload w).2
  ∧ same (Settings.setProfile p w).2.
Proof.
  intros same. unfold same.
  split; [apply quiet_load|]. split; [apply quiet_save|].
  split; [apply quiet_Settings_reload | apply quiet_Settings_setProfile].
Qed.
End Quiet.

(** ** The factory as a state machine *)

Section Transitions.
Context {codec : Yaml} {contract : Backends}.

Lemma view_quiet {A} (m : Promise A) w : quiet m → view (m w).2 = view w.
Proof. intros Hm. destruct (Hm w) as (H1 & H2 & H3). unfold view. congruence. Qed.

Lemma reset_run w :
  RepositoryFactory.reset w =
    match Repository_instance w with
    | Some r =>
        let ok := backend_terminate (trace w) r in
        (if ok then Fulfilled tt else Rejected (BackendError r),
         with_backend (if ok then None else Some r) (next_ref w)
           (trace w ++ [Terminate r ok]) w)
    | None => (Fulfilled tt, w)
    end.
Proof.
  unfold RepositoryFactory.reset, bind, RepositoryFactory.instance.
  destruct (Repository_instance w) as [r|] eqn:Hr; [|reflexivity].
  rewrite call_terminate_run. cbv zeta.
  destruct (backend_terminate (trace w) r); [reflexivity|].
  by rewrite Hr.
Qed.

Lemma factory_setProfile_run w p :
  RepositoryFactory.setProfile p w =
    match Repository_instance w with
    | Some r =>
        let ok := backend_setProfile (trace w) r p in
        let w' := with_backend (Some r) (next_ref w)
                    (trace w ++ [SetProfile r p ok]) w in
        if ok then (Settings.get >> Settings.setProfile p) w'
        else (Rejected (BackendError r), w')
    | None => (Settings.get >> Settings.setProfile p) w
    end.
Proof.
  unfold RepositoryFactory.setProfile.
  unfold bind at 1. unfold RepositoryFactory.instance at 1.
  destruct (Repository_instance w) as [r|] eqn:Hr; [|reflexivity].
  unfold bind at 1. rewrite call_setProfile_run. cbv zeta. rewrite Hr.
  by destruct (backend_setProfile (trace w) r p).
Qed.

Lemma factory_reload_run w :
  RepositoryFactory.reload w =
    match Settings_instance w with
    | None => (Rejected NotInitialized, w)
    | Some _ =>
        match Settings.reload w with
        | (Fulfilled true, w1) =>
            match Repository_instance w1 with
            | Some r =>
                let ok := backend_terminate (trace w1) r in
                let w2 := with_backend (Some r) (next_ref w1)
                            (trace w1 ++ [Terminate r ok]) w1 in
                if ok then
                  match RepositoryFactory.create w2 with
                  | (Fulfilled _, w3) => (Fulfilled true, w3)
                  | (Rejected e, w3) => (Rejected e, w3)
                  end
                else (Rejected (BackendError r), w2)
            | None => (Fulfilled true, w1)
            end
        | (Fulfilled false, w1) => (Fulfilled false, w1)
        | (Rejected e, w1) => (Rejected e, w1)
        end
    end.
Proof.
  unfold RepositoryFactory.reload.
  unfold bind at 1. unfold Settings.get at 1.
  destruct (Settings_instance w) as [this|]; [|reflexivity].
  unfold bind at 1. destruct (Settings.reload w) as [[[|]|e] w1];
    [|reflexivity|reflexivity].
  unfold bind at 1. unfold RepositoryFactory.instance at 1.
  destruct (Repository_instance w1) as [r|] eqn:Hr; [|reflexivity].
  unfold bind at 1. unfold bind at 1. rewrite call_terminate_run. cbv zeta.
  rewrite Hr.
  destruct (backend_terminate (trace w1) r); [|reflexivity].
  unfold bind. by destruct (RepositoryFactory.create _) as [[[]|e] w3].
Qed.

Lemma reload_keeps_settings w this :
  Settings_instance w = Some this →
  is_Some (Settings_instance (Settings.reload w).2).
Proof.
  intros Hs. rewrite (reload_run w this Hs). cbv zeta.
  case_bool_decide; [destruct (incoming (decoded (settings_yml w)))|]; simpl; eauto.
Qed.

Lemma view_with_backend inst n t w :
  view (with_backend inst n t w)
  = {| cached := inst; counter := n; history := backend_calls t |}.
Proof. reflexivity. Qed.

Ltac world :=
  unfold view;
  cbn [fst snd with_backend with_store next_ref trace
       Repository_instance Settings_instance cached counter history].

(** Every call is one of the six transitions. *)
Lemma call_transition c w : Transition (view w) (view (run c w)).
Proof.
  destruct c; simpl run.
  - rewrite (view_quiet _ w (quiet_load context)). constructor.
  - rewrite (view_quiet _ w quiet_save). constructor.
  - rewrite (view_quiet _ w quiet_Settings_reload). constructor.
  - rewrite (view_quiet _ w (quiet_Settings_setProfile p)). constructor.
  - (* get *)
    destruct (Repository_instance w) as [r|] eqn:Hr.
    { rewrite (get_cached w r Hr). constructor. }
    destruct (Settings_instance w) as [this|] eqn:Hs.
    + rewrite (get_run w this Hr Hs).
      destruct (resolve (_repository this)) as [v|]; cbv zeta; world.
      * rewrite !backend_calls_app, <- app_assoc.
        apply (first_instance (view w) v (_profile this)). exact Hr.
      * unfold view. rewrite Hr. constructor.
    + assert (RepositoryFactory.get w = (Rejected NotInitialized, w)) as ->.
      { unfold RepositoryFactory.get, bind, RepositoryFactory.instance,
          Settings.get. by rewrite Hr, Hs. }
      constructor.
  - (* reload *)
    rewrite factory_reload_run.
    destruct (Settings_instance w) as [this|] eqn:Hs; [|constructor].
    destruct (quiet_Settings_reload w) as (Hq1 & Hq2 & Hq3).
    assert (Hk := reload_keeps_settings w this Hs).
    destruct (Settings.reload w) as [[[|]|e] w1]; cbn [snd] in *;
      [| unfold view; rewrite Hq1, Hq2, Hq3; constructor
       | unfold view; rewrite Hq1, Hq2, Hq3; constructor].
    destruct (Repository_instance w1) as [r|] eqn:Hr;
      [| world; rewrite Hr, Hq1, Hq2, Hq3; constructor].
    symmetry in Hq1.
    cbv zeta. destruct (backend_terminate (trace w1) r).
    + destruct Hk as [this' Hs'].
      erewrite create_run by exact Hs'.
      destruct (resolve (_repository this')) as [v|]; cbv zeta.
      * destruct (backend_setProfile _ _ _); world;
          rewrite !backend_calls_app, <- !app_assoc, Hq2, Hq3;
          apply (replaced (view w) r v (_profile this')); exact Hq1.
      * world. rewrite !backend_calls_app, Hq2, Hq3.
        apply (dropped (view w) r). exact Hq1.
    + world. rewrite !backend_calls_app, Hq2, Hq3.
      apply (terminate_failed (view w) r). exact Hq1.
  - (* reset *)
    rewrite reset_run. destruct (Repository_instance w) as [r|] eqn:Hr;
      [|constructor].
    cbv zeta. destruct (backend_terminate (trace w) r); world;
      rewrite backend_calls_app.
    + apply (dropped (view w) r). exact Hr.
    + apply (terminate_failed (view w) r). exact Hr.
  - (* setProfile *)
    rewrite factory_setProfile_run.
    assert (quiet (Settings.get >> Settings.setProfile p)) as Hq.
    { apply quiet_bind; [apply quiet_Settings_get|].
      intros _. apply quiet_Settings_setProfile. }
    destruct (Repository_instance w) as [r|] eqn:Hr.
    + cbv zeta. destruct (backend_setProfile (trace w) r p) eqn:Hok.
      * rewrite (view_quiet _ _ Hq). world. rewrite backend_calls_app.
        apply (profile_switched (view w) r p true). exact Hr.
      * world. rewrite backend_calls_app.
        apply (profile_switched (view w) r p false). exact Hr.
    + rewrite (view_quiet _ _ Hq). constructor.
  - (* an edit from outside *) constructor.
Qed.
End Transitions.

Section WellFormed.

Lemma constructed_app t1 t2 :
  constructed (t1 ++ t2) = constructed t1 ++ constructed t2.
Proof. apply omap_app. Qed.

Lemma elem_of_constructed r t : r ∈ constructed t ↔ New r ∈ t.
Proof.
  unfold constructed. rewrite list_elem_of_omap. split.
  - intros (e & He & Hc). destruct e; simpl in Hc; try discriminate.
    by injection Hc as ->.
  - intros He. by exists (New r).
Qed.

Lemma no_use_snoc h e :
  no_use_after_terminate h →
  (∀ r, subject e = Some r → Terminate r true ∉ h) →
  no_use_after_terminate (h ++ [e]).
Proof.
  intros Hh He before after r Heq x Hx.
  destruct after as [|y after _] using rev_ind; [by apply elem_of_nil in Hx|].
  change (before ++ Terminate r true :: after ++ [y])
    with (before ++ (Terminate r true :: after) ++ [y]) in Heq.
  rewrite app_assoc in Heq. apply app_inj_tail in Heq as [-> ->].
  apply elem_of_app in Hx as [Hx|Hx].
  - by apply (Hh before after r eq_refl).
  - apply list_elem_of_singleton in Hx as ->. intros Hs.
    apply (He r Hs). apply elem_of_app. right. apply elem_of_cons. by left.
Qed.

Lemma cached_constructed v r :
  well_formed v → cached v = Some r → New r ∈ history v.
Proof.
  intros Hv Hc. apply elem_of_constructed.
  apply last_Some_elem_of. by apply (cached_is_last v Hv).
Qed.

Lemma cached_below v r :
  well_formed v → cached v = Some r → ref r < counter v.
Proof.
  intros Hv Hc.
  apply (subjects_below v Hv (New r)); [by apply cached_constructed|done].
Qed.

Lemma well_formed_call v r e :
  well_formed v → cached v = Some r →
  subject e = Some r → construction e = None → e ≠ Terminate r true →
  well_formed {| cached := Some r; counter := counter v;
                 history := history v ++ [e] |}.
Proof.
  intros Hv Hc Hs Hn Hne.
  assert (Hnew := cached_constructed v r Hv Hc).
  assert (constructed (history v ++ [e]) = constructed (history v)) as Hsame.
  { rewrite constructed_app. unfold constructed at 2. simpl. rewrite Hn.
    by rewrite app_nil_r. }
  split; simpl.
  - intros e' r' [He'| ->%list_elem_of_singleton]%elem_of_app Hs'.
    + by apply (subjects_below v Hv e').
    + rewrite Hs in Hs'. injection Hs' as <-. by apply cached_below.
  - intros e' r' [He'| ->%list_elem_of_singleton]%elem_of_app Hs';
      apply elem_of_app; left.
    + by apply (subjects_constructed v Hv e').
    + rewrite Hs in Hs'. by injection Hs' as <-.
  - intros r' [= <-]. rewrite Hsame. by apply (cached_is_last v Hv).
  - intros r' [= <-] [Hin| Heq%list_elem_of_singleton]%elem_of_app;
      [|congruence].
    by apply (cached_not_terminated v Hv r).
  - rewrite Hsame. apply (references_distinct v Hv).
  - intros r' [Hin| <-%list_elem_of_singleton]%elem_of_app; [|discriminate].
    destruct (terminated_or_cached v Hv r' Hin) as [Ht|Ht].
    + left. apply elem_of_app. by left.
    + right. congruence.
  - apply no_use_snoc; [apply (terminated_for_good v Hv)|].
    intros r' Hs'. rewrite Hs in Hs'. injection Hs' as <-.
    by apply (cached_not_terminated v Hv).
Qed.

Lemma well_formed_terminate v r :
  well_formed v → cached v = Some r →
  well_formed {| cached := None; counter := counter v;
                 history := history v ++ [Terminate r true] |}.
Proof.
  intros Hv Hc.
  assert (Hnew := cached_constructed v r Hv Hc).
  assert (constructed (history v ++ [Terminate r true])
          = constructed (history v)) as Hsame.
  { rewrite constructed_app. by rewrite app_nil_r. }
  split; simpl.
  - intros e' r' [He'| ->%list_elem_of_singleton]%elem_of_app Hs'.
    + by apply (subjects_below v Hv e').
    + injection Hs' as <-. by apply cached_below.
  - intros e' r' [He'| ->%list_elem_of_singleton]%elem_of_app Hs';
      apply elem_of_app; left.
    + by apply (subjects_constructed v Hv e').
    + by injection Hs' as <-.
  - discriminate.
  - discriminate.
  - rewrite Hsame. apply (references_distinct v Hv).
  - intros r' [Hin| [=]%list_elem_of_singleton]%elem_of_app.
    left. apply elem_of_app.
    destruct (terminated_or_cached v Hv r' Hin) as [Ht|Ht]; [by left|].
    right. apply list_elem_of_singleton. congruence.
  - apply no_use_snoc; [apply (terminated_for_good v Hv)|].
    intros r' [= <-]. by apply (cached_not_terminated v Hv).
Qed.

Lemma well_formed_construct v class :
  well_formed v → cached v = None →
  let r := {| variant := class; ref := counter v |} in
  well_formed {| cached := Some r; counter := S (counter v);
                 history := history v ++ [New r] |}.
Proof.
  intros Hv Hc r.
  assert (∀ e, e ∈ history v → subject e ≠ Some r) as Hfresh.
  { intros e He Hs. apply (subjects_below v Hv e r He) in Hs. simpl in Hs.
    lia. }
  split; simpl.
  - intros e' r' [He'| ->%list_elem_of_singleton]%elem_of_app Hs'.
    + apply (subjects_below v Hv e') in Hs'; [lia|done].
    + injection Hs' as <-. simpl. lia.
  - intros e' r' [He'| ->%list_elem_of_singleton]%elem_of_app Hs';
      apply elem_of_app.
    + left. by apply (subjects_constructed v Hv e').
    + right. injection Hs' as <-. by apply list_elem_of_singleton.
  - intros r' [= <-]. rewrite constructed_app. apply last_snoc.
  - intros r' [= <-] [Hin| [=]%list_elem_of_singleton]%elem_of_app.
    by apply (Hfresh _ Hin).
  - rewrite constructed_app, fmap_app. apply NoDup_app.
    split; [apply (references_distinct v Hv)|]. split; [|apply NoDup_singleton].
    intros n (r' & -> & Hr')%list_elem_of_fmap Heq%list_elem_of_singleton.
    apply elem_of_constructed in Hr'.
    assert (ref r' < counter v)
      by (by apply (subjects_below v Hv (New r') r' Hr')).
    simpl in Heq. lia.
  - intros r' [Hin| Heq%list_elem_of_singleton]%elem_of_app.
    + left. apply elem_of_app. left.
      destruct (terminated_or_cached v Hv r' Hin) as [Ht|Ht]; [done|].
      congruence.
    + right. by injection Heq as ->.
  - apply no_use_snoc; [apply (terminated_for_good v Hv)|].
    intros r' [= <-] Hin. by apply (Hfresh _ Hin).
Qed.

Lemma snoc2 {A} (l : list A) a b : l ++ [a; b] = (l ++ [a]) ++ [b].
Proof. by rewrite <- app_assoc. Qed.

Lemma snoc3 {A} (l : list A) a b c :
  l ++ [a; b; c] = ((l ++ [a]) ++ [b]) ++ [c].
Proof. by rewrite <- !app_assoc. Qed.

Lemma well_formed_transition v v' :
  well_formed v → Transition v v' → well_formed v'.
Proof.
  intros Hv [|class p ok Hc r|r p ok Hc|r Hc|r Hc|r class p ok Hc r'].
  - done.
  - rewrite snoc2.
    apply (well_formed_call
             {| cached := Some r; counter := S (counter v);
                history := history v ++ [New r] |} r);
      [by apply well_formed_construct|done..].
  - apply (well_formed_call v r); done.
  - apply (well_formed_call v r); done.
  - by apply well_formed_terminate.
  - rewrite snoc3.
    apply (well_formed_call
             {| cached := Some r'; counter := S (counter v);
                history := (history v ++ [Terminate r true]) ++ [New r'] |}
             r'); [|done..].
    apply (well_formed_construct
             {| cached := None; counter := counter v;
                history := history v ++ [Terminate r true] |} class);
      [by apply well_formed_terminate|done].
Qed.

Lemma well_formed_empty n :
  well_formed {| cached := None; counter := n; history := [] |}.
Proof.
  split; simpl; try discriminate.
  - intros e r He. by apply elem_of_nil in He.
  - intros e r He. by apply elem_of_nil in He.
  - apply NoDup_nil_2.
  - intros r He. by apply elem_of_nil in He.
  - intros [|??] after r Heq; discriminate.
Qed.
End WellFormed.

Section Reached.
Context {codec : Yaml} {contract : Backends}.

Lemma reached_well_formed calls w :
  well_formed (view w) → well_formed (view (run_all calls w)).
Proof.
  revert w. induction calls as [|c calls IH]; intros w Hw; [done|].
  rewrite run_all_cons. apply IH.
  apply (well_formed_transition (view w)); [done|apply call_transition].
Qed.

Lemma started_well_formed w :
  Repository_instance w = None → backend_calls (trace w) = [] →
  well_formed (view w).
Proof.
  intros Hr Ht. unfold view. rewrite Hr, Ht. apply well_formed_empty.
Qed.
End Reached.

(** ** More of the settings store *)

Lemma digest_hex_length data : String.length (Sha1.digest_hex data) = 40.
Proof.
  unfold Sha1.digest_hex.
  destruct (Sha1.blocks _ _ _) as [[[[h0 h1] h2] h3] h4]. reflexivity.
Qed.

Lemma digest_hex_nonempty data : Sha1.digest_hex data ≠ "".
Proof.
  intros Heq. assert (Hl := digest_hex_length data). rewrite Heq in Hl.
  discriminate.
Qed.

Lemma writes_app t1 t2 : writes (t1 ++ t2) = writes t1 ++ writes t2.
Proof. apply omap_app. Qed.

Lemma writes_log_of_set data : writes (log_of_set data) = [].
Proof.
  unfold log_of_set.
  destruct (truthy (profile data)), (truthy (hostname data)),
    (repository data); reflexivity.
Qed.

Lemma writes_reads f w : writes (reads f w) = [].
Proof. unfold reads. destruct (file f w); reflexivity. Qed.

Lemma document_of_defaults id remote :
  Settings.document (fields_after_set Settings.defaults (Settings.new id remote))
  = Settings.defaults.
Proof. reflexivity. Qed.

Section MoreStore.
Context {codec : Yaml}.

(** X2.  Settings.load writes settings.yml only when the file is missing or
    empty: a non-empty file is never written; otherwise what the bundled
    default decodes to is written, which is a copy byte for byte when the
    default is well-formed UTF-8 (and nothing is written if it does not
    parse), or, with no bundled default, the stringified defaults() are
    written and the settings in memory have profile 'main' and the dummy
    repository type. *)
Theorem load_writes_only_when_missing context w :
  let after := Settings.load context w in
  (truthy (settings_yml w) = true →
     settings_yml after.2 = settings_yml w
     ∧ writes (trace after.2) = writes (trace w))
  ∧ (truthy (settings_yml w) = false →
     ∀ bytes, default_settings_yml w = Some bytes →
       match yaml_parse (Utf8.decode bytes) with
       | ParseThrows =>
           after.1 = Rejected YamlParseError
           ∧ settings_yml after.2 = settings_yml w
           ∧ writes (trace after.2) = writes (trace w)
       | _ =>
           settings_yml after.2 = Some (Utf8.encode (Utf8.decode bytes))
           ∧ writes (trace after.2)
               = writes (trace w) ++ [Utf8.encode (Utf8.decode bytes)]
           ∧ (Utf8.scrub bytes = bytes → settings_yml after.2 = Some bytes)
       end)
  ∧ (truthy (settings_yml w) = false → default_settings_yml w = None →
     ∃ this,
       after.1 = Fulfilled this
       ∧ _profile this = "main"
       ∧ type (_repository this) = DUMMY
       ∧ settings_yml after.2
           = Some (Utf8.encode (yaml_stringify Settings.defaults))
       ∧ writes (trace after.2)
           = writes (trace w)
               ++ [Utf8.encode (yaml_stringify Settings.defaults)]).
Proof.
  intros after. split; [|split].
  - intros Ht. destruct (settings_yml w) as [bytes|] eqn:Hd; [|discriminate].
    assert (bytes ≠ "") as Hne by (intros ->; discriminate).
    subst after. rewrite (load_existing context w bytes Hd Hne). cbv zeta.
    destruct (incoming (Some (Utf8.decode bytes))); simpl;
      (split; [reflexivity|]);
      rewrite ?writes_app, ?writes_log_of_set; simpl; by rewrite ?app_nil_r.
  - intros Ht bytes Hb. subst after.
    rewrite (load_bundled context w bytes Ht Hb). cbv zeta.
    destruct (yaml_parse (Utf8.decode bytes)); simpl;
      rewrite ?writes_app, ?writes_log_of_set, ?writes_reads; simpl;
      rewrite ?app_nil_r; try done;
      (split; [reflexivity|]); (split; [reflexivity|]);
      intros Hwf; by rewrite encode_decode, Hwf.
  - intros Ht Hb. subst after. rewrite (load_defaults context w Ht Hb).
    cbv zeta. rewrite document_of_defaults. eexists. simpl.
    split; [reflexivity|]. split; [reflexivity|]. split; [reflexivity|].
    split; [reflexivity|].
    by rewrite !writes_app, writes_log_of_set, writes_reads, !app_nil_r.
Qed.

(** X3.  When yaml.parse throws during Settings.load, load rejects but leaves
    $instance set to a blank Settings (hash '', dummy repository), so
    Settings.get() succeeds afterwards; since a SHA-1 digest is never the
    empty string, no later reload() of these settings returns false. *)
Theorem failed_load_leaves_blank_settings context w text :
  parsed_by_load w = Some text →
  yaml_parse text = ParseThrows →
  let after := Settings.load context w in
  let blank := Settings.new (extension_id context)
                 (extensionKind_is_Workspace context) in
  after.1 = Rejected YamlParseError
  ∧ Settings_instance after.2 = Some blank
  ∧ Settings.get after.2 = (Fulfilled blank, after.2)
  ∧ settings_yml after.2 = settings_yml w
  ∧ ∀ disk, (Settings.reload (edited disk after.2)).1 ≠ Fulfilled false.
Proof.
  intros Hp Hthrow after blank.
  assert (after.1 = Rejected YamlParseError
          ∧ Settings_instance after.2 = Some blank
          ∧ settings_yml after.2 = settings_yml w) as (H1 & H2 & H3).
  { subst after. unfold parsed_by_load in Hp.
    rewrite present_decoded in Hp.
    destruct (truthy (settings_yml w)) eqn:Ht.
    - destruct (settings_yml w) as [bytes|] eqn:Hd; [|discriminate].
      assert (bytes ≠ "") as Hne by (intros ->; discriminate).
      apply (inj Some) in Hp. subst text.
      rewrite (load_existing context w bytes Hd Hne). cbv zeta.
      unfold incoming.
      rewrite (proj2 (present_Some _) (decode_nonempty bytes Hne)).
      change (default Utf8.empty (Some (Utf8.decode bytes)))
        with (Utf8.decode bytes).
      rewrite Hthrow. done.
    - destruct (default_settings_yml w) as [bytes|] eqn:Hb; [|discriminate].
      apply (inj Some) in Hp. subst text.
      rewrite (load_bundled context w bytes Ht Hb). cbv zeta.
      by rewrite Hthrow. }
  split; [exact H1|]. split; [exact H2|].
  split; [unfold Settings.get; by rewrite H2|]. split; [exact H3|].
  intros disk.
  erewrite reload_run by exact H2. cbv zeta.
  rewrite bool_decide_eq_true_2.
  - destruct (incoming _); discriminate.
  - simpl. intros Heq. symmetry in Heq. by apply digest_hex_nonempty in Heq.
Qed.

Lemma reload_in_sync w :
  in_sync w →
  in_sync (Settings.reload w).2
  ∧ (Settings.reload w).1 = Fulfilled false
  ∧ Settings_instance (Settings.reload w).2 = Settings_instance w
  ∧ settings_yml (Settings.reload w).2 = settings_yml w.
Proof.
  intros (this & Hs & Hh). rewrite (reload_run w this Hs). cbv zeta.
  rewrite bool_decide_eq_false_2 by (intros Hne; by apply Hne). simpl.
  split; [by exists this|]. by rewrite Hs.
Qed.

(** X4.  After each of load (also the first one of the process, which finds no
    settings in memory), save, setProfile and reload that completes, the hash
    in memory is the digest reload() computes for settings.yml as it is on
    disk: that of the text the file decodes to, also when its bytes are not
    valid UTF-8, and of the empty text if the file is absent. So an immediate
    reload() returns false and leaves the settings and the file unchanged. *)
Theorem reload_after_operation_is_noop context p :
  let settled (w' : World) :=
    in_sync w'
    ∧ (Settings.reload w').1 = Fulfilled false
    ∧ Settings_instance (Settings.reload w').2 = Settings_instance w'
    ∧ settings_yml (Settings.reload w').2 = settings_yml w' in
  (∀ w,
     (∀ text, parsed_by_load w = Some text → yaml_parse text ≠ ParseThrows) →
     settled (Settings.load context w).2)
  ∧ (∀ w this,
       Settings_instance w = Some this →
       settled (Settings.save w).2 ∧ settled (Settings.setProfile p w).2)
  ∧ (∀ w this,
       Settings_instance w = Some this →
       incoming (decoded (settings_yml w)) ≠ None →
       settled (Settings.reload w).2).
Proof.
  intros settled.
  assert (∀ w', in_sync w' → settled w') as Hsettled.
  { intros w' Hw'. split; [done|]. by apply reload_in_sync. }
  split; [|split].
  - intros w Hparse. apply Hsettled. unfold parsed_by_load in Hparse.
    rewrite present_decoded in Hparse.
    destruct (truthy (settings_yml w)) eqn:Ht.
    + destruct (settings_yml w) as [bytes|] eqn:Hd; [|discriminate].
      assert (bytes ≠ "") as Hne by (intros ->; discriminate).
      rewrite (load_existing context w bytes Hd Hne). cbv zeta.
      unfold incoming.
      rewrite (proj2 (present_Some _) (decode_nonempty bytes Hne)).
      change (default Utf8.empty (Some (Utf8.decode bytes)))
        with (Utf8.decode bytes).
      specialize (Hparse _ eq_refl).
      destruct (yaml_parse (Utf8.decode bytes)); [done| |];
        eexists; split; reflexivity.
    + destruct (default_settings_yml w) as [bytes|] eqn:Hb.
      * rewrite (load_bundled context w bytes Ht Hb). cbv zeta.
        specialize (Hparse _ eq_refl).
        destruct (yaml_parse (Utf8.decode bytes)); [done| |];
          eexists; (split; [reflexivity|]);
          cbn [snd with_store settings_yml]; by rewrite decoded_encode.
      * rewrite (load_defaults context w Ht Hb). eexists.
        split; [reflexivity|].
        cbn [snd with_store settings_yml]. by rewrite decoded_encode.
  - intros w this Hs. split; apply Hsettled.
    + rewrite (save_run w this Hs). eexists. split; [reflexivity|].
      cbn [snd with_store settings_yml]. by rewrite decoded_encode.
    + rewrite (setProfile_store_run w this p Hs). eexists.
      split; [reflexivity|].
      cbn [snd with_store settings_yml]. by rewrite decoded_encode.
  - intros w this Hs Hin. apply Hsettled.
    rewrite (reload_run w this Hs). cbv zeta. case_bool_decide as Hh.
    + destruct (incoming (decoded (settings_yml w))); [|done].
      eexists. split; reflexivity.
    + exists this. simpl. split; [reflexivity|].
      by destruct (decide (_hash this
                           = Settings.digest (decoded (settings_yml w)))).
Qed.
End MoreStore.

Section MoreStore2.
Context {codec : Yaml}.

(** X5.  A reload() that sees a changed digest replaces hooks, hostname,
    profile and repository by those of the new document alone (hooks become
    empty when the document has none; a document without repository gives the
    dummy repository, empty profile and hostname ''); only extensionId, and
    remote when the document has no extensionKind, are carried over. *)
Theorem reload_replaces_fields w this data :
  Settings_instance w = Some this →
  _hash this ≠ Settings.digest (decoded (settings_yml w)) →
  incoming (decoded (settings_yml w)) = Some data →
  let after := Settings.reload w in
  ∃ this',
    after.1 = Fulfilled true
    ∧ Settings_instance after.2 = Some this'
    ∧ _hooks this' = default ∅ (hooks data)
    ∧ match repository data with
      | Some r =>
          _repository this' = r
          ∧ _profile this' = default "" (profile data)
          ∧ _hostname this' = hostname data
      | None =>
          _repository this' = Settings.dummy_repository
          ∧ _profile this' = ""
          ∧ _hostname this' = Some ""
      end
    ∧ extensionId this' = extensionId this
    ∧ (extensionKind data = None → _remote this' = _remote this).
Proof.
  intros Hs Hh Hin after. subst after.
  rewrite (reload_run w this Hs). cbv zeta.
  rewrite bool_decide_eq_true_2 by exact Hh. rewrite Hin.
  eexists. split; [reflexivity|]. split; [reflexivity|].
  unfold fields_after_set.
  destruct (repository data); simpl;
    (split; [reflexivity|]); (split; [done|]);
    (split; [by destruct (truthy (extensionKind data) && _)|]);
    by intros ->.
Qed.

(** X6.  set() makes remote true for extensionKind 'workspace', false for any
    other non-empty value except 'auto', and leaves it unchanged when
    extensionKind is absent, empty or 'auto'. *)
Theorem set_remote_follows_extensionKind data w this :
  Settings_instance w = Some this →
  ∃ this',
    Settings_instance (Settings.set data w).2 = Some this'
    ∧ (extensionKind data = Some "workspace" → _remote this' = true)
    ∧ (∀ kind, extensionKind data = Some kind →
         kind ≠ "" → kind ≠ "auto" → kind ≠ "workspace" →
         _remote this' = false)
    ∧ (extensionKind data = None ∨ extensionKind data = Some ""
       ∨ extensionKind data = Some "auto" →
       _remote this' = _remote this).
Proof.
  intros Hs. rewrite (set_run data w this Hs). eexists. simpl.
  split; [reflexivity|]. unfold fields_after_set.
  split; [|split].
  - intros ->. by destruct (repository data).
  - intros kind -> H1 H2 H3. simpl.
    destruct kind as [|a kind]; [done|]. simpl truthy.
    destruct (String.eqb (String a kind) "auto") eqn:Ha;
      [by apply String.eqb_eq in Ha|].
    destruct (String.eqb (String a kind) "workspace") eqn:Hw;
      [by apply String.eqb_eq in Hw|].
    by destruct (repository data).
  - intros [-> | [-> | ->]]; by destruct (repository data).
Qed.

(** X7.  save() never writes extensionKind: after setProfile has rewritten
    settings.yml, a fresh load of that file (the YAML codec reading back what
    it wrote) takes remote from the extension context alone and has the new
    profile. *)
Theorem remote_override_not_persisted w this p context :
  Settings_instance w = Some this →
  let saved := Settings.document (Settings.with_profile p this) in
  yaml_parse (yaml_stringify saved) = ParseValue saved →
  yaml_stringify saved ≠ Utf8.empty →
  let w1 := (Settings.setProfile p w).2 in
  extensionKind saved = None
  ∧ settings_yml w1 = Some (Utf8.encode (yaml_stringify saved))
  ∧ ∃ this',
      (Settings.load context w1).1 = Fulfilled this'
      ∧ _remote this' = extensionKind_is_Workspace context
      ∧ _profile this' = p.
Proof.
  intros Hs saved Hrt Hne w1. subst w1.
  rewrite (setProfile_store_run w this p Hs). cbv zeta. fold saved. simpl.
  split; [reflexivity|]. split; [reflexivity|].
  erewrite load_existing
    by (first [reflexivity | exact (encode_nonempty _ Hne)]).
  cbv zeta. rewrite decode_encode.
  rewrite (incoming_parsed _ _ Hne Hrt). simpl.
  eexists. split; [reflexivity|]. split; reflexivity.
Qed.

(** X8.  When settings.yml changed to a text on which yaml.parse throws,
    reload() rejects, writes nothing and leaves every field in memory (the
    hash included) as it was, so the next reload() parses again and fails
    again until the file changes. *)
Theorem failed_reload_changes_nothing w this bytes :
  Settings_instance w = Some this →
  settings_yml w = Some bytes →
  bytes ≠ "" →
  yaml_parse (Utf8.decode bytes) = ParseThrows →
  _hash this ≠ Settings.digest (Some (Utf8.decode bytes)) →
  let after := Settings.reload w in
  after.1 = Rejected YamlParseError
  ∧ Settings_instance after.2 = Some this
  ∧ settings_yml after.2 = Some bytes
  ∧ writes (trace after.2) = writes (trace w)
  ∧ (Settings.reload after.2).1 = Rejected YamlParseError.
Proof.
  intros Hs Hd Hne Hthrow Hh after.
  assert (incoming (decoded (Some bytes)) = None) as Hin.
  { unfold incoming, decoded. cbn [fmap option_fmap option_map].
    rewrite (proj2 (present_Some _) (decode_nonempty bytes Hne)).
    simpl. by rewrite Hthrow. }
  assert (after =
            (Rejected YamlParseError,
             with_store (Some bytes) (Some this)
               (trace w ++ reads SettingsYml w) w)) as ->.
  { subst after. rewrite (reload_run w this Hs). cbv zeta. rewrite Hd.
    rewrite bool_decide_eq_true_2 by exact Hh.
    by rewrite Hin. }
  simpl. split; [reflexivity|]. split; [reflexivity|]. split; [reflexivity|].
  split; [by rewrite writes_app, writes_reads, app_nil_r|].
  erewrite reload_run by reflexivity. cbv zeta.
  cbn [with_store settings_yml].
  rewrite bool_decide_eq_true_2 by exact Hh. by rewrite Hin.
Qed.
End MoreStore2.

(** ** More of the factory *)

Section MoreFactory.
Context {codec : Yaml} {contract : Backends}.

(** X10.  Before Settings.load has run, RepositoryFactory.get, reload and
    setProfile reject with the 'not initialized' error of Settings.get() and
    change nothing (no backend is constructed, nothing is written); reset() is
    a no-op. *)
Theorem factory_needs_settings w p :
  Settings_instance w = None →
  Repository_instance w = None →
  RepositoryFactory.get w = (Rejected NotInitialized, w)
  ∧ RepositoryFactory.reload w = (Rejected NotInitialized, w)
  ∧ RepositoryFactory.setProfile p w = (Rejected NotInitialized, w)
  ∧ RepositoryFactory.reset w = (Fulfilled tt, w).
Proof.
  intros Hs Hr. split; [|split; [|split]].
  - unfold RepositoryFactory.get, bind, RepositoryFactory.instance,
      Settings.get. by rewrite Hr, Hs.
  - rewrite factory_reload_run. by rewrite Hs.
  - rewrite factory_setProfile_run. rewrite Hr.
    unfold bind, Settings.get. by rewrite Hs.
  - rewrite reset_run. by rewrite Hr.
Qed.

(** X11.  reset() calls terminate() once on the live instance and clears the
    cache only if that call succeeded; when terminate() fails, reset() rejects
    and the instance stays cached. Settings, file and reference counter are
    untouched. *)
Theorem reset_clears_after_terminate w r :
  Repository_instance w = Some r →
  let after := RepositoryFactory.reset w in
  let ok := backend_terminate (trace w) r in
  after.1 = (if ok then Fulfilled tt else Rejected (BackendError r))
  ∧ Repository_instance after.2 = (if ok then None else Some r)
  ∧ trace after.2 = trace w ++ [Terminate r ok]
  ∧ Settings_instance after.2 = Settings_instance w
  ∧ settings_yml after.2 = settings_yml w
  ∧ next_ref after.2 = next_ref w.
Proof.
  intros Hr after ok. subst after. rewrite reset_run, Hr. cbv zeta.
  fold ok. by destruct ok.
Qed.

(** X12.  After a successful reset(), the next get() constructs a new backend
    object of the class matching the current settings, different from the one
    that was terminated, and calls its setProfile with the current profile. *)
Theorem get_after_reset_is_fresh w r this v :
  Repository_instance w = Some r →
  Settings_instance w = Some this →
  Matches (_repository this) v →
  backend_terminate (trace w) r = true →
  ref r < next_ref w →
  let after := RepositoryFactory.get (RepositoryFactory.reset w).2 in
  ∃ r' ok,
    variant r' = v
    ∧ r' ≠ r
    ∧ Repository_instance after.2 = Some r'
    ∧ trace after.2
        = trace w ++ [Terminate r true; New r';
                      SetProfile r' (_profile this) ok]
    ∧ after.1 = (if ok then Fulfilled r' else Rejected (BackendError r')).
Proof.
  intros Hr Hs Hm Hok Hlt after. subst after.
  rewrite reset_run, Hr. cbv zeta. rewrite Hok. cbn [snd].
  erewrite get_run by (first [reflexivity | exact Hs]).
  apply resolve_Matches in Hm. rewrite Hm. cbv zeta. simpl.
  exists {| variant := v; ref := next_ref w |}.
  destruct (backend_setProfile _ _ _); eexists;
    (split; [reflexivity|]);
    (split; [intros <-; simpl in Hlt; lia|]);
    (split; [reflexivity|]);
    (split; [by rewrite <- !app_assoc|reflexivity]).
Qed.

(** X13.  Without a live instance, RepositoryFactory.setProfile(p) makes no
    backend call and persists the profile, changing no other field of the
    settings; the backend that a later get() constructs is switched to p. *)
Theorem setProfile_without_instance w this p v :
  Repository_instance w = None →
  Settings_instance w = Some this →
  Matches (_repository this) v →
  let saved := Settings.document (Settings.with_profile p this) in
  let switched := RepositoryFactory.setProfile p w in
  let after := RepositoryFactory.get switched.2 in
  (switched.1 = Fulfilled tt
   ∧ Repository_instance switched.2 = None
   ∧ trace switched.2
       = trace w ++ [FsWrite SettingsYml (Utf8.encode (yaml_stringify saved))]
   ∧ settings_yml switched.2 = Some (Utf8.encode (yaml_stringify saved))
   ∧ ∃ this', Settings_instance switched.2 = Some this'
              ∧ _profile this' = p
              ∧ _repository this' = _repository this
              ∧ _hooks this' = _hooks this
              ∧ _hostname this' = _hostname this
              ∧ _remote this' = _remote this)
  ∧ ∃ r ok,
      variant r = v
      ∧ Repository_instance after.2 = Some r
      ∧ trace after.2 = trace switched.2 ++ [New r; SetProfile r p ok].
Proof.
  intros Hr Hs Hm saved switched after.
  assert (switched =
            (Fulfilled tt,
             with_store (Some (Utf8.encode (yaml_stringify saved)))
               (Some (Settings.with_hash
                        (Sha1.digest_hex (Utf8.encode (yaml_stringify saved)))
                        (Settings.with_profile p this)))
               (trace w
                  ++ [FsWrite SettingsYml
                        (Utf8.encode (yaml_stringify saved))]) w))
    as Hrun.
  { subst switched. rewrite factory_setProfile_run, Hr.
    unfold bind at 1. unfold Settings.get at 1. rewrite Hs.
    by rewrite (setProfile_store_run w this p Hs). }
  subst after. rewrite Hrun. cbn [fst snd]. split.
  - simpl. split; [reflexivity|]. split; [exact Hr|].
    split; [reflexivity|]. split; [reflexivity|].
    eexists. split; [reflexivity|]. done.
  - erewrite get_run by (first [exact Hr | reflexivity]).
    apply resolve_Matches in Hm. simpl _repository. rewrite Hm.
    cbv zeta. simpl.
    exists {| variant := v; ref := next_ref w |}.
    destruct (backend_setProfile _ _ _); eexists;
      (split; [reflexivity|]); (split; [reflexivity|]);
      by rewrite <- !app_assoc.
Qed.
End MoreFactory.

Lemma elem_of_backend_calls e t :
  e ∈ backend_calls t ↔ e ∈ t ∧ is_backend_call e = true.
Proof.
  unfold backend_calls. rewrite !list_elem_of_In. apply List.filter_In.
Qed.

Lemma subject_is_backend_call e r : subject e = Some r → is_backend_call e = true.
Proof. by destruct e. Qed.

Lemma constructed_backend_calls t : constructed (backend_calls t) = constructed t.
Proof.
  induction t as [|e t IH]; [reflexivity|].
  unfold backend_calls in *. simpl.
  destruct e; simpl; rewrite ?IH; reflexivity.
Qed.

Lemma no_use_backend_calls t :
  no_use_after_terminate (backend_calls t) → no_use_after_terminate t.
Proof.
  intros Ht before after r -> e He Hs.
  apply (Ht (backend_calls before) (backend_calls after) r) with e.
  - by rewrite backend_calls_app.
  - apply elem_of_backend_calls. split; [done|].
    by apply (subject_is_backend_call e r).
  - done.
Qed.

Section Reached2.
Context {codec : Yaml} {contract : Backends}.

Lemma run_all_snoc calls c w :
  run_all (calls ++ [c]) w = run c (run_all calls w).
Proof. unfold run_all. by rewrite foldl_app. Qed.

Lemma get_fulfilled_cached w r :
  (RepositoryFactory.get w).1 = Fulfilled r →
  Repository_instance (RepositoryFactory.get w).2 = Some r.
Proof.
  destruct (Repository_instance w) as [r0|] eqn:Hr.
  { rewrite (get_cached w r0 Hr). simpl. by intros [= <-]. }
  destruct (Settings_instance w) as [this|] eqn:Hs.
  - rewrite (get_run w this Hr Hs).
    destruct (resolve (_repository this)); [|discriminate].
    cbv zeta. destruct (backend_setProfile _ _ _); [|discriminate].
    simpl. by intros [= <-].
  - unfold RepositoryFactory.get, bind, RepositoryFactory.instance,
      Settings.get. rewrite Hr, Hs. discriminate.
Qed.

(** X18.  Over any sequence of calls from process start, no setProfile or
    terminate call is made on a backend after its terminate() succeeded, the
    cached instance has never been terminated successfully, and get() never
    fulfils with such an instance. *)
Theorem no_call_after_terminate calls w :
  Repository_instance w = None →
  backend_calls (trace w) = [] →
  let w' := run_all calls w in
  no_use_after_terminate (trace w')
  ∧ (∀ r, Repository_instance w' = Some r → Terminate r true ∉ trace w')
  ∧ (∀ r, (RepositoryFactory.get w').1 = Fulfilled r →
          Terminate r true ∉ trace (RepositoryFactory.get w').2).
Proof.
  intros Hr Ht w'.
  assert (Hstart := started_well_formed w Hr Ht).
  assert (Hw := reached_well_formed calls w Hstart).
  assert (∀ w0 r, well_formed (view w0) → Repository_instance w0 = Some r →
                  Terminate r true ∉ trace w0) as Hcached.
  { intros w0 r Hw0 Hc Hin.
    apply (cached_not_terminated _ Hw0 r Hc).
    apply elem_of_backend_calls. by split. }
  split; [|split].
  - apply no_use_backend_calls. apply (terminated_for_good _ Hw).
  - intros r. by apply Hcached.
  - intros r Hget. apply Hcached; [|by apply get_fulfilled_cached].
    change (RepositoryFactory.get w').2 with (run Factory_get w').
    unfold w'. rewrite <- run_all_snoc. by apply reached_well_formed.
Qed.

(** X19.  Over any sequence of calls from process start, every backend that
    was constructed is either the cached instance or has been terminated
    successfully (none is dropped unterminated); the cached instance is the
    last one constructed, and calls are made only on constructed objects. *)
Theorem constructed_is_cached_or_terminated calls w :
  Repository_instance w = None →
  backend_calls (trace w) = [] →
  let w' := run_all calls w in
  (∀ r, New r ∈ trace w' →
        Terminate r true ∈ trace w' ∨ Repository_instance w' = Some r)
  ∧ (∀ r, Repository_instance w' = Some r →
          last (constructed (trace w')) = Some r)
  ∧ (∀ e r, e ∈ trace w' → subject e = Some r → New r ∈ trace w').
Proof.
  intros Hr Ht w'.
  assert (Hw := reached_well_formed calls w (started_well_formed w Hr Ht)).
  fold w' in Hw. split; [|split].
  - intros r Hin.
    destruct (terminated_or_cached _ Hw r) as [Hterm|Hc].
    + apply elem_of_backend_calls. by split.
    + left. by apply elem_of_backend_calls in Hterm as [? _].
    + by right.
  - intros r Hc. rewrite <- constructed_backend_calls.
    by apply (cached_is_last _ Hw).
  - intros e r He Hs.
    assert (New r ∈ history (view w')) as Hnew.
    { apply (subjects_constructed _ Hw e); [|done].
      apply elem_of_backend_calls. split; [done|].
      by apply (subject_is_backend_call e r). }
    by apply elem_of_backend_calls in Hnew as [? _].
Qed.

(** X16.  Any single call of the settings store or the factory constructs at
    most one backend; a backend is constructed only into an empty cache or
    right after a successful terminate() of the cached one, it gets the next
    reference and becomes the cached instance. *)
Theorem call_constructs_at_most_once c w :
  ∃ new,
    backend_calls (trace (run c w)) = backend_calls (trace w) ++ new
    ∧ length (constructed new) ≤ 1
    ∧ (constructed new = [] → next_ref (run c w) = next_ref w)
    ∧ ∀ r', New r' ∈ new →
        Repository_instance (run c w) = Some r'
        ∧ ref r' = next_ref w
        ∧ next_ref (run c w) = S (next_ref w)
        ∧ (Repository_instance w = None
           ∨ ∃ r rest, Repository_instance w = Some r
                       ∧ new = Terminate r true :: rest).
Proof.
  assert (Ht := call_transition c w).
  remember (view w) as v eqn:Hv. remember (view (run c w)) as v' eqn:Hv'.
  assert (cached v = Repository_instance w ∧ counter v = next_ref w
          ∧ history v = backend_calls (trace w)) as (Hc & Hn & Hh)
    by (by subst v).
  assert (cached v' = Repository_instance (run c w)
          ∧ counter v' = next_ref (run c w)
          ∧ history v' = backend_calls (trace (run c w))) as (Hc' & Hn' & Hh')
    by (by subst v').
  clear Hv Hv'. rewrite <- Hc, <- Hn, <- Hh, <- Hc', <- Hn', <- Hh'.
  destruct Ht as [|class p ok Hnone r|r p ok Hsome|r Hsome|r Hsome
                  |r class p ok Hsome r']; simpl.
  - exists []. rewrite app_nil_r. split; [done|]. split; [simpl; lia|].
    split; [done|]. intros r' Hin. by apply elem_of_nil in Hin.
  - eexists. split; [reflexivity|]. split; [simpl; lia|].
    split; [discriminate|]. intros r'' Hin.
    apply elem_of_cons in Hin as [[= ->]|Hin].
    + split; [done|]. split; [done|]. split; [done|]. by left.
    + apply list_elem_of_singleton in Hin. discriminate.
  - eexists. split; [reflexivity|]. split; [simpl; lia|]. split; [done|].
    intros r' Hin. apply list_elem_of_singleton in Hin. discriminate.
  - eexists. split; [reflexivity|]. split; [simpl; lia|]. split; [done|].
    intros r' Hin. apply list_elem_of_singleton in Hin. discriminate.
  - eexists. split; [reflexivity|]. split; [simpl; lia|]. split; [done|].
    intros r' Hin. apply list_elem_of_singleton in Hin. discriminate.
  - eexists. split; [reflexivity|]. split; [simpl; lia|].
    split; [discriminate|]. intros r'' Hin.
    apply elem_of_cons in Hin as [[=]|Hin].
    apply elem_of_cons in Hin as [[= ->]|Hin].
    + split; [done|]. split; [done|]. split; [done|]. right. eauto.
    + apply list_elem_of_singleton in Hin. discriminate.
Qed.
End Reached2.

(** ** The shared terminal *)

Section Terminal.
Import Terminals.
Context {editor : Processes}.

Lemma created_app l1 l2 : created (l1 ++ l2) = created l1 ++ created l2.
Proof. apply omap_app. Qed.

Lemma elem_of_created t l : t ∈ created l ↔ CreateTerminal t ∈ l.
Proof.
  unfold created. rewrite list_elem_of_omap. split.
  - intros (e & He & Hc). destruct e; simpl in Hc; try discriminate.
    by injection Hc as ->.
  - intros He. by exists (CreateTerminal t).
Qed.

Lemma no_use_after_dispose_snoc l e :
  no_use_after_dispose l →
  Dispose (window_subject e) ∉ l →
  no_use_after_dispose (l ++ [e]).
Proof.
  intros Hl He before after t Heq x Hx.
  destruct after as [|y after _] using rev_ind; [by apply elem_of_nil in Hx|].
  change (before ++ Dispose t :: after ++ [y])
    with (before ++ (Dispose t :: after) ++ [y]) in Heq.
  rewrite app_assoc in Heq. apply app_inj_tail in Heq as [-> ->].
  apply elem_of_app in Hx as [Hx|Hx].
  - by apply (Hl before after t eq_refl).
  - apply list_elem_of_singleton in Hx as ->. intros Hs. apply He.
    rewrite Hs. apply elem_of_app. right. apply elem_of_cons. by left.
Qed.

(** A call about the terminal held, other than its creation: the window
    stays sane; it stays healthy unless the call disposes of the terminal. *)
Lemma sane_call win t e :
  healthy win → terminal_instance win = Some t →
  window_subject e = t → creation e = None →
  sane (call e win).
Proof.
  intros [[H1 H2 H3] H4 H5] Ht Hs Hc. split; simpl.
  - intros e' [He'| ->%list_elem_of_singleton]%elem_of_app; [by apply H1|].
    rewrite Hs. by apply H4.
  - rewrite created_app. unfold created at 2. simpl. rewrite Hc.
    by rewrite app_nil_r.
  - apply no_use_after_dispose_snoc; [done|]. rewrite Hs. by apply H5.
Qed.

Lemma healthy_call win t e :
  healthy win → terminal_instance win = Some t →
  window_subject e = t → creation e = None → e ≠ Dispose t →
  healthy (call e win).
Proof.
  intros Hwin Ht Hs Hc Hne. split.
  - by apply (sane_call win t).
  - apply (held_below win Hwin).
  - simpl. intros t' Ht' [Hin| Heq%list_elem_of_singleton]%elem_of_app.
    + by apply (held_not_disposed win Hwin t').
    + congruence.
Qed.

Lemma healthy_createTerminal workingDirectory win :
  sane win → healthy (createTerminal workingDirectory win).2.
Proof.
  intros [H1 H2 H3].
  assert (∀ e, e ∈ calls win →
            terminal_ref (window_subject e) ≠ next_terminal win) as Hfresh.
  { intros e He. apply H1 in He. lia. }
  split; [split|..]; simpl.
  - intros e [He| ->%list_elem_of_singleton]%elem_of_app.
    + apply H1 in He. lia.
    + simpl. lia.
  - rewrite created_app, fmap_app. apply NoDup_app.
    split; [done|]. split; [|apply NoDup_singleton].
    intros n (t & -> & Hin)%list_elem_of_fmap Heq%list_elem_of_singleton.
    apply elem_of_created in Hin. by apply Hfresh in Hin.
  - apply no_use_after_dispose_snoc; [done|]. simpl. intros Hin.
    by apply Hfresh in Hin.
  - intros t [= <-]. simpl. lia.
  - intros t [= <-] [Hin| [=]%list_elem_of_singleton]%elem_of_app.
    by apply Hfresh in Hin.
Qed.

Lemma createTerminal_held workingDirectory win :
  terminal_instance (createTerminal workingDirectory win).2
  = Some (createTerminal workingDirectory win).1.
Proof. reflexivity. Qed.

Lemma healthy_getTerminal workingDirectory win :
  healthy win → healthy (getTerminal workingDirectory win).2.
Proof.
  intros Hwin. unfold getTerminal.
  destruct (terminal_instance win) as [t|] eqn:Ht.
  - destruct (negb (String.eqb (cwd (creationOptions t)) workingDirectory)).
    + destruct (createTerminal _ _) as [t' win'] eqn:Hc. cbn [snd].
      assert (healthy win') as Hw'.
      { change win' with (t', win').2. rewrite <- Hc.
        apply healthy_createTerminal. by apply (sane_call win t). }
      apply (healthy_call win' t'); try done.
      change win' with (t', win').2. rewrite <- Hc. by rewrite createTerminal_held, Hc.
    + cbv zeta.
      assert (healthy (call (ProcessId t (process_running (calls win) t)) win))
        as Hp by (by apply (healthy_call win t)).
      destruct (process_running (calls win) t).
      * cbn [snd]. by apply (healthy_call _ t).
      * destruct (createTerminal _ _) as [t' win'] eqn:Hc. cbn [snd].
        assert (healthy win') as Hw'.
        { change win' with (t', win').2. rewrite <- Hc.
          apply healthy_createTerminal. apply (healthy_sane _ Hp). }
        apply (healthy_call win' t'); try done.
        change win' with (t', win').2. rewrite <- Hc.
        by rewrite createTerminal_held, Hc.
  - destruct (createTerminal _ _) as [t' win'] eqn:Hc. cbn [snd].
    assert (healthy win') as Hw'.
    { change win' with (t', win').2. rewrite <- Hc.
      apply healthy_createTerminal. apply (healthy_sane _ Hwin). }
    apply (healthy_call win' t'); try done.
    change win' with (t', win').2. rewrite <- Hc.
    by rewrite createTerminal_held, Hc.
Qed.

Lemma healthy_open_all dirs win : healthy win → healthy (open_all dirs win).
Proof.
  revert win. induction dirs as [|d dirs IH]; intros win Hwin; [done|].
  apply IH. by apply healthy_getTerminal.
Qed.

Lemma healthy_empty n :
  healthy {| terminal_instance := None; next_terminal := n; calls := [] |}.
Proof.
  split; [split|..]; simpl; try discriminate.
  - intros e He. by apply elem_of_nil in He.
  - apply NoDup_nil_2.
  - intros [|??] after t Heq; discriminate.
Qed.

Lemma getTerminal_held workingDirectory win :
  terminal_instance (getTerminal workingDirectory win).2
  = Some (getTerminal workingDirectory win).1.
Proof.
  unfold getTerminal. destruct (terminal_instance win) as [t|] eqn:Ht.
  - destruct (negb (String.eqb (cwd (creationOptions t)) workingDirectory));
      [reflexivity|].
    cbv zeta. by destruct (process_running (calls win) t).
  - reflexivity.
Qed.

(** X20.  Settings.getTerminal(dir) always returns a terminal whose creation
    cwd is dir, which is the one held in $terminal, and whose show(false) is
    the last call made. *)
Theorem getTerminal_gives_terminal_of_directory workingDirectory win :
  let result := getTerminal workingDirectory win in
  cwd (creationOptions result.1) = workingDirectory
  ∧ terminal_instance result.2 = Some result.1
  ∧ last (calls result.2) = Some (Show result.1 false).
Proof.
  intros result. subst result. unfold getTerminal.
  destruct (terminal_instance win) as [t|] eqn:Ht.
  - destruct (String.eqb (cwd (creationOptions t)) workingDirectory) eqn:Hcwd;
      simpl negb; cbv iota.
    + apply String.eqb_eq in Hcwd. cbv zeta.
      destruct (process_running (calls win) t); simpl.
      * split; [done|]. split; [done|]. apply last_snoc.
      * split; [done|]. split; [done|]. apply last_snoc.
    + simpl. split; [done|]. split; [done|]. apply last_snoc.
  - simpl. split; [done|]. split; [done|]. apply last_snoc.
Qed.

(** X21.  With a terminal held, getTerminal(dir) keeps it (no creation, no
    dispose) when its cwd is dir and its process is running; replaces it by a
    new terminal without disposing of it when its cwd is dir but its process
    is gone; and disposes of it and creates a new one when its cwd differs,
    without asking for the process id. *)
Theorem getTerminal_reuses_or_replaces workingDirectory win t :
  terminal_instance win = Some t →
  let result := getTerminal workingDirectory win in
  let running := process_running (calls win) t in
  let fresh :=
    {| creationOptions := {| name := "Sync Settings"; cwd := workingDirectory;
                            isTransient := true |};
       terminal_ref := next_terminal win |} in
  (cwd (creationOptions t) = workingDirectory → running = true →
     result.1 = t
     ∧ next_terminal result.2 = next_terminal win
     ∧ calls result.2 = calls win ++ [ProcessId t true; Show t false])
  ∧ (cwd (creationOptions t) = workingDirectory → running = false →
     result.1 = fresh
     ∧ calls result.2
         = calls win ++ [ProcessId t false; CreateTerminal fresh;
                         Show fresh false])
  ∧ (cwd (creationOptions t) ≠ workingDirectory →
     result.1 = fresh
     ∧ calls result.2
         = calls win ++ [Dispose t; CreateTerminal fresh; Show fresh false]).
Proof.
  intros Ht result running fresh. subst result. unfold getTerminal.
  rewrite Ht. split; [|split].
  - intros Hcwd Hrun. apply String.eqb_eq in Hcwd. rewrite Hcwd.
    simpl negb. cbv iota zeta. fold running. rewrite Hrun. simpl.
    by rewrite <- app_assoc.
  - intros Hcwd Hrun. apply String.eqb_eq in Hcwd. rewrite Hcwd.
    simpl negb. cbv iota zeta. fold running. rewrite Hrun. simpl.
    by rewrite <- !app_assoc.
  - intros Hcwd. apply String.eqb_neq in Hcwd. rewrite Hcwd. simpl.
    by rewrite <- !app_assoc.
Qed.

(** X22.  Over any sequence of getTerminal calls from a window without
    terminal, nothing is asked of a terminal after it was disposed of,
    terminals created have pairwise distinct references, and the terminal held
    or returned has not been disposed of. *)
Theorem terminal_never_used_after_dispose dirs win workingDirectory :
  terminal_instance win = None →
  calls win = [] →
  let win' := open_all dirs win in
  let result := getTerminal workingDirectory win' in
  no_use_after_dispose (calls win')
  ∧ NoDup (terminal_ref <$> created (calls win'))
  ∧ (∀ t, terminal_instance win' = Some t → Dispose t ∉ calls win')
  ∧ Dispose result.1 ∉ calls result.2.
Proof.
  intros Ht Hc win' result.
  assert (healthy win) as Hwin.
  { destruct win as [inst n l]. simpl in *. subst. apply healthy_empty. }
  assert (healthy win') as Hw' by (by apply healthy_open_all).
  assert (healthy result.2) as Hr by (by apply healthy_getTerminal).
  split; [apply (disposed_for_good _ (healthy_sane _ Hw'))|].
  split; [apply (terminals_distinct _ (healthy_sane _ Hw'))|].
  split; [apply (held_not_disposed _ Hw')|].
  apply (held_not_disposed _ Hr). apply getTerminal_held.
Qed.
End Terminal.

(** ** Operations one after the other *)

Section Compositions.
Context {codec : Yaml} {contract : Backends}.

(** X9.  A document with a repository but no (or an empty) profile is not
    fatal: set() logs that the profile property is required, keeps the
    repository and takes the empty profile, and the backend
    RepositoryFactory.get() then builds is switched to profile ''. *)
Theorem missing_profile_falls_back_to_empty data r w this v :
  Settings_instance w = Some this →
  Repository_instance w = None →
  repository data = Some r →
  truthy (profile data) = false →
  Matches r v →
  let after := Settings.set data w in
  let got := RepositoryFactory.get after.2 in
  after.1 = Fulfilled tt
  ∧ LogError "The `profile` property is required" ∈ trace after.2
  ∧ (∃ this', Settings_instance after.2 = Some this'
              ∧ _profile this' = ""
              ∧ _repository this' = r)
  ∧ ∃ r' ok,
      variant r' = v
      ∧ Repository_instance got.2 = Some r'
      ∧ trace got.2 = trace after.2 ++ [New r'; SetProfile r' "" ok].
Proof.
  intros Hs Hr Hrep Hp Hm after got.
  assert (default "" (profile data) = "") as Hempty.
  { destruct (profile data) as [[|]|]; done. }
  subst got after. rewrite (set_run data w this Hs). cbn [fst snd].
  split; [reflexivity|]. split.
  { simpl. apply elem_of_app. right. unfold log_of_set. rewrite Hp.
    apply elem_of_cons. right. apply elem_of_cons. by left. }
  assert (_profile (fields_after_set data this) = ""
          ∧ _repository (fields_after_set data this) = r) as [Hf1 Hf2].
  { unfold fields_after_set. rewrite Hrep. simpl. by rewrite Hempty. }
  split; [eexists; split; [reflexivity|done]|].
  erewrite get_run by (first [exact Hr | reflexivity]).
  rewrite Hf2, Hf1. apply resolve_Matches in Hm. rewrite Hm. cbv zeta.
  exists {| variant := v; ref := next_ref w |}.
  destruct (backend_setProfile _ _ _); eexists;
    (split; [reflexivity|]); (split; [reflexivity|]);
    simpl; by rewrite <- !app_assoc.
Qed.

(** X14.  When the file changed and no instance is live,
    RepositoryFactory.reload() returns true with the cache still empty, and
    the get() that follows constructs the backend class of the newly loaded
    document and gives it the new profile. *)
Theorem reload_then_get_uses_new_document w this data v :
  Repository_instance w = None →
  Settings_instance w = Some this →
  _hash this ≠ Settings.digest (decoded (settings_yml w)) →
  incoming (decoded (settings_yml w)) = Some data →
  Matches (_repository (fields_after_set data this)) v →
  let reloaded := RepositoryFactory.reload w in
  let got := RepositoryFactory.get reloaded.2 in
  reloaded.1 = Fulfilled true
  ∧ Repository_instance reloaded.2 = None
  ∧ ∃ r ok,
      variant r = v
      ∧ Repository_instance got.2 = Some r
      ∧ trace got.2
          = trace reloaded.2
              ++ [New r; SetProfile r (_profile (fields_after_set data this)) ok]
      ∧ got.1 = (if ok then Fulfilled r else Rejected (BackendError r)).
Proof.
  intros Hr Hs Hh Hin Hm reloaded got.
  assert (reloaded =
            (Fulfilled true,
             with_store (settings_yml w)
               (Some (Settings.with_hash
                        (Settings.digest (decoded (settings_yml w)))
                        (fields_after_set data this)))
               ((trace w ++ reads SettingsYml w) ++ log_of_set data) w))
    as Hrun.
  { subst reloaded. rewrite factory_reload_run, Hs.
    rewrite (reload_run w this Hs). cbv zeta.
    rewrite bool_decide_eq_true_2 by exact Hh. rewrite Hin.
    cbn [Repository_instance with_store]. by rewrite Hr. }
  subst got. rewrite Hrun. cbn [fst snd].
  split; [reflexivity|]. split; [exact Hr|].
  erewrite get_run by (first [exact Hr | reflexivity]).
  apply resolve_Matches in Hm. simpl _repository. rewrite Hm. cbv zeta.
  exists {| variant := v; ref := next_ref w |}.
  destruct (backend_setProfile _ _ _); eexists;
    (split; [reflexivity|]); (split; [reflexivity|]);
    (split; [simpl; by rewrite <- !app_assoc | reflexivity]).
Qed.

(** X15.  When terminate() fails during RepositoryFactory.reload(), reload
    rejects after the settings have already been replaced; the old backend
    stays cached and get() hands it out, and a further reload() finds the
    digest unchanged, returns false and makes no new attempt to terminate or
    rebuild. *)
Theorem failed_terminate_keeps_old_backend w this data r :
  Repository_instance w = Some r →
  Settings_instance w = Some this →
  _hash this ≠ Settings.digest (decoded (settings_yml w)) →
  incoming (decoded (settings_yml w)) = Some data →
  backend_terminate ((trace w ++ reads SettingsYml w) ++ log_of_set data) r
    = false →
  let reloaded := RepositoryFactory.reload w in
  let again := RepositoryFactory.reload reloaded.2 in
  reloaded.1 = Rejected (BackendError r)
  ∧ Settings_instance reloaded.2
      = Some (Settings.with_hash
                (Settings.digest (decoded (settings_yml w)))
                (fields_after_set data this))
  ∧ RepositoryFactory.get reloaded.2 = (Fulfilled r, reloaded.2)
  ∧ again.1 = Fulfilled false
  ∧ Repository_instance again.2 = Some r
  ∧ backend_calls (trace again.2)
      = backend_calls (trace w) ++ [Terminate r false].
Proof.
  intros Hr Hs Hh Hin Hfail reloaded again.
  set (this' := Settings.with_hash
                  (Settings.digest (decoded (settings_yml w)))
                  (fields_after_set data this)).
  assert (reloaded =
            (Rejected (BackendError r),
             with_backend (Some r) (next_ref w)
               (((trace w ++ reads SettingsYml w) ++ log_of_set data)
                  ++ [Terminate r false])
               (with_store (settings_yml w) (Some this')
                  ((trace w ++ reads SettingsYml w) ++ log_of_set data) w)))
    as Hrun.
  { subst reloaded. rewrite factory_reload_run, Hs.
    rewrite (reload_run w this Hs). cbv zeta.
    rewrite bool_decide_eq_true_2 by exact Hh. rewrite Hin.
    cbn [Repository_instance with_store trace next_ref]. rewrite Hr.
    by rewrite Hfail. }
  subst again. rewrite Hrun. cbn [fst snd].
  split; [reflexivity|]. split; [reflexivity|].
  split; [by apply get_cached|].
  rewrite factory_reload_run. cbn [Settings_instance with_backend with_store].
  erewrite reload_run by reflexivity. cbv zeta.
  rewrite bool_decide_eq_false_2 by (intros Hne; by apply Hne).
  cbn [fst snd]. split; [reflexivity|]. split; [reflexivity|].
  simpl trace.
  by rewrite !backend_calls_app, !backend_calls_reads,
       backend_calls_log_of_set, !app_nil_r.
Qed.
End Compositions.

(** ** The further properties on the sample host *)

Lemma failed_load_leaves_blank_settings_witness :
  let w := Sample.boot (Some "{") in
  let after := Settings.load (codec := Sample.yaml) Sample.context w in
  after.1 = Rejected YamlParseError
  ∧ (Settings.reload (codec := Sample.yaml) (edited None after.2)).1
      ≠ Fulfilled false.
Proof.
  intros w after.
  destruct (failed_load_leaves_blank_settings (codec := Sample.yaml)
              Sample.context w (Utf8.decode "{")) as (H1 & _ & _ & _ & H2).
  - unfold parsed_by_load. rewrite present_decoded. reflexivity.
  - vm_compute. reflexivity.
  - split; [exact H1 | exact (H2 None)].
Defined.

Lemma reload_after_operation_is_noop_witness :
  let first :=
    (Settings.load (codec := Sample.yaml) Sample.context
       (Sample.boot (Some Sample.latin1_bytes))).2 in
  let w := Sample.started (Some Sample.file_main_text) in
  (Settings.reload (codec := Sample.yaml) first).1 = Fulfilled false
  ∧ (Settings.reload (codec := Sample.yaml)
       (Settings.setProfile (codec := Sample.yaml) "work" w).2).1
    = Fulfilled false.
Proof.
  intros first w.
  destruct (reload_after_operation_is_noop (codec := Sample.yaml)
              Sample.context "work") as (Hload & Hsave & _).
  split.
  - destruct (Hload (Sample.boot (Some Sample.latin1_bytes)))
      as (_ & H & _); [|exact H].
    intros text Ht.
    assert (parsed_by_load (Sample.boot (Some Sample.latin1_bytes))
            = Some (Utf8.decode Sample.latin1_bytes)) as Hp
      by (unfold parsed_by_load; rewrite present_decoded; reflexivity).
    rewrite Hp in Ht. apply (inj Some) in Ht. subst text.
    vm_compute. discriminate.
  - destruct (Hsave w (Sample.settings_of w)) as (_ & _ & H & _);
      [vm_compute; reflexivity | exact H].
Defined.

Lemma reload_replaces_fields_witness :
  let w := edited (Some Sample.git_remote_text)
             (Sample.started (Some Sample.file_main_text)) in
  ∃ this',
    Settings_instance (Settings.reload (codec := Sample.yaml) w).2 = Some this'
    ∧ _repository this'
        = Sample.section GIT None (Some "git@example.org:me/settings.git").
Proof.
  intros w.
  destruct (reload_replaces_fields (codec := Sample.yaml)
              w (Sample.settings_of w) Sample.git_remote)
    as (this' & _ & H1 & _ & (H2 & _) & _).
  - vm_compute. reflexivity.
  - vm_compute. discriminate.
  - vm_compute. reflexivity.
  - exists this'. split; [exact H1 | exact H2].
Defined.

Lemma set_remote_follows_extensionKind_witness :
  let w := Sample.started (Some Sample.file_main_text) in
  ∃ this',
    Settings_instance
      (Settings.set Sample.forced_workspace w).2 = Some this'
    ∧ _remote this' = true.
Proof.
  intros w.
  destruct (set_remote_follows_extensionKind Sample.forced_workspace
              w (Sample.settings_of w)) as (this' & H1 & H2 & _).
  - vm_compute. reflexivity.
  - exists this'. split; [exact H1 | exact (H2 eq_refl)].
Defined.

Lemma remote_override_not_persisted_witness :
  let w := Sample.started (Some Sample.file_main_text) in
  let w1 := (Settings.setProfile (codec := Sample.yaml) "work" w).2 in
  ∃ this',
    (Settings.load (codec := Sample.yaml) Sample.context w1).1
      = Fulfilled this'
    ∧ _remote this' = false
    ∧ _profile this' = "work".
Proof.
  intros w w1.
  destruct (remote_override_not_persisted (codec := Sample.yaml)
              w (Sample.settings_of w) "work" Sample.context)
    as (_ & _ & this' & H1 & H2 & H3).
  - vm_compute. reflexivity.
  - vm_compute. reflexivity.
  - vm_compute. discriminate.
  - exists this'. split; [exact H1|]. split; [exact H2 | exact H3].
Defined.

Lemma failed_reload_changes_nothing_witness :
  let w := edited (Some "{") (Sample.started (Some Sample.file_main_text)) in
  let after := Settings.reload (codec := Sample.yaml) w in
  after.1 = Rejected YamlParseError
  ∧ Settings_instance after.2 = Some (Sample.settings_of w).
Proof.
  intros w after.
  destruct (failed_reload_changes_nothing (codec := Sample.yaml)
              w (Sample.settings_of w) "{") as (H1 & H2 & _).
  - vm_compute. reflexivity.
  - reflexivity.
  - discriminate.
  - vm_compute. reflexivity.
  - vm_compute. discriminate.
  - split; [exact H1 | exact H2].
Defined.

Lemma missing_profile_falls_back_to_empty_witness :
  let w := Sample.started (Some Sample.file_main_text) in
  let after := Settings.set Sample.no_profile w in
  ∃ this', Settings_instance after.2 = Some this' ∧ _profile this' = "".
Proof.
  intros w after.
  destruct (missing_profile_falls_back_to_empty (contract := Sample.backends)
              Sample.no_profile
              (Sample.section FILE (Some "/srv/sync") None)
              w (Sample.settings_of w) FileRepository)
    as (_ & _ & (this' & H1 & H2 & _) & _).
  - vm_compute. reflexivity.
  - vm_compute. reflexivity.
  - reflexivity.
  - reflexivity.
  - by apply matches_file.
  - exists this'. split; [exact H1 | exact H2].
Defined.

Lemma factory_needs_settings_witness :
  let w := Sample.boot None in
  RepositoryFactory.get (contract := Sample.backends) w
    = (Rejected NotInitialized, w).
Proof.
  intros w.
  destruct (factory_needs_settings (codec := Sample.yaml)
              (contract := Sample.backends) w "work") as (H & _).
  - reflexivity.
  - reflexivity.
  - exact H.
Defined.

Lemma reset_clears_after_terminate_witness :
  let w := Sample.live (Some Sample.file_main_text) in
  Repository_instance
    (RepositoryFactory.reset (contract := Sample.backends) w).2 = None.
Proof.
  intros w.
  destruct (reset_clears_after_terminate (contract := Sample.backends) w
              {| variant := FileRepository; ref := 0 |}) as (_ & H & _).
  - vm_compute. reflexivity.
  - exact H.
Defined.

Lemma get_after_reset_is_fresh_witness :
  let w := Sample.live (Some Sample.file_main_text) in
  let after :=
    RepositoryFactory.get (contract := Sample.backends)
      (RepositoryFactory.reset (contract := Sample.backends) w).2 in
  ∃ r', r' ≠ {| variant := FileRepository; ref := 0 |}
        ∧ Repository_instance after.2 = Some r'.
Proof.
  intros w after.
  destruct (get_after_reset_is_fresh (contract := Sample.backends) w
              {| variant := FileRepository; ref := 0 |}
              (Sample.settings_of w) FileRepository)
    as (r' & ok & _ & H1 & H2 & _).
  - vm_compute. reflexivity.
  - vm_compute. reflexivity.
  - apply matches_file. vm_compute. reflexivity.
  - reflexivity.
  - vm_compute. lia.
  - exists r'. split; [exact H1 | exact H2].
Defined.

Lemma setProfile_without_instance_witness :
  let w := Sample.started (Some Sample.file_main_text) in
  let switched :=
    RepositoryFactory.setProfile (codec := Sample.yaml)
      (contract := Sample.backends) "work" w in
  switched.1 = Fulfilled tt
  ∧ settings_yml switched.2 = Some Sample.file_work_text.
Proof.
  intros w switched.
  destruct (setProfile_without_instance (codec := Sample.yaml)
              (contract := Sample.backends) w (Sample.settings_of w) "work"
              FileRepository) as ((H1 & _ & _ & H2 & _) & _).
  - vm_compute. reflexivity.
  - vm_compute. reflexivity.
  - apply matches_file. vm_compute. reflexivity.
  - split; [exact H1|].
    etransitivity; [exact H2 | vm_compute; reflexivity].
Defined.

Lemma reload_then_get_uses_new_document_witness :
  let w := edited (Some Sample.git_remote_text)
             (Sample.started (Some Sample.file_main_text)) in
  let reloaded :=
    RepositoryFactory.reload (codec := Sample.yaml)
      (contract := Sample.backends) w in
  ∃ r, variant r = RemoteGitRepository
       ∧ Repository_instance
           (RepositoryFactory.get (contract := Sample.backends) reloaded.2).2
         = Some r.
Proof.
  intros w reloaded.
  destruct (reload_then_get_uses_new_document (codec := Sample.yaml)
              (contract := Sample.backends) w (Sample.settings_of w)
              Sample.git_remote RemoteGitRepository)
    as (_ & _ & r & ok & H1 & H2 & _).
  - vm_compute. reflexivity.
  - vm_compute. reflexivity.
  - vm_compute. discriminate.
  - vm_compute. reflexivity.
  - apply resolve_Matches. vm_compute. reflexivity.
  - exists r. split; [exact H1 | exact H2].
Defined.

Lemma failed_terminate_keeps_old_backend_witness :
  let w := edited (Some Sample.git_remote_text)
             (Sample.live (Some Sample.file_main_text)) in
  let r := {| variant := FileRepository; ref := 0 |} in
  let reloaded :=
    RepositoryFactory.reload (codec := Sample.yaml)
      (contract := Sample.stubborn) w in
  reloaded.1 = Rejected (BackendError r)
  ∧ RepositoryFactory.get (contract := Sample.stubborn) reloaded.2
    = (Fulfilled r, reloaded.2).
Proof.
  intros w r reloaded.
  destruct (failed_terminate_keeps_old_backend (codec := Sample.yaml)
              (contract := Sample.stubborn) w (Sample.settings_of w)
              Sample.git_remote r) as (H1 & _ & H2 & _).
  - vm_compute. reflexivity.
  - vm_compute. reflexivity.
  - vm_compute. discriminate.
  - vm_compute. reflexivity.
  - reflexivity.
  - split; [exact H1 | exact H2].
Defined.

Lemma no_call_after_terminate_witness :
  no_use_after_terminate
    (trace (run_all (codec := Sample.yaml) (contract := Sample.backends)
              Sample.session (Sample.boot (Some Sample.file_main_text)))).
Proof.
  destruct (no_call_after_terminate (codec := Sample.yaml)
              (contract := Sample.backends) Sample.session
              (Sample.boot (Some Sample.file_main_text)) eq_refl eq_refl)
    as (H & _).
  exact H.
Defined.

Lemma constructed_is_cached_or_terminated_witness :
  let w' := run_all (codec := Sample.yaml) (contract := Sample.backends)
              Sample.session (Sample.boot (Some Sample.file_main_text)) in
  let r := {| variant := FileRepository; ref := 0 |} in
  Terminate r true ∈ trace w' ∨ Repository_instance w' = Some r.
Proof.
  intros w' r.
  destruct (constructed_is_cached_or_terminated (codec := Sample.yaml)
              (contract := Sample.backends) Sample.session
              (Sample.boot (Some Sample.file_main_text)) eq_refl eq_refl)
    as (H & _).
  apply (H r). apply list_elem_of_In. vm_compute.
  repeat (first [left; reflexivity | right]).
Defined.

Lemma getTerminal_reuses_or_replaces_witness :
  let first := Terminals.getTerminal (editor := Sample.editor) "/srv/sync"
                 Sample.window in
  let second := Terminals.getTerminal (editor := Sample.editor)
                  "/home/me/settings" first.2 in
  Terminals.calls second.2
    = Terminals.calls first.2
        ++ [Terminals.Dispose first.1; Terminals.CreateTerminal second.1;
            Terminals.Show second.1 false].
Proof.
  intros first second.
  destruct (getTerminal_reuses_or_replaces (editor := Sample.editor)
              "/home/me/settings" first.2 first.1) as (_ & _ & H).
  - reflexivity.
  - destruct H as (H1 & H2); [discriminate|].
    unfold second. rewrite H2, H1. reflexivity.
Defined.

Lemma terminal_never_used_after_dispose_witness :
  Terminals.no_use_after_dispose
    (Terminals.calls
       (Terminals.open_all (editor := Sample.editor) Sample.directories
          Sample.window)).
Proof.
  destruct (terminal_never_used_after_dispose (editor := Sample.editor)
              Sample.directories Sample.window "/srv/sync" eq_refl eq_refl)
    as (H & _).
  exact H.
Defined.
